(** * fueleo: the fuel-price aggregator and its query endpoint (app.py)

    A shallow embedding of [app.py] and of the parts of the libraries it
    calls ([json], [pandas], [re], [requests], the SQL store, Flask's
    dispatch), followed by the properties of the program.

    Conventions.
    - A Python [str] is a [string]; its characters are the code points
      below 256.
    - A Python value that came out of [json.loads] is a [json].  A Python
      [float] is held as the literal that denotes it (what [repr] prints
      for it), so that the missing value of pandas ([nan]) is
      [JFloat "NaN"]; two literals of one float are two values here, so an
      equation between values proved here holds in Python and an
      inequation need not.
    - A computation ends in [Ok], in [Raise] (a Python exception), or in
      [Unmodelled] when it leaves the fragment of a library that is
      described here (each such place says so).
    - [print] and the progress bar are left out.
    - The state of a run is the database as the connection of [main] sees
      it, and the number of readings of the clock taken so far. *)

From Stdlib Require Import List String Ascii ZArith NArith Lia Bool Arith.
From Stdlib Require Import DecimalString.
From Stdlib Require Decimal DecimalFacts DecimalPos DecimalZ.
Import ListNotations.

#[local] Open Scope list_scope.
#[local] Open Scope bool_scope.
#[local] Open Scope string_scope.

(** ** Outcomes of Python computations *)

Inductive exn : Set :=
| JSONDecodeError
| TypeError
| AttributeError
| KeyError
| ValueError
| RequestException
| PatternError
| DatabaseError.

Inductive outcome (A : Type) : Type :=
| Ok (a : A)
| Raise (e : exn)
| Unmodelled.

Arguments Ok {A} a.
Arguments Raise {A} e.
Arguments Unmodelled {A}.

Definition bind {A B : Type} (m : outcome A) (k : A -> outcome B) : outcome B :=
  match m with
  | Ok a => k a
  | Raise e => Raise e
  | Unmodelled => Unmodelled
  end.

Notation "x <- m ;; k" := (bind m (fun x => k))
  (at level 61, m at next level, right associativity).
Notation "' p <- m ;; k" := (bind m (fun x => let 'p := x in k))
  (at level 61, p pattern, m at next level, right associativity).

Fixpoint mapM {A B : Type} (f : A -> outcome B) (l : list A) : outcome (list B) :=
  match l with
  | [] => Ok []
  | a :: l' => b <- f a ;; bs <- mapM f l' ;; Ok (b :: bs)
  end.

(** ** Characters and strings *)

Definition dquote : ascii := Eval cbv in ascii_of_nat 34.
Definition char_bs : ascii := Eval cbv in ascii_of_nat 8.
Definition char_tab : ascii := Eval cbv in ascii_of_nat 9.
Definition char_lf : ascii := Eval cbv in ascii_of_nat 10.
Definition char_ff : ascii := Eval cbv in ascii_of_nat 12.
Definition char_cr : ascii := Eval cbv in ascii_of_nat 13.

Definition code (c : ascii) : N := N_of_ascii c.

Definition is_digit (c : ascii) : bool :=
  (48 <=? code c)%N && (code c <=? 57)%N.

Definition is_ws (c : ascii) : bool :=
  (c =? " ")%char || (c =? char_tab)%char || (c =? char_lf)%char || (c =? char_cr)%char.

Fixpoint skip_ws (s : string) : string :=
  match s with
  | String c r => if is_ws c then skip_ws r else s
  | EmptyString => EmptyString
  end.

Fixpoint span_digits (s : string) : string * string :=
  match s with
  | String c r =>
      if is_digit c then let (d, r') := span_digits r in (String c d, r')
      else (EmptyString, s)
  | EmptyString => (EmptyString, EmptyString)
  end.

(** [strip_prefix p s] is the rest of [s] after [p] when [s] starts with [p]. *)
Fixpoint strip_prefix (p s : string) : option string :=
  match p with
  | EmptyString => Some s
  | String a p' =>
      match s with
      | String b s' => if (a =? b)%char then strip_prefix p' s' else None
      | EmptyString => None
      end
  end.

Definition startswith (s p : string) : bool :=
  match strip_prefix p s with Some _ => true | None => false end.

(** Python's [p in s] on strings. *)
Fixpoint str_in (p s : string) : bool :=
  startswith s p ||
  match s with
  | String _ s' => str_in p s'
  | EmptyString => false
  end.

(** The first character of a string satisfies [p]. *)
Definition head_is (p : ascii -> bool) (s : string) : bool :=
  match s with
  | String c _ => p c
  | EmptyString => false
  end.

(** Sample texts are written with apostrophes where JSON has double
    quotes. *)
Fixpoint dq (s : string) : string :=
  match s with
  | String c r => String (if (c =? "'")%char then dquote else c) (dq r)
  | EmptyString => EmptyString
  end.

(** ** JSON values, as Python holds them *)

Unset Elimination Schemes.
Inductive json : Type :=
| JNull
| JBool (b : bool)
| JInt (z : Z)
| JFloat (repr : string)
| JStr (s : string)
| JArr (items : list json)
| JObj (members : list (string * json)).
Set Elimination Schemes.

Definition NaN : json := JFloat "NaN".

(** A [dict] keeps its keys in insertion order; setting a key that is
    present replaces its value in place. *)
Definition dict (A : Type) : Type := list (string * A).

Fixpoint dict_get {A : Type} (k : string) (d : dict A) : option A :=
  match d with
  | [] => None
  | (k', v) :: d' => if (k' =? k)%string then Some v else dict_get k d'
  end.

Fixpoint dict_set {A : Type} (k : string) (v : A) (d : dict A) : dict A :=
  match d with
  | [] => [(k, v)]
  | (k', v') :: d' =>
      if (k' =? k)%string then (k', v) :: d' else (k', v') :: dict_set k v d'
  end.

Definition dict_keys {A : Type} (d : dict A) : list string := map fst d.

(** [dict(pairs)]: later pairs overwrite earlier ones. *)
Definition dict_of_pairs {A : Type} (pairs : list (string * A)) : dict A :=
  fold_left (fun d kv => dict_set (fst kv) (snd kv) d) pairs [].

(** Truth value of a Python object.  Whether a float is zero depends on
    binary rounding of its literal, which is not described here. *)
Definition truthy (v : json) : outcome bool :=
  match v with
  | JNull => Ok false
  | JBool b => Ok b
  | JInt z => Ok (negb (z =? 0)%Z)
  | JFloat r => Unmodelled
  | JStr s => Ok (negb (s =? "")%string)
  | JArr l => Ok (match l with [] => false | _ => true end)
  | JObj d => Ok (match d with [] => false | _ => true end)
  end.

(** ** Induction on JSON values *)

Section json_induction.
Variable P : json -> Prop.
Hypothesis Hnull : P JNull.
Hypothesis Hbool : forall b, P (JBool b).
Hypothesis Hint : forall z, P (JInt z).
Hypothesis Hfloat : forall r, P (JFloat r).
Hypothesis Hstr : forall s, P (JStr s).
Hypothesis Harr : forall items, Forall P items -> P (JArr items).
Hypothesis Hobj :
  forall members, Forall (fun kv => P (snd kv)) members -> P (JObj members).

Fixpoint json_ind (v : json) : P v :=
  match v with
  | JNull => Hnull
  | JBool b => Hbool b
  | JInt z => Hint z
  | JFloat r => Hfloat r
  | JStr s => Hstr s
  | JArr items =>
      Harr items
        ((fix all (l : list json) : Forall P l :=
            match l with
            | [] => Forall_nil P
            | x :: l' => Forall_cons x (json_ind x) (all l')
            end) items)
  | JObj members =>
      Hobj members
        ((fix all (l : list (string * json)) : Forall (fun kv => P (snd kv)) l :=
            match l with
            | [] => Forall_nil _
            | kv :: l' => Forall_cons kv (json_ind (snd kv)) (all l')
            end) members)
  end.
End json_induction.


(** ** [json.dumps] with its defaults
    ([ensure_ascii=True], separators [", "] and [": "], [allow_nan=True]) *)

Definition hex_digit (n : N) : ascii :=
  match n with
  | 0 => "0" | 1 => "1" | 2 => "2" | 3 => "3" | 4 => "4" | 5 => "5"
  | 6 => "6" | 7 => "7" | 8 => "8" | 9 => "9" | 10 => "a" | 11 => "b"
  | 12 => "c" | 13 => "d" | 14 => "e" | _ => "f"
  end%N%char.

Definition escape_char (c : ascii) : string :=
  if (c =? dquote)%char then String "\" (String dquote "")
  else if (c =? "\")%char then "\\"
  else if (c =? char_lf)%char then "\n"
  else if (c =? char_cr)%char then "\r"
  else if (c =? char_tab)%char then "\t"
  else if (c =? char_bs)%char then "\b"
  else if (c =? char_ff)%char then "\f"
  else if (32 <=? code c)%N && (code c <=? 126)%N then String c ""
  else "\u00" ++ String (hex_digit (code c / 16)) (String (hex_digit (code c mod 16)) "").

Fixpoint escape_string (s : string) : string :=
  match s with
  | EmptyString => EmptyString
  | String c r => escape_char c ++ escape_string r
  end.

Definition encode_basestring_ascii (s : string) : string :=
  String dquote (escape_string s ++ String dquote "").

(** [int.__repr__] *)
Definition int_repr (z : Z) : string := NilEmpty.string_of_int (Z.to_int z).

Fixpoint json_dumps (v : json) : string :=
  match v with
  | JNull => "null"
  | JBool true => "true"
  | JBool false => "false"
  | JInt z => int_repr z
  | JFloat r => r
  | JStr s => encode_basestring_ascii s
  | JArr items => "[" ++ String.concat ", " (map json_dumps items) ++ "]"
  | JObj members =>
      "{" ++ String.concat ", "
               (map (fun kv => encode_basestring_ascii (fst kv) ++ ": " ++ json_dumps (snd kv))
                    members) ++ "}"
  end.

(** ** [json.loads]: the scanner of [json.decoder] and [json.scanner]

    Not described: the recursion limit of the interpreter, which bounds
    the nesting of a text, and its limit on the digits of an integer. *)

Definition hex_value (c : ascii) : option N :=
  let n := code c in
  if (48 <=? n)%N && (n <=? 57)%N then Some (n - 48)%N
  else if (97 <=? n)%N && (n <=? 102)%N then Some (n - 87)%N
  else if (65 <=? n)%N && (n <=? 70)%N then Some (n - 55)%N
  else None.

Definition hex4 (a b c d : ascii) : option N :=
  match hex_value a, hex_value b, hex_value c, hex_value d with
  | Some x, Some y, Some z, Some w => Some (((x * 16 + y) * 16 + z) * 16 + w)%N
  | _, _, _, _ => None
  end.

Definition unescape (e : ascii) : option ascii :=
  if (e =? dquote)%char then Some dquote
  else if (e =? "\")%char then Some "\"%char
  else if (e =? "/")%char then Some "/"%char
  else if (e =? "b")%char then Some char_bs
  else if (e =? "f")%char then Some char_ff
  else if (e =? "n")%char then Some char_lf
  else if (e =? "r")%char then Some char_cr
  else if (e =? "t")%char then Some char_tab
  else None.

(** [py_scanstring] (strict): the text after an opening quote, up to and
    including the closing one.  An escape [\uXXXX] at or above 0100 denotes
    a character outside the strings described here. *)
Fixpoint py_scanstring (s : string) : outcome (string * string) :=
  match s with
  | EmptyString => Raise JSONDecodeError
  | String c r =>
      if (c =? dquote)%char then Ok (EmptyString, r)
      else if (c =? "\")%char then
        match r with
        | EmptyString => Raise JSONDecodeError
        | String e r1 =>
            if (e =? "u")%char then
              match r1 with
              | String h1 (String h2 (String h3 (String h4 r2))) =>
                  match hex4 h1 h2 h3 h4 with
                  | None => Raise JSONDecodeError
                  | Some n =>
                      if (n <? 256)%N then
                        '(t, rest) <- py_scanstring r2 ;;
                        Ok (String (ascii_of_N n) t, rest)
                      else Unmodelled
                  end
              | _ => Raise JSONDecodeError
              end
            else
              match unescape e with
              | None => Raise JSONDecodeError
              | Some c' =>
                  '(t, rest) <- py_scanstring r1 ;;
                  Ok (String c' t, rest)
              end
        end
      else if (code c <? 32)%N then Raise JSONDecodeError
      else
        '(t, rest) <- py_scanstring r ;;
        Ok (String c t, rest)
  end.

(** [NUMBER_RE]: an optional minus and an integer part (a lone zero, or
    a non-zero digit and more digits), then optionally a dot with one or
    more digits, then optionally [e] or [E], an optional sign and one or
    more digits.  The optional groups match greedily or not at all. *)
Definition match_integer (s : string) : option (string * string) :=
  let (sign, s1) :=
    match s with
    | String c r => if (c =? "-")%char then ("-", r) else ("", s)
    | EmptyString => ("", s)
    end in
  match s1 with
  | String c r =>
      if (c =? "0")%char then Some (sign ++ "0", r)
      else if is_digit c then
        let (d, r') := span_digits r in Some (sign ++ String c d, r')
      else None
  | EmptyString => None
  end.

Definition match_frac (s : string) : string * string :=
  match s with
  | String c r =>
      if (c =? ".")%char then
        match span_digits r with
        | (EmptyString, _) => ("", s)
        | (d, r') => (String c d, r')
        end
      else ("", s)
  | EmptyString => ("", s)
  end.

Definition match_exp (s : string) : string * string :=
  match s with
  | String c r =>
      if (c =? "e")%char || (c =? "E")%char then
        let (sign, r1) :=
          match r with
          | String g r' =>
              if (g =? "-")%char || (g =? "+")%char then (String g "", r') else ("", r)
          | EmptyString => ("", r)
          end in
        match span_digits r1 with
        | (EmptyString, _) => ("", s)
        | (d, r') => (String c (sign ++ d), r')
        end
      else ("", s)
  | EmptyString => ("", s)
  end.

(** The value of a number token: an [int] without fraction and exponent,
    a [float] otherwise. *)
Definition match_number (s : string) : option (json * string) :=
  match match_integer s with
  | None => None
  | Some (integer, r) =>
      let (frac, r1) := match_frac r in
      let (exp, r2) := match_exp r1 in
      match frac, exp with
      | EmptyString, EmptyString =>
          match NilEmpty.int_of_string integer with
          | Some i => Some (JInt (Z.of_int i), r2)
          | None => None
          end
      | _, _ => Some (JFloat (integer ++ frac ++ exp), r2)
      end
  end.

Definition match_constant (s : string) : option (json * string) :=
  match strip_prefix "null" s with
  | Some r => Some (JNull, r)
  | None =>
  match strip_prefix "true" s with
  | Some r => Some (JBool true, r)
  | None =>
  match strip_prefix "false" s with
  | Some r => Some (JBool false, r)
  | None =>
  match match_number s with
  | Some vr => Some vr
  | None =>
  match strip_prefix "NaN" s with
  | Some r => Some (JFloat "NaN", r)
  | None =>
  match strip_prefix "Infinity" s with
  | Some r => Some (JFloat "Infinity", r)
  | None =>
  match strip_prefix "-Infinity" s with
  | Some r => Some (JFloat "-Infinity", r)
  | None => None
  end end end end end end end.

(** [scan_once], [JSONArray] and [JSONObject].  The calls nest as deep as
    the text does, so they are counted down from a bound that [json_loads]
    takes from the length of the text ([json_loads_fuel] below: the bound
    is never what ends a scan). *)
Fixpoint scan_once (fuel : nat) (s : string) {struct fuel}
  : outcome (json * string) :=
  match fuel with
  | O => Unmodelled
  | S fuel' =>
      match s with
      | EmptyString => Raise JSONDecodeError
      | String c r =>
          if (c =? dquote)%char then
            '(str, r') <- py_scanstring r ;; Ok (JStr str, r')
          else if (c =? "{")%char then
            match skip_ws r with
            | EmptyString => Raise JSONDecodeError
            | String c1 r1 =>
                if (c1 =? "}")%char then Ok (JObj [], r1)
                else
                  '(pairs, r') <- JSONObject fuel' (String c1 r1) ;;
                  Ok (JObj (dict_of_pairs pairs), r')
            end
          else if (c =? "[")%char then
            match skip_ws r with
            | EmptyString => Raise JSONDecodeError
            | String c1 r1 =>
                if (c1 =? "]")%char then Ok (JArr [], r1)
                else
                  '(values, r') <- JSONArray fuel' (String c1 r1) ;;
                  Ok (JArr values, r')
            end
          else
            match match_constant s with
            | Some vr => Ok vr
            | None => Raise JSONDecodeError
            end
      end
  end

with JSONArray (fuel : nat) (s : string) {struct fuel}
  : outcome (list json * string) :=
  match fuel with
  | O => Unmodelled
  | S fuel' =>
      '(value, r) <- scan_once fuel' s ;;
      match skip_ws r with
      | EmptyString => Raise JSONDecodeError
      | String c r1 =>
          if (c =? "]")%char then Ok ([value], r1)
          else if (c =? ",")%char then
            '(values, r2) <- JSONArray fuel' (skip_ws r1) ;;
            Ok (value :: values, r2)
          else Raise JSONDecodeError
      end
  end

with JSONObject (fuel : nat) (s : string) {struct fuel}
  : outcome (list (string * json) * string) :=
  match fuel with
  | O => Unmodelled
  | S fuel' =>
      match s with
      | EmptyString => Raise JSONDecodeError
      | String c r =>
          if (c =? dquote)%char then
            '(key, r1) <- py_scanstring r ;;
            match skip_ws r1 with
            | EmptyString => Raise JSONDecodeError
            | String c2 r2 =>
                if (c2 =? ":")%char then
                  '(value, r3) <- scan_once fuel' (skip_ws r2) ;;
                  match skip_ws r3 with
                  | EmptyString => Raise JSONDecodeError
                  | String c4 r4 =>
                      if (c4 =? "}")%char then Ok ([(key, value)], r4)
                      else if (c4 =? ",")%char then
                        '(pairs, r5) <- JSONObject fuel' (skip_ws r4) ;;
                        Ok ((key, value) :: pairs, r5)
                      else Raise JSONDecodeError
                  end
                else Raise JSONDecodeError
            end
          else Raise JSONDecodeError
      end
  end.

Definition json_loads (s : string) : outcome json :=
  '(v, r) <- scan_once (S (2 * String.length s)) (skip_ws s) ;;
  match skip_ws r with
  | EmptyString => Ok v
  | String _ _ => Raise JSONDecodeError
  end.

(** ** [re] as [Series.str.contains(pat, case=False)] uses it

    pandas compiles [pat] with [re.IGNORECASE] (its [regex] argument
    defaults to [True]) and keeps the cells in which [search] finds a match.
    Described here:
    - a pattern that starts with a repetition operator or with a closing
      parenthesis is refused by [re.compile] ("nothing to repeat",
      "unbalanced parenthesis");
    - a pattern made of ordinary ASCII characters and of the dot is
      searched for as it is written.
    Every other pattern is [Unmodelled]. *)

Inductive atom : Set :=
| Lit (c : ascii)
| AnyChar.

Definition re_special (c : ascii) : bool :=
  str_in (String c "") ".^$*+?{}[]\|()".

Fixpoint re_parse (pat : string) : outcome (list atom) :=
  match pat with
  | EmptyString => Ok []
  | String c r =>
      if (c =? ".")%char then atoms <- re_parse r ;; Ok (AnyChar :: atoms)
      else if re_special c || (128 <=? code c)%N then Unmodelled
      else atoms <- re_parse r ;; Ok (Lit c :: atoms)
  end.

(** [re.compile(pat, re.IGNORECASE)] *)
Definition re_compile (pat : string) : outcome (list atom) :=
  if head_is (fun c => str_in (String c "") "*+?)") pat then Raise PatternError
  else re_parse pat.

Definition lower (c : ascii) : ascii :=
  if (65 <=? code c)%N && (code c <=? 90)%N then ascii_of_N (code c + 32) else c.

Fixpoint str_lower (s : string) : string :=
  match s with
  | EmptyString => EmptyString
  | String c r => String (lower c) (str_lower r)
  end.

Definition atom_matches (a : atom) (c : ascii) : bool :=
  match a with
  | Lit p => (lower p =? lower c)%char
  | AnyChar => negb (c =? char_lf)%char
  end.

Fixpoint match_here (atoms : list atom) (s : string) : bool :=
  match atoms with
  | [] => true
  | a :: atoms' =>
      match s with
      | String c s' => atom_matches a c && match_here atoms' s'
      | EmptyString => false
      end
  end.

Fixpoint re_search (atoms : list atom) (s : string) : bool :=
  match_here atoms s ||
  match s with
  | String _ s' => re_search atoms s'
  | EmptyString => false
  end.

(** ** The clock, the network and the store *)

Record datetime : Set := {
  year : N;
  month : N;
  day : N;
  time_of_day : string
}.

Definition pad2 (n : N) : string :=
  let s := NilZero.string_of_uint (N.to_uint n) in
  if (n <? 10)%N then "0" ++ s else s.

Definition pad4 (n : N) : string :=
  let s := NilZero.string_of_uint (N.to_uint n) in
  if (n <? 10)%N then "000" ++ s
  else if (n <? 100)%N then "00" ++ s
  else if (n <? 1000)%N then "0" ++ s
  else s.

(** [str(now.date())]: the ISO form [YYYY-MM-DD]. *)
Definition str_date (now : datetime) : string :=
  pad4 (year now) ++ "-" ++ pad2 (month now) ++ "-" ++ pad2 (day now).

(** [str(now)] *)
Definition str_datetime (now : datetime) : string :=
  str_date now ++ " " ++ time_of_day now.

Record response : Set := {
  content_type : option string;
  text : string
}.

Inductive http_result : Set :=
| ConnectionFailed
| Responded (r : response).

(** What the program cannot see: the reading of the clock at its n-th
    call of [datetime.now()], and what each URL answers. *)
Record world : Type := {
  clock : nat -> datetime;
  http : string -> http_result
}.

(** The columns of [fuel_prices]; a [String] column holds text or NULL. *)
Record fuel_price_row : Set := {
  c_id : Z;
  c_site_id : option string;
  c_brand : option string;
  c_address : option string;
  c_postcode : option string;
  c_location : option string;
  c_prices : option string;
  c_date : option string
}.

Record metadata_row : Set := {
  m_id : Z;
  m_last_updated : option string
}.

Record database : Set := {
  fuel_prices : list fuel_price_row;
  fuel_prices_metadata : list metadata_row;
  fuel_prices_id_seq : Z;
  fuel_prices_metadata_id_seq : Z
}.

Record state : Set := {
  db : database;
  ticks : nat
}.

(** Stateful computations: the state outlives an exception. *)
Definition M (A : Type) : Type := state -> outcome A * state.

Definition ret {A : Type} (a : A) : M A := fun st => (Ok a, st).

Definition lift {A : Type} (o : outcome A) : M A := fun st => (o, st).

Definition bindM {A B : Type} (m : M A) (k : A -> M B) : M B :=
  fun st =>
    match m st with
    | (Ok a, st') => k a st'
    | (Raise e, st') => (Raise e, st')
    | (Unmodelled, st') => (Unmodelled, st')
    end.

Notation "x <~ m ;; k" := (bindM m (fun x => k))
  (at level 61, m at next level, right associativity).

(** [try: body except Exception: handler] *)
Definition try_except {A : Type} (body : M A) (handler : exn -> M A) : M A :=
  fun st =>
    match body st with
    | (Raise e, st') => handler e st'
    | r => r
    end.

Definition datetime_now (w : world) : M datetime :=
  fun st => (Ok (clock w (ticks st)), {| db := db st; ticks := S (ticks st) |}).

Definition get_db : M database := fun st => (Ok (db st), st).

Definition put_db (d : database) : M unit :=
  fun st => (Ok tt, {| db := d; ticks := ticks st |}).

(** [requests.get(url, headers=headers)] *)
Definition requests_get (w : world) (url : string) : M response :=
  match http w url with
  | ConnectionFailed => lift (Raise RequestException)
  | Responded r => ret r
  end.

(** [response.headers.get('Content-Type', default)] *)
Definition headers_get_content_type (r : response) (default : string) : string :=
  match content_type r with
  | Some v => v
  | None => default
  end.

(** [response.json()]: the body decoded as JSON. *)
Definition response_json (r : response) : outcome json := json_loads (text r).

(** [obj.get(key, default)]: only a [dict] has [get]. *)
Definition py_get (obj : json) (key : string) (default : json) : outcome json :=
  match obj with
  | JObj d =>
      match dict_get key d with
      | Some v => Ok v
      | None => Ok default
      end
  | _ => Raise AttributeError
  end.

(** ** pandas

    A frame is held by columns, in the order pandas gives them; a missing
    cell is [NaN]. *)

Record DataFrame : Type := {
  nrows : nat;
  columns : dict (list json)
}.

(** [pd.DataFrame()] *)
Definition empty_frame : DataFrame := {| nrows := 0; columns := [] |}.

(** [df.empty] *)
Definition df_empty (df : DataFrame) : bool :=
  (nrows df =? 0)%nat || match columns df with [] => true | _ => false end.

Fixpoint as_records (items : list json) : option (list (dict json)) :=
  match items with
  | [] => Some []
  | JObj d :: items' =>
      match as_records items' with
      | Some recs => Some (d :: recs)
      | None => None
      end
  | _ :: _ => None
  end.

Definition add_key (keys : list string) (k : string) : list string :=
  if existsb (String.eqb k) keys then keys else (keys ++ [k])%list.

(** The keys of the records in the order of their first appearance. *)
Definition union_keys (recs : list (list string)) : list string :=
  fold_left (fun keys ks => fold_left add_key ks keys) recs [].

Definition cell_of (rec : dict json) (c : string) : json :=
  match dict_get c rec with
  | Some v => v
  | None => NaN
  end.

Definition is_object_cell (v : json) : bool :=
  match v with
  | JStr _ | JArr _ | JObj _ => true
  | _ => false
  end.

(** [pd.DataFrame(data)] for what [json.loads] can return.
    - A list of records gives one row per record and one column per key.
      A column with a string, list or dict in it has dtype [object] and
      keeps its cells as they are; a column without one goes through
      numeric inference, which is not described here.
    - For a list with an element that is no record, and for a string, a
      number or a Boolean, the constructor raises, or the frame it builds
      has only positional columns and the look-up of ['location'] that
      follows raises.  Both are exceptions at this place.
    - A dict gives one column per key: without both ['location'] and
      ['prices'] among them the constructor or the look-up that follows
      raises; with both, the frame depends on the shapes of the values and
      is not described here. *)
Definition pd_DataFrame (data : json) : outcome DataFrame :=
  match data with
  | JNull => Ok empty_frame
  | JArr items =>
      match as_records items with
      | Some recs =>
          let cols :=
            map (fun c => (c, map (fun rec => cell_of rec c) recs))
                (union_keys (map dict_keys recs)) in
          if forallb (fun col => existsb is_object_cell (snd col)) cols
          then Ok {| nrows := List.length recs; columns := cols |}
          else Unmodelled
      | None => Raise ValueError
      end
  | JObj d =>
      match dict_get "location" d, dict_get "prices" d with
      | Some _, Some _ => Unmodelled
      | _, _ => Raise KeyError
      end
  | _ => Raise ValueError
  end.

(** [df[c]] *)
Definition getitem (df : DataFrame) (c : string) : outcome (list json) :=
  match dict_get c (columns df) with
  | Some cells => Ok cells
  | None => Raise KeyError
  end.

(** [df[c] = cells] *)
Definition setitem (df : DataFrame) (c : string) (cells : list json) : DataFrame :=
  {| nrows := nrows df; columns := dict_set c cells (columns df) |}.

(** [series.apply(json.dumps)] *)
Definition apply_json_dumps (cells : list json) : list json :=
  map (fun v => JStr (json_dumps v)) cells.

(** The row of a frame at a position, as a record. *)
Definition df_row (df : DataFrame) (i : nat) : dict json :=
  map (fun col => (fst col, nth i (snd col) NaN)) (columns df).

(** [pd.concat(frames, ignore_index=True)] *)
Definition pd_concat (frames : list DataFrame) : DataFrame :=
  {| nrows := list_sum (map nrows frames);
     columns :=
       map (fun c =>
              (c, flat_map (fun df =>
                              match dict_get c (columns df) with
                              | Some cells => cells
                              | None => repeat NaN (nrows df)
                              end) frames))
           (union_keys (map (fun df => dict_keys (columns df)) frames)) |}.

(** ** The store *)

(** What a cell of a frame becomes in a [String] column.  [None] and [nan]
    become NULL, a string is stored as it is; what the driver does with
    another value is not described here. *)
Definition sql_text (v : json) : outcome (option string) :=
  match v with
  | JStr s => Ok (Some s)
  | JNull => Ok None
  | JFloat r => if (r =? "NaN")%string then Ok None else Unmodelled
  | _ => Unmodelled
  end.

Definition table_columns : list string :=
  ["site_id"; "brand"; "address"; "postcode"; "location"; "prices"; "date"].

Definition sql_field (record : dict json) (c : string) : outcome (option string) :=
  match dict_get c record with
  | Some v => sql_text v
  | None => Ok None
  end.

Definition insert_row (record : dict json) (key : Z) : outcome fuel_price_row :=
  v_site_id <- sql_field record "site_id" ;;
  v_brand <- sql_field record "brand" ;;
  v_address <- sql_field record "address" ;;
  v_postcode <- sql_field record "postcode" ;;
  v_location <- sql_field record "location" ;;
  v_prices <- sql_field record "prices" ;;
  v_date <- sql_field record "date" ;;
  Ok {| c_id := key; c_site_id := v_site_id; c_brand := v_brand;
        c_address := v_address; c_postcode := v_postcode;
        c_location := v_location; c_prices := v_prices; c_date := v_date |}.

Fixpoint insert_rows (records : list (dict json)) (key : Z)
  : outcome (list fuel_price_row) :=
  match records with
  | [] => Ok []
  | record :: records' =>
      row <- insert_row record key ;;
      rows <- insert_rows records' (key + 1) ;;
      Ok (row :: rows)
  end.

(** [df.to_sql('fuel_prices', engine, if_exists='append', index=False)]:
    one INSERT of all rows in a transaction of its own, the keys taken from
    the sequence of the table.  A column the table does not have is an
    error of the store; a frame that brings its own [id] column is not
    described here. *)
Definition to_sql (df : DataFrame) : M unit :=
  d <~ get_db ;;
  if existsb (String.eqb "id") (dict_keys (columns df)) then lift Unmodelled
  else if negb (forallb (fun c => existsb (String.eqb c) table_columns)
                        (dict_keys (columns df)))
  then lift (Raise DatabaseError)
  else
    rows <~ lift (insert_rows (map (df_row df) (seq 0 (nrows df)))
                              (fuel_prices_id_seq d)) ;;
    put_db {| fuel_prices := (fuel_prices d ++ rows)%list;
              fuel_prices_metadata := fuel_prices_metadata d;
              fuel_prices_id_seq := fuel_prices_id_seq d + Z.of_nat (nrows df);
              fuel_prices_metadata_id_seq := fuel_prices_metadata_id_seq d |}.

(** [conn.execute(fuel_prices_metadata.delete())] *)
Definition delete_metadata : M unit :=
  d <~ get_db ;;
  put_db {| fuel_prices := fuel_prices d;
            fuel_prices_metadata := [];
            fuel_prices_id_seq := fuel_prices_id_seq d;
            fuel_prices_metadata_id_seq := fuel_prices_metadata_id_seq d |}.

(** [conn.execute(fuel_prices_metadata.insert().values(last_updated=...))] *)
Definition insert_metadata (last_updated : string) : M unit :=
  d <~ get_db ;;
  put_db {| fuel_prices := fuel_prices d;
            fuel_prices_metadata :=
              (fuel_prices_metadata d ++
                 [{| m_id := fuel_prices_metadata_id_seq d;
                     m_last_updated := Some last_updated |}])%list;
            fuel_prices_id_seq := fuel_prices_id_seq d;
            fuel_prices_metadata_id_seq := fuel_prices_metadata_id_seq d + 1 |}.

Definition date_is (today : string) (row : fuel_price_row) : bool :=
  match c_date row with
  | Some d => (d =? today)%string
  | None => false
  end.

(** [SELECT ... FROM fuel_prices WHERE date = today] *)
Definition select_where_date (today : string) : M (list fuel_price_row) :=
  d <~ get_db ;;
  ret (filter (date_is today) (fuel_prices d)).

(** * app.py *)

Definition urls : list string :=
  [ "https://applegreenstores.com/fuel-prices/data.json";
    "https://fuelprices.asconagroup.co.uk/newfuel.json";
    "https://storelocator.asda.com/fuel_prices_data.json";
    "https://fuelprices.esso.co.uk/latestdata.json";
    "https://jetlocal.co.uk/fuel_prices_data.json";
    "https://www.morrisons.com/fuel-prices/fuel.json";
    "https://moto-way.com/fuel-price/fuel_prices.json";
    "https://fuel.motorfuelgroup.com/fuel_prices_data.json";
    "https://www.rontec-servicestations.co.uk/fuel-prices/data/fuel_prices_data.json";
    "https://api.sainsburys.co.uk/v1/exports/latest/fuel_prices_data.json";
    "https://www.sgnretail.uk/files/data/SGN_daily_fuel_prices.json";
    "https://www.tesco.com/fuel_prices/fuel_prices_data.json" ].

(** Lines 54-77.  The body of the [try] returns the frame, or falls through
    to the last line when the content type is not accepted; [print] is left
    out.  Nothing in the body can raise after it has read the clock. *)
Definition fetch_and_process_data (w : world) (url : string) : M DataFrame :=
  returned <~
    try_except
      (response <~ requests_get w url ;;
       let ct := headers_get_content_type response "" in
       if str_in "application/json" ct || str_in "text/plain" ct then
         data <~ lift (if startswith ct "application/json"
                       then response_json response
                       else json_loads (text response)) ;;
         stations <~ lift (py_get data "stations" data) ;;
         df <~ lift (pd_DataFrame stations) ;;
         location <~ lift (getitem df "location") ;;
         let df := setitem df "location" (apply_json_dumps location) in
         prices <~ lift (getitem df "prices") ;;
         let df := setitem df "prices" (apply_json_dumps prices) in
         now <~ datetime_now w ;;
         let df := setitem df "date" (repeat (JStr (str_date now)) (nrows df)) in
         ret (Some df)
       else ret None)
      (fun e => ret None) ;;
  match returned with
  | Some df => ret df
  | None => ret empty_frame
  end.

(** Lines 79-82. *)
Definition check_existing_data (w : world) (url : string) : M bool :=
  now <~ datetime_now w ;;
  result <~ select_where_date (str_date now) ;;
  ret (0 <? List.length result)%nat.

(** Lines 88-94: the loop of [main] over the sources. *)
Fixpoint main_loop (w : world) (sources : list string)
  (data_frames : list DataFrame) : M (list DataFrame) :=
  match sources with
  | [] => ret data_frames
  | url :: sources' =>
      existing <~ check_existing_data w url ;;
      if existing then main_loop w sources' data_frames
      else
        df <~ fetch_and_process_data w url ;;
        if negb (df_empty df)
        then main_loop w sources' (data_frames ++ [df])%list
        else main_loop w sources' data_frames
  end.

(** Lines 95-101: what [main] does with the frames it has collected. *)
Definition store_frames (w : world) (data_frames : list DataFrame) : M unit :=
  match data_frames with
  | _ :: _ =>
      let combined_df := pd_concat data_frames in
      _ <~ to_sql combined_df ;;
      _ <~ delete_metadata ;;
      now <~ datetime_now w ;;
      insert_metadata (str_datetime now)
  | [] => ret tt
  end.

(** Lines 84-101, for a list of sources. *)
Definition main_over (w : world) (sources : list string) : M unit :=
  data_frames <~ main_loop w sources [] ;;
  store_frames w data_frames.

Definition main (w : world) : M unit := main_over w urls.

(** The query string of a request to [/api/prices]. *)
Record request : Set := {
  arg_postcode : option string;
  arg_filters : option string
}.

(** [request.args.get(name, default)] *)
Definition args_get (arg : option string) (default : string) : string :=
  match arg with
  | Some v => v
  | None => default
  end.

(** A row of the frame of [get_prices] once lines 111-112 have replaced
    the two texts by what they decode to. *)
Record loaded_row : Type := {
  stored : fuel_price_row;
  loaded_location : json;
  loaded_prices : json
}.

(** [json.loads(cell)]: NULL comes back as [None], which is no text. *)
Definition loads_cell (cell : option string) : outcome json :=
  match cell with
  | Some t => json_loads t
  | None => Raise TypeError
  end.

(** A text cell read from the store, as a Python value. *)
Definition py_cell (cell : option string) : json :=
  match cell with
  | Some t => JStr t
  | None => JNull
  end.

(** [series.str.contains(pat, case=False)]: NULL cells give no Boolean. *)
Definition str_contains_nocase (pat : string) (cells : list (option string))
  : outcome (list (option bool)) :=
  atoms <- re_compile pat ;;
  Ok (map (option_map (re_search atoms)) cells).

(** [df[mask]].  With a cell of the mask that is no Boolean pandas raises
    or drops the row, depending on its version. *)
Fixpoint boolean_index {A : Type} (rows : list A) (mask : list (option bool))
  : outcome (list A) :=
  match rows, mask with
  | row :: rows', Some b :: mask' =>
      kept <- boolean_index rows' mask' ;;
      Ok (if b then row :: kept else kept)
  | _ :: _, None :: _ => Unmodelled
  | _, _ => Ok []
  end.

(** [prices.get(code) if filters.get(key, True) else None] *)
Definition price_field (filters prices : json) (key code : string) : outcome json :=
  flag <- py_get filters key (JBool true) ;;
  shown <- truthy flag ;;
  if shown then py_get prices code JNull else Ok JNull.

(** Lines 119-127: [station_data] for one row. *)
Definition station_data (filters : json) (row : loaded_row) : outcome json :=
  let prices := loaded_prices row in
  unleaded <- price_field filters prices "unleaded" "E10" ;;
  superUnleaded <- price_field filters prices "superUnleaded" "E5" ;;
  diesel <- price_field filters prices "diesel" "B7" ;;
  Ok (JObj [ ("brand", py_cell (c_brand (stored row)));
             ("address", py_cell (c_address (stored row)));
             ("postcode", py_cell (c_postcode (stored row)));
             ("unleaded", unleaded);
             ("superUnleaded", superUnleaded);
             ("diesel", diesel) ]).

Fixpoint load_rows (rows : list fuel_price_row) (locations prices : list json)
  : list loaded_row :=
  match rows, locations, prices with
  | row :: rows', l :: locations', p :: prices' =>
      {| stored := row; loaded_location := l; loaded_prices := p |}
        :: load_rows rows' locations' prices'
  | _, _, _ => []
  end.

(** Lines 114-115: [df[df['postcode'].str.contains(postcode, case=False)]]
    when [postcode] is not empty. *)
Definition select_postcode (postcode : string) (df : list loaded_row)
  : outcome (list loaded_row) :=
  if negb (postcode =? "")%string
  then
    mask <- str_contains_nocase postcode
              (map (fun row => c_postcode (stored row)) df) ;;
    boolean_index df mask
  else Ok df.

(** Lines 104-130.  The value returned is the one [jsonify] serialises. *)
Definition get_prices (w : world) (req : request) : M json :=
  let postcode := args_get (arg_postcode req) "" in
  let fuel_types := args_get (arg_filters req) "{}" in
  filters <~ lift (json_loads fuel_types) ;;
  now <~ datetime_now w ;;
  rows <~ select_where_date (str_date now) ;;
  locations <~ lift (mapM loads_cell (map c_location rows)) ;;
  prices <~ lift (mapM loads_cell (map c_prices rows)) ;;
  let df := load_rows rows locations prices in
  df <~ lift (select_postcode postcode df) ;;
  filtered_data <~ lift (mapM (station_data filters) df) ;;
  ret (JArr filtered_data).

(** What Flask answers for a view: its value with status 200, and status
    500 when the view raises an exception that is no HTTP exception. *)
Record http_response : Type := {
  status : nat;
  body : option json
}.

Definition flask_dispatch (view : M json) : M http_response :=
  fun st =>
    match view st with
    | (Ok v, st') => (Ok {| status := 200; body := Some v |}, st')
    | (Raise e, st') => (Ok {| status := 500; body := None |}, st')
    | (Unmodelled, st') => (Unmodelled, st')
    end.

(** [GET /api/prices] *)
Definition api_prices (w : world) (req : request) : M http_response :=
  flask_dispatch (get_prices w req).

(** * Predicates used in the statements *)

(** The values Python can hold after [json.loads]: the keys of a [dict]
    are distinct and a [float] has a literal that reads as one. *)
Definition is_float_repr (r : string) : bool :=
  match match_number r with
  | Some (JFloat r', EmptyString) => true
  | _ => false
  end || (r =? "NaN") || (r =? "Infinity") || (r =? "-Infinity").

Fixpoint distinct (keys : list string) : bool :=
  match keys with
  | [] => true
  | k :: keys' => negb (existsb (String.eqb k) keys') && distinct keys'
  end.

Fixpoint wf_json (v : json) : bool :=
  match v with
  | JFloat r => is_float_repr r
  | JArr items => forallb wf_json items
  | JObj members =>
      distinct (map fst members) && forallb (fun kv => wf_json (snd kv)) members
  | _ => true
  end.

(** A bound on the nesting of the calls of the scanner on [json_dumps v]. *)
Fixpoint json_size (v : json) : nat :=
  match v with
  | JArr items => S (list_sum (map (fun x => S (json_size x)) items))
  | JObj members => S (list_sum (map (fun kv => S (json_size (snd kv))) members))
  | _ => 1
  end.

(** What may follow a number for the scanner to stop where it ends. *)
Definition number_end (rest : string) : bool :=
  negb (head_is (fun c => is_digit c || str_in (String c "") ".eE+-") rest).

(** Containment without regard to the case of ASCII letters. *)
Definition contains_nocase (p s : string) : bool :=
  str_in (str_lower p) (str_lower s).



(** A character at which a value can start: no white space, no bracket
    that closes an array. *)
Definition value_head (c : ascii) : bool := negb (is_ws c || (c =? "]")%char).

(** The text of one member of an object. *)
Definition member_dumps (kv : string * json) : string :=
  encode_basestring_ascii (fst kv) ++ ": " ++ json_dumps (snd kv).

(** [x] is read back from its text, whatever follows that can follow a
    value. *)
Definition roundtrips (x : json) : Prop :=
  wf_json x = true ->
  forall fuel rest, json_size x <= fuel -> number_end rest = true ->
  scan_once fuel (json_dumps x ++ rest) = Ok (x, rest).

(** The state after one reading of the clock. *)
Definition tick (st : state) : state := {| db := db st; ticks := S (ticks st) |}.

(** The date the clock shows at a state. *)
Definition today (w : world) (st : state) : string := str_date (clock w (ticks st)).

(** The content types [fetch_and_process_data] accepts. *)
Definition accepted (r : response) : bool :=
  let ct := headers_get_content_type r "" in
  str_in "application/json" ct || str_in "text/plain" ct.

(** A fetch that fails: no answer, a content type that is not accepted,
    or a body that is no JSON. *)
Definition fetch_fails (answer : http_result) : bool :=
  match answer with
  | ConnectionFailed => true
  | Responded r =>
      negb (accepted r) ||
      match json_loads (text r) with
      | Raise _ => true
      | _ => false
      end
  end.

(** The filters object as the specification reads it: a fuel type is shown
    unless its key is present and false. *)
Definition shown (filters : dict json) (key : string) : bool :=
  match dict_get key filters with
  | Some (JBool b) => b
  | _ => true
  end.

Definition boolean_flag (filters : dict json) (key : string) : Prop :=
  dict_get key filters = None \/ exists b, dict_get key filters = Some (JBool b).

Definition boolean_flags (filters : dict json) : Prop :=
  boolean_flag filters "unleaded" /\ boolean_flag filters "superUnleaded" /\
  boolean_flag filters "diesel".

(** The price stored under a grade code, [null] when there is none. *)
Definition stored_price (prices : dict json) (code : string) : json :=
  match dict_get code prices with
  | Some p => p
  | None => JNull
  end.

Definition shown_price (filters prices : dict json) (key code : string) : json :=
  if shown filters key then stored_price prices code else JNull.

(** An entry of the response as the specification describes it. *)
Definition station_entry (filters : dict json) (row : fuel_price_row)
  (prices : dict json) : json :=
  JObj [ ("brand", py_cell (c_brand row));
         ("address", py_cell (c_address row));
         ("postcode", py_cell (c_postcode row));
         ("unleaded", shown_price filters prices "unleaded" "E10");
         ("superUnleaded", shown_price filters prices "superUnleaded" "E5");
         ("diesel", shown_price filters prices "diesel" "B7") ].

Definition prices_of (row : loaded_row) : dict json :=
  match loaded_prices row with
  | JObj d => d
  | _ => []
  end.

Definition has_prices_mapping (row : loaded_row) : Prop :=
  exists d, loaded_prices row = JObj d.

Definition postcode_text (row : loaded_row) : string :=
  match c_postcode (stored row) with
  | Some t => t
  | None => ""
  end.

Definition has_postcode (row : loaded_row) : Prop :=
  exists t, c_postcode (stored row) = Some t.

(** The rows the table holds for the day of the clock. *)
Definition todays_rows (w : world) (st : state) : list fuel_price_row :=
  filter (date_is (today w st)) (fuel_prices (db st)).

(** The rows of today's snapshot with their two texts decoded. *)
Definition snapshot (w : world) (st : state) (df : list loaded_row) : Prop :=
  exists locations prices,
    mapM loads_cell (map c_location (todays_rows w st)) = Ok locations /\
    mapM loads_cell (map c_prices (todays_rows w st)) = Ok prices /\
    df = load_rows (todays_rows w st) locations prices.

(** Lines 111-130 on the rows read from the store. *)
Definition query (filters : json) (postcode : string) (rows : list fuel_price_row)
  : outcome json :=
  locations <- mapM loads_cell (map c_location rows) ;;
  prices <- mapM loads_cell (map c_prices rows) ;;
  df <- select_postcode postcode (load_rows rows locations prices) ;;
  filtered_data <- mapM (station_data filters) df ;;
  Ok (JArr filtered_data).

(** A field of an entry of the response. *)
Definition field (entry : json) (name : string) : option json :=
  match entry with
  | JObj d => dict_get name d
  | _ => None
  end.

(** The entries of the response for the rows that were kept. *)
Definition entries (filters : dict json) (kept : list loaded_row) : list json :=
  map (fun row => station_entry filters (stored row) (prices_of row)) kept.


(** The frame that lines 63-70 build from a response that was accepted,
    on a given day. *)
Definition frame_of (r : response) (day : string) : outcome DataFrame :=
  data <- json_loads (text r) ;;
  stations <- py_get data "stations" data ;;
  df <- pd_DataFrame stations ;;
  location <- getitem df "location" ;;
  let df := setitem df "location" (apply_json_dumps location) in
  prices <- getitem df "prices" ;;
  let df := setitem df "prices" (apply_json_dumps prices) in
  Ok (setitem df "date" (repeat (JStr day) (nrows df))).

(** Some record of a batch has the key. *)
Definition has_key (c : string) (recs : list (dict json)) : bool :=
  existsb (fun rec => match dict_get c rec with Some _ => true | None => false end) recs.

(** ** Sample data for the examples *)

Definition sample_now : datetime :=
  {| year := 2024; month := 1; day := 1; time_of_day := "10:00:00.000000" |}.

Definition sample_body : string :=
  dq "{'last_updated': '01/01/2024 09:00:00', 'stations': [{'site_id': 'a1', 'brand': 'Tesco', 'address': '1 High St', 'postcode': 'SW1A 1AA', 'location': {'latitude': 51.5, 'longitude': -0.1}, 'prices': {'E10': 145.9, 'B7': 150}}]}".

Definition sample_array_body : string :=
  dq "[{'site_id': 'a1', 'brand': 'Tesco', 'address': '1 High St', 'postcode': 'SW1A 1AA', 'location': {'latitude': 51.5, 'longitude': -0.1}, 'prices': {'E10': 145.9, 'B7': 150}}]".

Definition sample_http (url : string) : http_result :=
  if (url =? "https://good.example/fuel.json")%string then
    Responded {| content_type := Some "application/json; charset=utf-8";
                 text := sample_body |}
  else if (url =? "https://array.example/fuel.json")%string then
    Responded {| content_type := Some "application/json";
                 text := sample_array_body |}
  else if (url =? "https://html.example/fuel.json")%string then
    Responded {| content_type := Some "text/html"; text := "<html></html>" |}
  else if (url =? "https://broken.example/fuel.json")%string then
    Responded {| content_type := Some "text/plain"; text := "{" |}
  else ConnectionFailed.

Definition sample_world : world :=
  {| clock := fun _ => sample_now; http := sample_http |}.

Definition empty_database : database :=
  {| fuel_prices := []; fuel_prices_metadata := [];
     fuel_prices_id_seq := 1; fuel_prices_metadata_id_seq := 1 |}.

Definition sample_row : fuel_price_row :=
  {| c_id := 1; c_site_id := Some "a1"; c_brand := Some "Tesco";
     c_address := Some "1 High St"; c_postcode := Some "SW1A 1AA";
     c_location := Some (dq "{'latitude': 51.5, 'longitude': -0.1}");
     c_prices := Some (dq "{'E10': 145.9, 'B7': 150}");
     c_date := Some "2024-01-01" |}.

Definition sample_database : database :=
  {| fuel_prices := [sample_row];
     fuel_prices_metadata :=
       [{| m_id := 1; m_last_updated := Some "2024-01-01 10:00:00.000000" |}];
     fuel_prices_id_seq := 2; fuel_prices_metadata_id_seq := 2 |}.

Definition fresh_state : state := {| db := empty_database; ticks := 0 |}.

Definition sample_state : state := {| db := sample_database; ticks := 0 |}.





Definition sample_loaded : list loaded_row :=
  Eval vm_compute in
    match mapM loads_cell (map c_location [sample_row]),
          mapM loads_cell (map c_prices [sample_row]) with
    | Ok locations, Ok prices => load_rows [sample_row] locations prices
    | _, _ => []
    end.

Definition good_url : string := "https://good.example/fuel.json".
Definition array_url : string := "https://array.example/fuel.json".
Definition html_url : string := "https://html.example/fuel.json".
Definition broken_url : string := "https://broken.example/fuel.json".
Definition down_url : string := "https://down.example/fuel.json".

Definition request_of (postcode filters : option string) : request :=
  {| arg_postcode := postcode; arg_filters := filters |}.

(** * app.py: the headers of an answer and the background run *)






(** Lines 140-145.  [time.sleep] only delays the run; [print] is left out. *)
Definition run_main_in_background (w : world) : M unit :=
  try_except (main w) (fun e => ret tt).

(** * Further predicates used in the statements *)

(** A cell as [apply(json.dumps)] writes it: the text of a value. *)
Definition dumped (cell : json) : Prop :=
  exists v, wf_json v = true /\ cell = JStr (json_dumps v).

(** A cell of the [date] column: the date of some reading of the clock. *)
Definition dated (w : world) (cell : json) : Prop :=
  exists n, cell = JStr (str_date (clock w n)).

(** Every column of the frame has one cell per row. *)
Definition full_columns (df : DataFrame) : Prop :=
  forall c cells, dict_get c (columns df) = Some cells ->
                  List.length cells = nrows df.

(** The frame has the column, and its cells are as [P] says. *)
Definition column_of (P : json -> Prop) (df : DataFrame) (c : string) : Prop :=
  exists cells, dict_get c (columns df) = Some cells /\ Forall P cells.

(** A frame as lines 67-70 leave it. *)
Definition normalized (w : world) (df : DataFrame) : Prop :=
  0 < nrows df /\ full_columns df /\
  column_of dumped df "location" /\ column_of dumped df "prices" /\
  column_of (dated w) df "date".

(** A stored row whose two texts [json.loads] accepts. *)
Definition decodes (row : fuel_price_row) : Prop :=
  exists l p, loads_cell (c_location row) = Ok l /\ loads_cell (c_prices row) = Ok p.

(** A row as a run writes it. *)
Definition written (w : world) (row : fuel_price_row) : Prop :=
  (exists n, c_date row = Some (str_date (clock w n))) /\ decodes row.

(** A value from which lines 67-69 get no frame with a [location] and a
    [prices] column. *)
Definition no_station_frame (stations : json) : bool :=
  match stations with
  | JArr items =>
      match as_records items with
      | Some recs => negb (has_key "location" recs && has_key "prices" recs)
      | None => true
      end
  | JObj d =>
      match dict_get "location" d, dict_get "prices" d with
      | Some _, Some _ => false
      | _, _ => true
      end
  | _ => true
  end.

(** A Python value that is a [dict]. *)
Definition is_mapping (v : json) : bool :=
  match v with
  | JObj _ => true
  | _ => false
  end.

(** The values Python takes for false, among those [json.loads] returns
    that are no floats. *)
Definition falsy (v : json) : bool :=
  match v with
  | JNull | JBool false | JInt 0 | JStr EmptyString | JArr [] | JObj [] => true
  | _ => false
  end.

(** A fuel type is hidden when its flag is present and false as Python
    judges it. *)
Definition hidden (filters : dict json) (key : string) : bool :=
  match dict_get key filters with
  | Some v => falsy v
  | None => false
  end.

(** The flag of a fuel type is no float (see [truthy]). *)
Definition no_float_flag (filters : dict json) (key : string) : Prop :=
  forall r, dict_get key filters <> Some (JFloat r).

Definition price_unless_hidden (filters prices : dict json) (key code : string)
  : json :=
  if hidden filters key then JNull else stored_price prices code.

(** An entry of the response under flags of any type. *)
Definition station_entry_by_truth (filters : dict json) (row : loaded_row) : json :=
  JObj [ ("brand", py_cell (c_brand (stored row)));
         ("address", py_cell (c_address (stored row)));
         ("postcode", py_cell (c_postcode (stored row)));
         ("unleaded", price_unless_hidden filters (prices_of row) "unleaded" "E10");
         ("superUnleaded",
          price_unless_hidden filters (prices_of row) "superUnleaded" "E5");
         ("diesel", price_unless_hidden filters (prices_of row) "diesel" "B7") ].

(** The state with the given rows as its [fuel_prices] table. *)
Definition with_rows (st : state) (rows : list fuel_price_row) : state :=
  {| db := {| fuel_prices := rows;
              fuel_prices_metadata := fuel_prices_metadata (db st);
              fuel_prices_id_seq := fuel_prices_id_seq (db st);
              fuel_prices_metadata_id_seq := fuel_prices_metadata_id_seq (db st) |};
     ticks := ticks st |}.


(** What a source contributes on a day: the frame of lines 63-70 when its
    answer is accepted and gives one, and nothing otherwise. *)
Definition frame_from (w : world) (day : string) (url : string) : list DataFrame :=
  match http w url with
  | Responded r =>
      if accepted r then
        match frame_of r day with
        | Ok df => [df]
        | _ => []
        end
      else []
  | ConnectionFailed => []
  end.

(** The answer of a source stays within what is described of pandas. *)
Definition described (w : world) (day : string) (url : string) : Prop :=
  forall r, http w url = Responded r -> accepted r = true ->
            frame_of r day <> Unmodelled.

(** The cell of a frame at a row and a column, missing when the frame
    has no such column. *)
Definition cell_at (c : string) (df : DataFrame) (i : nat) : json :=
  match dict_get c (columns df) with
  | Some cells => nth i cells NaN
  | None => NaN
  end.

(** The rows of a list of frames, each by its frame and its position
    there, in the order in which [pd.concat] puts them. *)
Definition positions (frames : list DataFrame) : list (DataFrame * nat) :=
  flat_map (fun df => map (pair df) (seq 0 (nrows df))) frames.

(** The rows of a list of frames as records. *)
Definition records_of (frames : list DataFrame) : list (dict json) :=
  map (fun p => df_row (fst p) (snd p)) (positions frames).







(** ** Further sample data *)

Definition first_url : string := "https://applegreenstores.com/fuel-prices/data.json".
Definition gaps_url : string := "https://gaps.example/fuel.json".
Definition nothing_url : string := "https://nothing.example/fuel.json".

(** A record with a key for which the table has no column. *)
Definition fax_body : string :=
  dq "{'stations': [{'site_id': 'b2', 'brand': 'Esso', 'address': '2 Low Rd', 'postcode': 'E1 6AN', 'location': {'latitude': 51.6, 'longitude': 0.1}, 'prices': {'E10': 144.9}, 'fax': 'none'}]}".

(** Two records, the second without prices. *)
Definition gaps_body : string :=
  dq "{'stations': [{'site_id': 'a1', 'brand': 'Tesco', 'address': '1 High St', 'postcode': 'SW1A 1AA', 'location': {'latitude': 51.5, 'longitude': -0.1}, 'prices': {'E10': 145.9, 'B7': 150}}, {'site_id': 'b2', 'brand': 'Esso', 'address': '2 Low Rd', 'postcode': 'E1 6AN', 'location': {'latitude': 51.6, 'longitude': 0.1}}]}".

Definition other_http (url : string) : http_result :=
  if (url =? first_url)%string then
    Responded {| content_type := Some "application/json"; text := fax_body |}
  else if (url =? gaps_url)%string then
    Responded {| content_type := Some "application/json"; text := gaps_body |}
  else if (url =? nothing_url)%string then
    Responded {| content_type := Some "application/json";
                 text := dq "{'stations': []}" |}
  else ConnectionFailed.

Definition other_world : world :=
  {| clock := fun _ => sample_now; http := other_http |}.

(** A row of the day before, a row without prices and a row whose
    location is NULL. *)
Definition old_row : fuel_price_row :=
  {| c_id := 7; c_site_id := Some "b2"; c_brand := Some "Esso";
     c_address := Some "2 Low Rd"; c_postcode := Some "E1 6AN";
     c_location := Some (dq "{'latitude': 51.6, 'longitude': 0.1}");
     c_prices := Some (dq "{'E10': 139.9}");
     c_date := Some "2023-12-31" |}.

Definition gap_row : fuel_price_row :=
  {| c_id := 2; c_site_id := Some "b2"; c_brand := Some "Esso";
     c_address := Some "2 Low Rd"; c_postcode := Some "E1 6AN";
     c_location := Some (dq "{'latitude': 51.6, 'longitude': 0.1}");
     c_prices := Some "NaN";
     c_date := Some "2024-01-01" |}.

Definition null_row : fuel_price_row :=
  {| c_id := 3; c_site_id := Some "c3"; c_brand := Some "Jet";
     c_address := Some "3 Mill Ln"; c_postcode := Some "M1 1AE";
     c_location := None;
     c_prices := Some (dq "{'E10': 141.9}");
     c_date := Some "2024-01-01" |}.

Definition state_of (rows : list fuel_price_row) : state :=
  with_rows sample_state rows.

Definition loaded_of (rows : list fuel_price_row) : list loaded_row :=
  match mapM loads_cell (map c_location rows), mapM loads_cell (map c_prices rows) with
  | Ok locations, Ok prices => load_rows rows locations prices
  | _, _ => []
  end.

(** * Properties *)

(** ** Strings *)

Lemma append_assoc (a b c : string) : (a ++ b) ++ c = a ++ (b ++ c).
Proof. induction a as [|x a IH]; simpl; [reflexivity | now rewrite IH]. Qed.

Lemma append_nil_r (s : string) : s ++ "" = s.
Proof. induction s as [|x s IH]; simpl; [reflexivity | now rewrite IH]. Qed.

Lemma length_append (a b : string) :
  String.length (a ++ b) = String.length a + String.length b.
Proof. induction a as [|x a IH]; simpl; [reflexivity | now rewrite IH]. Qed.

Lemma strip_prefix_app (p rest : string) : strip_prefix p (p ++ rest) = Some rest.
Proof.
  induction p as [|x p IH]; simpl; [reflexivity|].
  now rewrite Ascii.eqb_refl.
Qed.

(** ** The scanner of numbers *)

Lemma span_digits_split s d r : span_digits s = (d, r) -> s = d ++ r.
Proof.
  revert d r; induction s as [|c s IH]; simpl; intros d r H.
  - now inversion H.
  - destruct (is_digit c).
    + destruct (span_digits s) as [d' r'] eqn:E. inversion H; subst.
      simpl. f_equal. now apply IH.
    + now inversion H.
Qed.

Lemma span_digits_app s rest d r :
  span_digits s = (d, r) -> head_is is_digit rest = false ->
  span_digits (s ++ rest) = (d, r ++ rest).
Proof.
  revert d r; induction s as [|c s IH]; simpl; intros d r H Hrest.
  - inversion H; subst. destruct rest as [|x rest]; simpl in *; [reflexivity|].
    now rewrite Hrest.
  - destruct (is_digit c).
    + destruct (span_digits s) as [d' r'] eqn:E. inversion H; subst.
      now rewrite (IH _ _ eq_refl Hrest).
    + now inversion H.
Qed.

Lemma span_digits_self s d r : span_digits s = (d, r) -> span_digits d = (d, "").
Proof.
  revert d r; induction s as [|c s IH]; simpl; intros d r H.
  - now inversion H.
  - destruct (is_digit c) eqn:Ec.
    + destruct (span_digits s) as [d' r'] eqn:E. inversion H; subst.
      simpl. rewrite Ec. now rewrite (IH _ _ eq_refl).
    + now inversion H.
Qed.

Lemma span_digits_rest s d r : span_digits s = (d, r) -> head_is is_digit r = false.
Proof.
  revert d r; induction s as [|c s IH]; simpl; intros d r H.
  - now inversion H.
  - destruct (is_digit c) eqn:Ec.
    + destruct (span_digits s) as [d' r'] eqn:E. inversion H; subst.
      now apply (IH _ _ eq_refl).
    + inversion H; subst. exact Ec.
Qed.

Lemma span_digits_uint (u : Decimal.uint) :
  span_digits (NilEmpty.string_of_uint u) = (NilEmpty.string_of_uint u, "").
Proof. induction u; simpl; try rewrite IHu; reflexivity. Qed.

Lemma match_integer_app s rest i r :
  match_integer s = Some (i, r) -> head_is is_digit rest = false ->
  match_integer (s ++ rest) = Some (i, r ++ rest).
Proof.
  unfold match_integer. intros H Hrest.
  destruct s as [|c s]; [discriminate|].
  simpl. destruct (c =? "-")%char.
  - destruct s as [|c1 s]; [discriminate|]. simpl.
    destruct (c1 =? "0")%char; [now inversion H|].
    destruct (is_digit c1); [|discriminate].
    destruct (span_digits s) as [d r'] eqn:E.
    rewrite (span_digits_app _ _ _ _ E Hrest). now inversion H.
  - destruct (c =? "0")%char; [now inversion H|].
    destruct (is_digit c); [|discriminate].
    destruct (span_digits s) as [d r'] eqn:E.
    rewrite (span_digits_app _ _ _ _ E Hrest). now inversion H.
Qed.

Lemma match_integer_self s i r :
  match_integer s = Some (i, r) -> match_integer i = Some (i, "").
Proof.
  unfold match_integer. intros H.
  destruct s as [|c s]; [discriminate|].
  destruct (c =? "-")%char eqn:Ec.
  - destruct s as [|c1 s]; [discriminate|].
    destruct (c1 =? "0")%char eqn:E0.
    + inversion H; subst. reflexivity.
    + destruct (is_digit c1) eqn:Ed; [|discriminate].
      destruct (span_digits s) as [d r'] eqn:E. inversion H; subst.
      simpl. rewrite E0, Ed. now rewrite (span_digits_self _ _ _ E).
  - destruct (c =? "0")%char eqn:E0.
    + inversion H; subst. reflexivity.
    + destruct (is_digit c) eqn:Ed; [|discriminate].
      destruct (span_digits s) as [d r'] eqn:E. inversion H; subst.
      simpl. rewrite Ec, E0, Ed. now rewrite (span_digits_self _ _ _ E).
Qed.

Lemma match_integer_split s i r : match_integer s = Some (i, r) -> s = i ++ r.
Proof.
  unfold match_integer. intros H.
  destruct s as [|c s]; [discriminate|].
  destruct (c =? "-")%char eqn:Ec.
  - apply Ascii.eqb_eq in Ec; subst c.
    destruct s as [|c1 s]; [discriminate|].
    destruct (c1 =? "0")%char eqn:E0.
    + apply Ascii.eqb_eq in E0; subst. now inversion H.
    + destruct (is_digit c1) eqn:Ed; [|discriminate].
      destruct (span_digits s) as [d r'] eqn:E. inversion H; subst.
      simpl. now rewrite (span_digits_split _ _ _ E).
  - destruct (c =? "0")%char eqn:E0.
    + apply Ascii.eqb_eq in E0; subst. now inversion H.
    + destruct (is_digit c) eqn:Ed; [|discriminate].
      destruct (span_digits s) as [d r'] eqn:E. inversion H; subst.
      simpl. now rewrite (span_digits_split _ _ _ E).
Qed.

(** The integer part starts with a minus or a digit. *)
Lemma match_integer_head s i r :
  match_integer s = Some (i, r) ->
  head_is (fun c => is_digit c || (c =? "-")%char) s = true.
Proof.
  unfold match_integer. intros H.
  destruct s as [|c s]; [discriminate|]. simpl.
  destruct (c =? "-")%char eqn:Ec; [now rewrite orb_true_r|].
  destruct (c =? "0")%char eqn:E0.
  - apply Ascii.eqb_eq in E0; subst. reflexivity.
  - destruct (is_digit c); [reflexivity | discriminate].
Qed.

Lemma match_frac_app s rest f r :
  match_frac s = (f, r) ->
  head_is (fun c => is_digit c || (c =? ".")%char) rest = false ->
  match_frac (s ++ rest) = (f, r ++ rest).
Proof.
  unfold match_frac. intros H Hrest.
  assert (Hd : head_is is_digit rest = false).
  { destruct rest; simpl in *; [reflexivity|]. now apply orb_false_iff in Hrest. }
  destruct s as [|c s].
  - inversion H; subst. destruct rest as [|x rest]; [reflexivity|].
    simpl in *. apply orb_false_iff in Hrest. destruct Hrest as [_ Hx].
    now rewrite Hx.
  - simpl. destruct (c =? ".")%char; [|now inversion H].
    destruct (span_digits s) as [d r'] eqn:E.
    rewrite (span_digits_app _ _ _ _ E Hd).
    destruct d; now inversion H.
Qed.

Lemma match_frac_self s f r :
  match_frac s = (f, r) ->
  match_frac f = (f, "") /\ s = f ++ r /\
  (f = "" \/ head_is (fun c => (c =? ".")%char) f = true).
Proof.
  unfold match_frac. intros H.
  destruct s as [|c s]; [inversion H; subst; auto|].
  destruct (c =? ".")%char eqn:Ec; [|inversion H; subst; auto].
  destruct (span_digits s) as [d r'] eqn:E.
  destruct d as [|x d]; [inversion H; subst; auto|].
  inversion H; subst. rewrite Ec.
  rewrite (span_digits_self _ _ _ E). simpl. rewrite Ec.
  rewrite (span_digits_split _ _ _ E). auto.
Qed.

Lemma match_exp_app s rest e r :
  match_exp s = (e, r) ->
  head_is (fun c => is_digit c || str_in (String c "") "eE+-") rest = false ->
  match_exp (s ++ rest) = (e, r ++ rest).
Proof.
  unfold match_exp. intros H Hrest.
  assert (Hd : head_is is_digit rest = false).
  { destruct rest; simpl in *; [reflexivity|]. now apply orb_false_iff in Hrest. }
  destruct s as [|c s].
  - inversion H; subst. destruct rest as [|x rest]; [reflexivity|].
    simpl in *. apply orb_false_iff in Hrest. destruct Hrest as [_ Hx].
    destruct (x =? "e")%char eqn:E1.
    { apply Ascii.eqb_eq in E1; subst; discriminate. }
    destruct (x =? "E")%char eqn:E2.
    { apply Ascii.eqb_eq in E2; subst; discriminate. }
    reflexivity.
  - simpl. destruct ((c =? "e")%char || (c =? "E")%char); [|now inversion H].
    destruct s as [|g s].
    + simpl in H. inversion H; subst. simpl.
      destruct rest as [|x rest]; [reflexivity|].
      simpl in Hrest, Hd. apply orb_false_iff in Hrest. destruct Hrest as [_ Hx].
      destruct (x =? "-")%char eqn:E1.
      { apply Ascii.eqb_eq in E1; subst; discriminate. }
      destruct (x =? "+")%char eqn:E2.
      { apply Ascii.eqb_eq in E2; subst; discriminate. }
      simpl. now rewrite Hd.
    + simpl. destruct ((g =? "-")%char || (g =? "+")%char).
      * destruct (span_digits s) as [d r'] eqn:E.
        rewrite (span_digits_app _ _ _ _ E Hd).
        destruct d; now inversion H.
      * destruct (span_digits (String g s)) as [d r'] eqn:E.
        change (String g (s ++ rest)) with (String g s ++ rest).
        rewrite (span_digits_app _ _ _ _ E Hd).
        destruct d; now inversion H.
Qed.

Lemma match_exp_self s e r :
  match_exp s = (e, r) ->
  match_exp e = (e, "") /\ s = e ++ r /\
  (e = "" \/ head_is (fun c => (c =? "e")%char || (c =? "E")%char) e = true).
Proof.
  unfold match_exp. intros H.
  destruct s as [|c s]; [inversion H; subst; auto|].
  destruct ((c =? "e")%char || (c =? "E")%char) eqn:Ec; [|inversion H; subst; auto].
  destruct s as [|g s].
  - simpl in H. inversion H; subst; auto.
  - destruct ((g =? "-")%char || (g =? "+")%char) eqn:Eg.
    + destruct (span_digits s) as [d r'] eqn:E.
      destruct d as [|x d]; [inversion H; subst; auto|].
      inversion H; subst. rewrite Ec. simpl. rewrite Eg.
      rewrite (span_digits_self _ _ _ E). simpl. rewrite Ec.
      rewrite (span_digits_split _ _ _ E). auto.
    + destruct (span_digits (String g s)) as [d r'] eqn:E.
      destruct d as [|x d]; [inversion H; subst; auto|].
      inversion H; subst. rewrite Ec.
      pose proof (span_digits_self _ _ _ E) as Hself.
      pose proof (span_digits_split _ _ _ E) as Hsplit.
      simpl in Hsplit. inversion Hsplit; subst x.
      subst s. simpl. rewrite Eg. rewrite Hself. auto.
Qed.

Lemma number_end_digit rest : number_end rest = true -> head_is is_digit rest = false.
Proof.
  unfold number_end. destruct rest as [|x rest]; simpl; [reflexivity|].
  intros H. apply negb_true_iff, orb_false_iff in H. tauto.
Qed.

Lemma number_end_frac rest :
  number_end rest = true ->
  head_is (fun c => is_digit c || (c =? ".")%char) rest = false.
Proof.
  unfold number_end. destruct rest as [|x rest]; simpl; [reflexivity|].
  intros H. apply negb_true_iff, orb_false_iff in H. destruct H as [Hd Hx].
  rewrite Hd. simpl. destruct (x =? ".")%char eqn:E; [|reflexivity].
  apply Ascii.eqb_eq in E; subst. discriminate.
Qed.

Lemma number_end_exp rest :
  number_end rest = true ->
  head_is (fun c => is_digit c || str_in (String c "") "eE+-") rest = false.
Proof.
  unfold number_end. destruct rest as [|x rest]; simpl; [reflexivity|].
  intros H. apply negb_true_iff, orb_false_iff in H. destruct H as [Hd Hx].
  rewrite Hd. simpl.
  destruct (x =? "e")%char eqn:E1; [apply Ascii.eqb_eq in E1; subst; discriminate|].
  destruct (x =? "E")%char eqn:E2; [apply Ascii.eqb_eq in E2; subst; discriminate|].
  destruct (x =? "+")%char eqn:E3; [apply Ascii.eqb_eq in E3; subst; discriminate|].
  destruct (x =? "-")%char eqn:E4; [apply Ascii.eqb_eq in E4; subst; discriminate|].
  unfold str_in, startswith; simpl. now rewrite E1, E2, E3, E4.
Qed.

Lemma match_number_app s rest v r :
  match_number s = Some (v, r) -> number_end rest = true ->
  match_number (s ++ rest) = Some (v, r ++ rest).
Proof.
  unfold match_number. intros H Hrest.
  destruct (match_integer s) as [[i r0]|] eqn:Ei; [|discriminate].
  rewrite (match_integer_app _ _ _ _ Ei (number_end_digit _ Hrest)).
  destruct (match_frac r0) as [f r1] eqn:Ef.
  rewrite (match_frac_app _ _ _ _ Ef (number_end_frac _ Hrest)).
  destruct (match_exp r1) as [e r2] eqn:Ee.
  rewrite (match_exp_app _ _ _ _ Ee (number_end_exp _ Hrest)).
  destruct f; destruct e; try (now inversion H).
  destruct (NilEmpty.int_of_string i); now inversion H.
Qed.

Lemma head_app p a b : head_is p a = true -> head_is p (a ++ b) = true.
Proof. destruct a; simpl; [discriminate | trivial]. Qed.

Lemma match_number_float_self s lit r :
  match_number s = Some (JFloat lit, r) -> match_number lit = Some (JFloat lit, "").
Proof.
  unfold match_number. intros H.
  destruct (match_integer s) as [[i r0]|] eqn:Ei; [|discriminate].
  destruct (match_frac r0) as [f r1] eqn:Ef.
  destruct (match_exp r1) as [e r2] eqn:Ee.
  destruct (match_frac_self _ _ _ Ef) as (Hf & _ & Hfh).
  destruct (match_exp_self _ _ _ Ee) as (He & _ & Heh).
  assert (Hlit : lit = i ++ f ++ e /\ (f <> "" \/ e <> "")).
  { destruct f; destruct e; try (inversion H; subst; split; [reflexivity|]);
      try (now left); try (now right).
    destruct (NilEmpty.int_of_string i); discriminate. }
  destruct Hlit as [-> Hne].
  assert (Hed : head_is (fun c => is_digit c || (c =? ".")%char) e = false).
  { destruct Heh as [->|Heh]; [reflexivity|].
    destruct e as [|x e]; [discriminate|]. simpl in *.
    apply orb_true_iff in Heh.
    destruct Heh as [E|E]; apply Ascii.eqb_eq in E; subst; reflexivity. }
  assert (Hfed : head_is is_digit (f ++ e) = false).
  { destruct Hfh as [->|Hfh].
    - simpl. destruct e; simpl in *; [reflexivity|].
      now apply orb_false_iff in Hed.
    - destruct f as [|x f]; [discriminate|]. simpl in *.
      apply Ascii.eqb_eq in Hfh; subst. reflexivity. }
  pose proof (match_integer_app _ _ _ _ (match_integer_self _ _ _ Ei) Hfed) as Hi.
  simpl in Hi. rewrite Hi.
  pose proof (match_frac_app _ _ _ _ Hf Hed) as Hf'. simpl in Hf'. rewrite Hf'.
  rewrite He.
  destruct f; destruct e; try reflexivity.
  destruct Hne as [Hne|Hne]; now elim Hne.
Qed.

Lemma match_number_head s vr :
  match_number s = Some vr ->
  head_is (fun c => is_digit c || (c =? "-")%char) s = true.
Proof.
  unfold match_number. intros H.
  destruct (match_integer s) as [[i r0]|] eqn:Ei; [|discriminate].
  exact (match_integer_head _ _ _ Ei).
Qed.

Lemma uint_head (p : positive) :
  exists c d, NilEmpty.string_of_uint (Pos.to_uint p) = String c d /\
              is_digit c = true /\ (c =? "0")%char = false.
Proof.
  assert (Hn : Decimal.unorm (Pos.to_uint p) = Pos.to_uint p).
  { change (Pos.to_uint p) with (N.to_uint (Npos p)) at 2.
    rewrite <- (DecimalPos.Unsigned.of_to p). now rewrite DecimalPos.Unsigned.to_of. }
  destruct (Pos.to_uint p) as [|u|u|u|u|u|u|u|u|u|u] eqn:E;
    try (simpl; eexists _, _; split; [reflexivity | split; reflexivity]).
  - now elim (DecimalPos.Unsigned.to_uint_nonnil p).
  - exfalso. rewrite DecimalFacts.unorm_D0 in Hn. unfold Decimal.unorm in Hn.
    destruct (Decimal.nzhead u) eqn:Eu; try discriminate.
    + inversion Hn; subst. now elim (DecimalPos.Unsigned.to_uint_nonzero p).
    + now elim (DecimalFacts.nzhead_nonzero u u0).
Qed.

Lemma match_number_int (z : Z) : match_number (int_repr z) = Some (JInt z, "").
Proof.
  unfold match_number, int_repr.
  assert (Hv : NilEmpty.int_of_string (NilEmpty.string_of_int (Z.to_int z))
               = Some (Z.to_int z)) by apply NilEmpty.isi.
  assert (Hpos : forall p, match_integer (NilEmpty.string_of_uint (Pos.to_uint p))
                           = Some (NilEmpty.string_of_uint (Pos.to_uint p), "")).
  { intros p. destruct (uint_head p) as (c & d & E & Hd & H0).
    pose proof (span_digits_uint (Pos.to_uint p)) as Hs. rewrite E in *.
    unfold match_integer. simpl in Hs. rewrite Hd in Hs.
    destruct (span_digits d) as [d1 r1] eqn:E1. inversion Hs; subst.
    destruct (c =? "-")%char eqn:Em.
    { apply Ascii.eqb_eq in Em; subst; discriminate. }
    rewrite H0, Hd, E1. reflexivity. }
  destruct z as [|p|p]; simpl Z.to_int in *.
  - simpl in *. reflexivity.
  - simpl NilEmpty.string_of_int in *. rewrite Hpos. simpl.
    rewrite Hv. pose proof (DecimalZ.of_to (Z.pos p)) as Hz.
    simpl Z.to_int in Hz. now rewrite Hz.
  - simpl NilEmpty.string_of_int in *.
    destruct (uint_head p) as (c & d & E & Hd & H0).
    pose proof (Hpos p) as Hp. rewrite E in *.
    unfold match_integer in *. simpl.
    destruct (c =? "-")%char eqn:Em.
    { apply Ascii.eqb_eq in Em; subst; discriminate. }
    rewrite H0, Hd in *. destruct (span_digits d) as [d1 r1].
    inversion Hp; subst. simpl. simpl in Hv. rewrite Hv.
    pose proof (DecimalZ.of_to (Z.neg p)) as Hz.
    simpl Z.to_int in Hz. now rewrite Hz.
Qed.

(** ** Strings through [json.dumps] and back *)

Lemma py_scanstring_escape_char c tail s rest :
  py_scanstring tail = Ok (s, rest) ->
  py_scanstring (escape_char c ++ tail) = Ok (String c s, rest).
Proof.
  intros H.
  destruct c as [[] [] [] [] [] [] [] []]; cbn; rewrite H; reflexivity.
Qed.

Lemma py_scanstring_escape s rest :
  py_scanstring (escape_string s ++ String dquote rest) = Ok (s, rest).
Proof.
  induction s as [|c s IH]; [reflexivity|].
  simpl escape_string. rewrite append_assoc.
  now apply py_scanstring_escape_char.
Qed.

(** ** [json.loads] after [json.dumps] *)


Lemma number_head_value s :
  head_is (fun c => is_digit c || (c =? "-")%char) s = true ->
  head_is value_head s = true /\
  head_is (fun c => (c =? dquote)%char || (c =? "{")%char || (c =? "[")%char
                    || (c =? "n")%char || (c =? "t")%char || (c =? "f")%char) s = false.
Proof.
  destruct s as [|c s]; simpl; [discriminate|].
  destruct c as [[] [] [] [] [] [] [] []]; simpl; intros H;
    try discriminate; split; reflexivity.
Qed.

Lemma match_constant_number s vr :
  match_number s = Some vr -> match_constant s = Some vr.
Proof.
  intros H. destruct (number_head_value _ (match_number_head _ _ H)) as [_ Hh].
  unfold match_constant. destruct s as [|c s]; [discriminate|]. simpl in Hh.
  repeat (apply orb_false_iff in Hh; destruct Hh as [Hh ?]).
  cbn [strip_prefix].
  rewrite (Ascii.eqb_sym "n" c), (Ascii.eqb_sym "t" c), (Ascii.eqb_sym "f" c).
  rewrite H0, H1, H2. now rewrite H.
Qed.

Lemma scan_once_constant fuel s :
  head_is (fun c => (c =? dquote)%char || (c =? "{")%char || (c =? "[")%char) s
  = false ->
  s <> "" ->
  scan_once (S fuel) s =
  match match_constant s with Some vr => Ok vr | None => Raise JSONDecodeError end.
Proof.
  destruct s as [|c s]; [intros _ H; now elim H|]. simpl head_is. intros H _.
  repeat (apply orb_false_iff in H; destruct H as [H ?]).
  cbn [scan_once]. now rewrite H, H1, H0.
Qed.

Lemma is_float_repr_cases r :
  is_float_repr r = true ->
  match_number r = Some (JFloat r, "") \/ r = "NaN" \/ r = "Infinity" \/ r = "-Infinity".
Proof.
  unfold is_float_repr. intros H.
  repeat (apply orb_true_iff in H; destruct H as [H|H]);
    try (apply String.eqb_eq in H; auto).
  left. destruct (match_number r) as [[v rest]|] eqn:E; [|discriminate].
  destruct v; try discriminate. destruct rest; [|discriminate].
  pose proof E as E'. unfold match_number in E'.
  destruct (match_integer r) as [[i r0]|] eqn:Ei; [|discriminate].
  destruct (match_frac r0) as [f r1] eqn:Ef.
  destruct (match_exp r1) as [e r2] eqn:Ee.
  assert (r = i ++ f ++ e).
  { rewrite (match_integer_split _ _ _ Ei).
    destruct (match_frac_self _ _ _ Ef) as (_ & -> & _).
    destruct (match_exp_self _ _ _ Ee) as (_ & -> & _).
    destruct f; destruct e; try (inversion E'; subst; now rewrite ?append_nil_r).
    destruct (NilEmpty.int_of_string i); discriminate. }
  destruct f; destruct e; try (inversion E'; subst; congruence).
  destruct (NilEmpty.int_of_string i); discriminate.
Qed.

Lemma dumps_head v :
  wf_json v = true -> head_is value_head (json_dumps v) = true.
Proof.
  destruct v; simpl; intros H; try reflexivity.
  - now destruct b.
  - exact (proj1 (number_head_value _ (match_number_head _ _ (match_number_int z)))).
  - destruct (is_float_repr_cases _ H) as [E|[->|[->| ->]]]; try reflexivity.
    exact (proj1 (number_head_value _ (match_number_head _ _ E))).
Qed.

Lemma skip_ws_value s : head_is value_head s = true -> skip_ws s = s.
Proof.
  destruct s as [|c s]; simpl; [reflexivity|]. unfold value_head.
  intros H. apply negb_true_iff, orb_false_iff in H. now rewrite (proj1 H).
Qed.

Lemma scan_once_leaf fuel v rest :
  match v with JArr _ | JObj _ | JStr _ => False | _ => True end ->
  wf_json v = true -> number_end rest = true ->
  scan_once (S fuel) (json_dumps v ++ rest) = Ok (v, rest).
Proof.
  intros Hleaf Hwf Hrest.
  assert (Hn : forall r v', match_number r = Some (v', "") ->
               scan_once (S fuel) (r ++ rest) = Ok (v', rest)).
  { intros r v' E.
    pose proof (match_number_app _ _ _ _ E Hrest) as E'. simpl in E'.
    destruct (number_head_value _ (match_number_head _ _ E')) as [_ Hh].
    rewrite scan_once_constant.
    - now rewrite (match_constant_number _ _ E').
    - destruct (r ++ rest); [discriminate|]. simpl in *.
      do 3 (apply orb_false_iff in Hh; destruct Hh as [Hh _]). exact Hh.
    - destruct (r ++ rest); discriminate. }
  destruct v; try contradiction; simpl json_dumps.
  - reflexivity.
  - now destruct b.
  - apply Hn, match_number_int.
  - simpl in Hwf.
    destruct (is_float_repr_cases _ Hwf) as [E|[->|[->| ->]]]; try reflexivity.
    now apply Hn.
Qed.


Lemma encode_app k tail :
  encode_basestring_ascii k ++ tail = String dquote (escape_string k ++ String dquote tail).
Proof. unfold encode_basestring_ascii. simpl. now rewrite append_assoc. Qed.

Lemma concat_head p sep a l :
  head_is p a = true -> head_is p (String.concat sep (a :: l)) = true.
Proof.
  intros H. destruct l; simpl; [exact H|]. now apply head_app.
Qed.

Lemma concat_cons2 sep a b l :
  String.concat sep (a :: b :: l) = a ++ sep ++ String.concat sep (b :: l).
Proof. reflexivity. Qed.

Lemma JSONArray_dumps items :
  items <> [] -> Forall roundtrips items -> forallb wf_json items = true ->
  forall fuel rest,
    list_sum (map (fun x => S (json_size x)) items) <= fuel ->
    JSONArray fuel (String.concat ", " (map json_dumps items) ++ String "]" rest)
    = Ok (items, rest).
Proof.
  induction items as [|x items IH]; [intros H; now elim H|].
  intros _ Hall Hwf fuel rest Hfuel.
  inversion Hall as [|? ? Hx Hitems]; subst.
  simpl in Hwf. apply andb_true_iff in Hwf. destruct Hwf as [Hwx Hwf].
  destruct fuel as [|fuel]; [simpl in Hfuel; lia|].
  cbn [JSONArray]. destruct items as [|y l].
  - simpl. rewrite (Hx Hwx); [reflexivity | simpl in Hfuel; lia | reflexivity].
  - cbn [map]. rewrite concat_cons2. fold (map json_dumps l).
    change (json_dumps y :: map json_dumps l) with (map json_dumps (y :: l)).
    remember (String.concat ", " (map json_dumps (y :: l))) as C eqn:EC.
    rewrite !append_assoc.
    rewrite (Hx Hwx); [| simpl in Hfuel; lia | reflexivity].
    simpl. rewrite skip_ws_value.
    + subst C. rewrite IH; [reflexivity | discriminate | assumption | assumption |].
      simpl in Hfuel. simpl. lia.
    + subst C. apply head_app. apply concat_head. apply dumps_head.
      simpl in Hwf. apply andb_true_iff in Hwf. tauto.
Qed.


Lemma JSONObject_member k v fuel tail :
  roundtrips v -> wf_json v = true -> json_size v <= fuel -> number_end tail = true ->
  JSONObject (S fuel) (member_dumps (k, v) ++ tail) =
  match skip_ws tail with
  | EmptyString => Raise JSONDecodeError
  | String c4 r4 =>
      if (c4 =? "}")%char then Ok ([(k, v)], r4)
      else if (c4 =? ",")%char then
        '(pairs, r5) <- JSONObject fuel (skip_ws r4) ;;
        Ok ((k, v) :: pairs, r5)
      else Raise JSONDecodeError
  end.
Proof.
  intros Hx Hwx Hfuel Htail.
  unfold member_dumps. simpl fst. simpl snd.
  rewrite !append_assoc. rewrite encode_app.
  cbn [JSONObject]. rewrite Ascii.eqb_refl.
  rewrite py_scanstring_escape. cbn [bind].
  remember (json_dumps v ++ tail) as X eqn:EX. simpl.
  rewrite skip_ws_value by (subst X; apply head_app, dumps_head, Hwx).
  subst X. rewrite (Hx Hwx) by assumption. reflexivity.
Qed.

Lemma JSONObject_dumps members :
  members <> [] -> Forall (fun kv => roundtrips (snd kv)) members ->
  forallb (fun kv => wf_json (snd kv)) members = true ->
  forall fuel rest,
    list_sum (map (fun kv => S (json_size (snd kv))) members) <= fuel ->
    JSONObject fuel (String.concat ", " (map member_dumps members) ++ String "}" rest)
    = Ok (members, rest).
Proof.
  induction members as [|[k v] members IH]; [intros H; now elim H|].
  intros _ Hall Hwf fuel rest Hfuel.
  inversion Hall as [|? ? Hx Hitems]; subst. simpl in Hx.
  simpl in Hwf. apply andb_true_iff in Hwf. destruct Hwf as [Hwx Hwf].
  destruct fuel as [|fuel]; [simpl in Hfuel; lia|].
  destruct members as [|m l].
  - cbn [map String.concat].
    rewrite JSONObject_member; [reflexivity | assumption | assumption | | reflexivity].
    simpl in Hfuel. lia.
  - cbn [map]. rewrite concat_cons2. fold (map member_dumps l).
    change (member_dumps m :: map member_dumps l) with (map member_dumps (m :: l)).
    remember (String.concat ", " (map member_dumps (m :: l))) as C eqn:EC.
    rewrite !append_assoc.
    rewrite JSONObject_member; [| assumption | assumption | | reflexivity].
    2:{ simpl in Hfuel. lia. }
    simpl. rewrite skip_ws_value.
    + subst C. rewrite IH; [reflexivity | discriminate | assumption | assumption |].
      simpl in Hfuel. simpl. lia.
    + subst C. apply head_app. apply concat_head. destruct m as [k' v']. reflexivity.
Qed.

Lemma dict_set_fresh {A : Type} k (v : A) d :
  existsb (String.eqb k) (map fst d) = false ->
  dict_set k v d = (d ++ [(k, v)])%list.
Proof.
  induction d as [|[k' v'] d IH]; simpl; [reflexivity|].
  intros H. apply orb_false_iff in H. destruct H as [Hk H].
  rewrite String.eqb_sym, Hk. now rewrite IH.
Qed.

Lemma existsb_app_false {A : Type} (f : A -> bool) l1 l2 :
  existsb f (l1 ++ l2)%list = false <-> existsb f l1 = false /\ existsb f l2 = false.
Proof. rewrite existsb_app. apply orb_false_iff. Qed.

Lemma dict_of_pairs_distinct {A : Type} (members acc : dict A) :
  distinct (map fst members) = true ->
  (forall k, In k (map fst members) -> existsb (String.eqb k) (map fst acc) = false) ->
  fold_left (fun d kv => dict_set (fst kv) (snd kv) d) members acc
  = (acc ++ members)%list.
Proof.
  revert acc. induction members as [|[k v] members IH]; intros acc Hd Hacc.
  - simpl. now rewrite app_nil_r.
  - simpl in Hd. apply andb_true_iff in Hd. destruct Hd as [Hk Hd].
    apply negb_true_iff in Hk.
    simpl fold_left. rewrite dict_set_fresh by (apply Hacc; now left).
    rewrite IH; [now rewrite <- app_assoc | assumption |].
    intros k' Hin. rewrite map_app. apply existsb_app_false. split.
    + apply Hacc. now right.
    + simpl. rewrite orb_false_r.
      destruct (String.eqb_spec k' k) as [->|]; [|reflexivity].
      exfalso. assert (E : existsb (String.eqb k) (map fst members) = true).
      { apply existsb_exists. exists k. split; [assumption | apply String.eqb_refl]. }
      congruence.
Qed.

Lemma dict_of_pairs_id {A : Type} (members : dict A) :
  distinct (map fst members) = true -> dict_of_pairs members = members.
Proof.
  intros H. unfold dict_of_pairs.
  now rewrite dict_of_pairs_distinct.
Qed.

(** The scanner reads the text of a value back, and stops where it ends. *)
Lemma scan_once_dumps v : roundtrips v.
Proof.
  induction v using json_ind; unfold roundtrips; intros Hwf fuel rest Hfuel Hrest;
    (destruct fuel as [|fuel]; [simpl in Hfuel; lia|]);
    try (now apply scan_once_leaf).
  - (* strings *)
    simpl json_dumps. rewrite encode_app. cbn [scan_once].
    rewrite Ascii.eqb_refl. now rewrite py_scanstring_escape.
  - (* arrays *)
    simpl in Hwf. cbn [json_dumps]. fold (map json_dumps items).
    rewrite !append_assoc. simpl append.
    destruct items as [|x l]; [reflexivity|].
    remember (x :: l) as items eqn:Ei.
    assert (Hh : head_is value_head
                   (String.concat ", " (map json_dumps items) ++ String "]" rest) = true).
    { subst items. apply head_app, concat_head, dumps_head.
      simpl in Hwf. apply andb_true_iff in Hwf. tauto. }
    cbn [scan_once]. simpl Ascii.eqb. cbv iota.
    rewrite (skip_ws_value _ Hh).
    destruct (String.concat ", " (map json_dumps items) ++ String "]" rest)
      as [|c1 r1] eqn:E; [discriminate|].
    simpl in Hh. unfold value_head in Hh.
    apply negb_true_iff, orb_false_iff in Hh. rewrite (proj2 Hh).
    rewrite <- E. rewrite JSONArray_dumps; [reflexivity | subst; discriminate | assumption | assumption |].
    simpl in Hfuel. lia.
  - (* objects *)
    simpl in Hwf. apply andb_true_iff in Hwf. destruct Hwf as [Hkeys Hwf].
    cbn [json_dumps]. fold member_dumps. fold (map member_dumps members).
    rewrite !append_assoc. simpl append.
    destruct members as [|m l]; [reflexivity|].
    remember (m :: l) as members eqn:Ei.
    cbn [scan_once]. simpl Ascii.eqb. cbv iota.
    assert (exists r1, String.concat ", " (map member_dumps members) ++ String "}" rest
                       = String dquote r1) as [r1 E].
    { subst members. destruct m as [k v]. cbn [map].
      destruct (map member_dumps l); cbn [String.concat];
        unfold member_dumps; simpl fst; rewrite !append_assoc, encode_app; eauto. }
    rewrite E. simpl skip_ws. simpl Ascii.eqb. cbv iota.
    rewrite <- E. rewrite JSONObject_dumps; [| subst; discriminate | assumption | assumption |].
    + cbn [bind]. now rewrite dict_of_pairs_id.
    + simpl in Hfuel. lia.
Qed.

Lemma length_concat_members {A : Type} (f : A -> nat) (g : A -> string) items :
  (forall x, In x items -> f x <= S (String.length (g x))) ->
  list_sum (map (fun x => S (f x)) items)
  <= 2 + String.length (String.concat ", " (map g items)).
Proof.
  induction items as [|x items IH]; intros H; [simpl; lia|].
  assert (Hx := H x (or_introl eq_refl)).
  assert (IH' := IH (fun y Hy => H y (or_intror Hy))).
  destruct items as [|y l]; [simpl in *; lia|].
  cbn [map] in *. rewrite concat_cons2.
  remember (String.concat ", " (g y :: map g l)) as C eqn:EC.
  remember (list_sum (S (f y) :: map (fun x => S (f x)) l)) as n eqn:En.
  change (list_sum (S (f x) :: S (f y) :: map (fun x => S (f x)) l))
    with (S (f x) + list_sum (S (f y) :: map (fun x => S (f x)) l)).
  rewrite <- En, !length_append. change (String.length ", ") with 2. lia.
Qed.

Lemma json_size_dumps v : json_size v <= S (String.length (json_dumps v)).
Proof.
  induction v using json_ind; try (simpl; lia).
  - cbn [json_size json_dumps]. fold (map json_dumps items).
    pose proof (length_concat_members json_size json_dumps items) as L.
    rewrite Forall_forall in H. specialize (L H).
    rewrite !length_append. change (String.length "[") with 1.
    change (String.length "]") with 1. lia.
  - cbn [json_size json_dumps]. fold member_dumps. fold (map member_dumps members).
    pose proof (length_concat_members (fun kv => json_size (snd kv)) member_dumps
                  members) as L.
    rewrite Forall_forall in H.
    assert (Hm : forall kv, In kv members ->
                 json_size (snd kv) <= S (String.length (member_dumps kv))).
    { intros kv Hkv. specialize (H kv Hkv). unfold member_dumps.
      rewrite !length_append. lia. }
    specialize (L Hm).
    rewrite !length_append. change (String.length "{") with 1.
    change (String.length "}") with 1. lia.
Qed.

(** [json.loads(json.dumps(v))] is [v]. *)
Theorem json_loads_dumps v : wf_json v = true -> json_loads (json_dumps v) = Ok v.
Proof.
  intros Hwf. unfold json_loads.
  rewrite skip_ws_value by now apply dumps_head.
  rewrite <- (append_nil_r (json_dumps v)) at 2.
  rewrite (scan_once_dumps v Hwf); [reflexivity | | reflexivity].
  pose proof (json_size_dumps v). lia.
Qed.

(** ** What [json.loads] returns is well formed *)

Lemma match_number_kind s v r :
  match_number s = Some (v, r) ->
  match v with JInt _ | JFloat _ => True | _ => False end.
Proof.
  unfold match_number. intros H.
  destruct (match_integer s) as [[i r0]|]; [|discriminate].
  destruct (match_frac r0) as [f r1]. destruct (match_exp r1) as [e r2].
  destruct f; destruct e; try (now inversion H).
  destruct (NilEmpty.int_of_string i); now inversion H.
Qed.

Lemma match_constant_wf s v r : match_constant s = Some (v, r) -> wf_json v = true.
Proof.
  unfold match_constant. intros H.
  destruct (strip_prefix "null" s); [now inversion H|].
  destruct (strip_prefix "true" s); [now inversion H|].
  destruct (strip_prefix "false" s); [now inversion H|].
  destruct (match_number s) as [[v' r']|] eqn:E.
  - inversion H; subst. pose proof (match_number_kind _ _ _ E) as K.
    destruct v; try reflexivity; try contradiction.
    simpl. unfold is_float_repr.
    rewrite (match_number_float_self _ _ _ E). reflexivity.
  - destruct (strip_prefix "NaN" s); [now inversion H|].
    destruct (strip_prefix "Infinity" s); [now inversion H|].
    destruct (strip_prefix "-Infinity" s); [now inversion H|discriminate].
Qed.

Lemma dict_set_keys {A : Type} k (v : A) d :
  map fst (dict_set k v d) =
  if existsb (String.eqb k) (map fst d) then map fst d else (map fst d ++ [k])%list.
Proof.
  induction d as [|[k' v'] d IH]; simpl; [reflexivity|].
  rewrite (String.eqb_sym k k').
  destruct (k' =? k)%string; simpl; [reflexivity|].
  rewrite IH. now destruct (existsb (String.eqb k) (map fst d)).
Qed.

Lemma distinct_snoc keys k :
  distinct keys = true -> existsb (String.eqb k) keys = false ->
  distinct (keys ++ [k]) = true.
Proof.
  induction keys as [|k' keys IH]; simpl; [reflexivity|].
  intros H Hk. apply andb_true_iff in H. destruct H as [H1 H2].
  apply orb_false_iff in Hk. destruct Hk as [Hk1 Hk2].
  rewrite IH by assumption. rewrite andb_true_r.
  rewrite existsb_app. simpl. rewrite orb_false_r.
  apply negb_true_iff in H1. rewrite H1. simpl.
  now rewrite String.eqb_sym, Hk1.
Qed.

Lemma dict_set_distinct {A : Type} k (v : A) d :
  distinct (map fst d) = true -> distinct (map fst (dict_set k v d)) = true.
Proof.
  intros H. rewrite dict_set_keys.
  destruct (existsb (String.eqb k) (map fst d)) eqn:E; [assumption|].
  now apply distinct_snoc.
Qed.

Lemma dict_set_forallb {A : Type} (p : A -> bool) k v d :
  p v = true -> forallb (fun kv => p (snd kv)) d = true ->
  forallb (fun kv => p (snd kv)) (dict_set k v d) = true.
Proof.
  intros Hv. induction d as [|[k' v'] d IH]; simpl; [now rewrite Hv|].
  intros H. apply andb_true_iff in H. destruct H as [H1 H2].
  destruct (k' =? k)%string; simpl.
  - now rewrite Hv.
  - now rewrite H1, IH.
Qed.

Lemma dict_of_pairs_wf pairs :
  forallb (fun kv => wf_json (snd kv)) pairs = true ->
  wf_json (JObj (dict_of_pairs pairs)) = true.
Proof.
  unfold dict_of_pairs. intros H.
  assert (G : forall acc,
             wf_json (JObj acc) = true ->
             wf_json (JObj (fold_left (fun d kv => dict_set (fst kv) (snd kv) d)
                                      pairs acc)) = true).
  { induction pairs as [|[k v] pairs IH]; intros acc Hacc; [exact Hacc|].
    simpl in H. apply andb_true_iff in H. destruct H as [Hv H].
    simpl fold_left. apply IH; [assumption|].
    simpl in *. apply andb_true_iff in Hacc. destruct Hacc as [Ha1 Ha2].
    now rewrite dict_set_distinct, dict_set_forallb. }
  now apply G.
Qed.

Lemma scanner_wf fuel :
  (forall s v r, scan_once fuel s = Ok (v, r) -> wf_json v = true) /\
  (forall s vs r, JSONArray fuel s = Ok (vs, r) -> forallb wf_json vs = true) /\
  (forall s ps r, JSONObject fuel s = Ok (ps, r) ->
                  forallb (fun kv => wf_json (snd kv)) ps = true).
Proof.
  induction fuel as [|fuel (IHv & IHa & IHo)];
    [repeat split; intros; discriminate|].
  repeat split.
  - intros s v r H. cbn [scan_once] in H.
    destruct s as [|c s]; [discriminate|].
    destruct (c =? dquote)%char.
    { destruct (py_scanstring s) as [[str r']| |]; try discriminate.
      now inversion H. }
    destruct (c =? "{")%char.
    { destruct (skip_ws s) as [|c1 r1]; [discriminate|].
      destruct (c1 =? "}")%char; [now inversion H|].
      destruct (JSONObject fuel (String c1 r1)) as [[ps r']| |] eqn:E;
        try discriminate.
      inversion H; subst. apply dict_of_pairs_wf. eapply IHo; eassumption. }
    destruct (c =? "[")%char.
    { destruct (skip_ws s) as [|c1 r1]; [discriminate|].
      destruct (c1 =? "]")%char; [now inversion H|].
      destruct (JSONArray fuel (String c1 r1)) as [[vs r']| |] eqn:E;
        try discriminate.
      inversion H; subst. simpl. eapply IHa; eassumption. }
    destruct (match_constant (String c s)) as [[v' r']|] eqn:E; [|discriminate].
    inversion H; subst. eapply match_constant_wf; eassumption.
  - intros s vs r H. cbn [JSONArray] in H.
    destruct (scan_once fuel s) as [[v r0]| |] eqn:E; try discriminate.
    cbn [bind] in H.
    destruct (skip_ws r0) as [|c r1]; [discriminate|].
    destruct (c =? "]")%char.
    { inversion H; subst. simpl. now rewrite (IHv _ _ _ E). }
    destruct (c =? ",")%char; [|discriminate].
    destruct (JSONArray fuel (skip_ws r1)) as [[vs' r2]| |] eqn:E2; try discriminate.
    inversion H; subst. simpl. now rewrite (IHv _ _ _ E), (IHa _ _ _ E2).
  - intros s ps r H. cbn [JSONObject] in H.
    destruct s as [|c s]; [discriminate|].
    destruct (c =? dquote)%char; [|discriminate].
    destruct (py_scanstring s) as [[key r1]| |]; try discriminate.
    cbn [bind] in H.
    destruct (skip_ws r1) as [|c2 r2]; [discriminate|].
    destruct (c2 =? ":")%char; [|discriminate].
    destruct (scan_once fuel (skip_ws r2)) as [[v r3]| |] eqn:E; try discriminate.
    cbn [bind] in H.
    destruct (skip_ws r3) as [|c4 r4]; [discriminate|].
    destruct (c4 =? "}")%char.
    { inversion H; subst. simpl. now rewrite (IHv _ _ _ E). }
    destruct (c4 =? ",")%char; [|discriminate].
    destruct (JSONObject fuel (skip_ws r4)) as [[ps' r5]| |] eqn:E2; try discriminate.
    inversion H; subst. simpl. now rewrite (IHv _ _ _ E), (IHo _ _ _ E2).
Qed.

(** The values [json.loads] returns have distinct keys and floats with a
    literal. *)
Theorem json_loads_wf s v : json_loads s = Ok v -> wf_json v = true.
Proof.
  unfold json_loads. intros H.
  destruct (scan_once _ (skip_ws s)) as [[v' r]| |] eqn:E;
    try discriminate.
  cbn [bind] in H. destruct (skip_ws r); [|discriminate].
  inversion H; subst. exact (proj1 (scanner_wf _) _ _ _ E).
Qed.

Lemma wf_json_member d k v :
  wf_json (JObj d) = true -> dict_get k d = Some v -> wf_json v = true.
Proof.
  simpl. intros H. apply andb_true_iff in H. destruct H as [_ H].
  induction d as [|[k' v'] d IH]; simpl in *; [discriminate|].
  apply andb_true_iff in H. destruct H as [H1 H2].
  destruct (k' =? k)%string; [intros E; now inversion E; subst | now apply IH].
Qed.

Lemma wf_json_item items x :
  wf_json (JArr items) = true -> In x items -> wf_json x = true.
Proof.
  simpl. intros H Hin. rewrite forallb_forall in H. now apply H.
Qed.

(** ** The bound of [json_loads] is never what ends a scan *)

Lemma skip_ws_length s : String.length (skip_ws s) <= String.length s.
Proof.
  induction s as [|c s IH]; simpl; [lia|].
  destruct (is_ws c); simpl; lia.
Qed.

Lemma py_scanstring_length n :
  forall s t r, String.length s <= n -> py_scanstring s = Ok (t, r) ->
                String.length r < String.length s.
Proof.
  induction n as [|n IH]; intros s t r Hn H.
  - destruct s; [discriminate | simpl in Hn; lia].
  - destruct s as [|c s]; [discriminate|]. simpl in Hn. cbn [py_scanstring] in H.
    destruct (c =? dquote)%char; [inversion H; subst; simpl; lia|].
    destruct (c =? "\")%char.
    + destruct s as [|e s]; [discriminate|].
      destruct (e =? "u")%char.
      * destruct s as [|h1 [|h2 [|h3 [|h4 s]]]]; try discriminate.
        destruct (hex4 h1 h2 h3 h4) as [k|]; [|discriminate].
        destruct (k <? 256)%N; [|discriminate].
        destruct (py_scanstring s) as [[t' r']| |] eqn:E; try discriminate.
        inversion H; subst. apply IH in E; simpl in *; lia.
      * destruct (unescape e); [|discriminate].
        destruct (py_scanstring s) as [[t' r']| |] eqn:E; try discriminate.
        inversion H; subst. apply IH in E; simpl in *; lia.
    + destruct (code c <? 32)%N; [discriminate|].
      destruct (py_scanstring s) as [[t' r']| |] eqn:E; try discriminate.
      inversion H; subst. apply IH in E; simpl in *; lia.
Qed.

Lemma strip_prefix_length p : forall s r,
  strip_prefix p s = Some r -> String.length r <= String.length s.
Proof.
  induction p as [|a p IH]; intros s r H; simpl in H.
  - inversion H; subst. lia.
  - destruct s as [|b s]; [discriminate|].
    destruct (a =? b)%char; [|discriminate]. apply IH in H. simpl. lia.
Qed.

Lemma match_number_length s v r :
  match_number s = Some (v, r) -> String.length r <= String.length s.
Proof.
  unfold match_number. intros H.
  destruct (match_integer s) as [[i r0]|] eqn:Ei; [|discriminate].
  destruct (match_frac r0) as [f r1] eqn:Ef.
  destruct (match_exp r1) as [e r2] eqn:Ee.
  assert (r = r2).
  { destruct f; destruct e; try (now inversion H).
    destruct (NilEmpty.int_of_string i); now inversion H. }
  subst r2.
  rewrite (match_integer_split _ _ _ Ei).
  destruct (match_frac_self _ _ _ Ef) as (_ & -> & _).
  destruct (match_exp_self _ _ _ Ee) as (_ & -> & _).
  rewrite !length_append. lia.
Qed.

Lemma match_constant_length s v r :
  match_constant s = Some (v, r) -> String.length r <= String.length s.
Proof.
  unfold match_constant. intros H.
  repeat match type of H with
         | match strip_prefix ?p s with _ => _ end = _ =>
             destruct (strip_prefix p s) eqn:?E;
             [inversion H; subst; eapply strip_prefix_length; eassumption|]
         | match match_number s with _ => _ end = _ =>
             destruct (match_number s) as [[v' r']|] eqn:?E;
             [inversion H; subst; eapply match_number_length; eassumption|]
         end.
  discriminate.
Qed.

Lemma scanner_length fuel :
  (forall s v r, scan_once fuel s = Ok (v, r) -> String.length r <= String.length s) /\
  (forall s vs r, JSONArray fuel s = Ok (vs, r) -> String.length r <= String.length s) /\
  (forall s ps r, JSONObject fuel s = Ok (ps, r) -> String.length r <= String.length s).
Proof.
  induction fuel as [|fuel (IHv & IHa & IHo)];
    [repeat split; intros; discriminate|].
  repeat split.
  - intros s v r H. cbn [scan_once] in H.
    destruct s as [|c s]; [discriminate|].
    destruct (c =? dquote)%char.
    { destruct (py_scanstring s) as [[str r']| |] eqn:E; try discriminate.
      inversion H; subst. apply (py_scanstring_length _ _ _ _ (le_n _)) in E.
      simpl. lia. }
    pose proof (skip_ws_length s) as Hws.
    destruct (c =? "{")%char.
    { destruct (skip_ws s) as [|c1 r1]; [discriminate|].
      destruct (c1 =? "}")%char; [inversion H; subst; simpl in *; lia|].
      destruct (JSONObject fuel (String c1 r1)) as [[ps r']| |] eqn:E;
        try discriminate.
      inversion H; subst. apply IHo in E. simpl in *. lia. }
    destruct (c =? "[")%char.
    { destruct (skip_ws s) as [|c1 r1]; [discriminate|].
      destruct (c1 =? "]")%char; [inversion H; subst; simpl in *; lia|].
      destruct (JSONArray fuel (String c1 r1)) as [[vs r']| |] eqn:E;
        try discriminate.
      inversion H; subst. apply IHa in E. simpl in *. lia. }
    destruct (match_constant (String c s)) as [[v' r']|] eqn:E; [|discriminate].
    inversion H; subst. eapply match_constant_length; eassumption.
  - intros s vs r H. cbn [JSONArray] in H.
    destruct (scan_once fuel s) as [[v r0]| |] eqn:E; try discriminate.
    cbn [bind] in H. apply IHv in E. pose proof (skip_ws_length r0) as Hws.
    destruct (skip_ws r0) as [|c r1]; [discriminate|].
    destruct (c =? "]")%char; [inversion H; subst; simpl in *; lia|].
    destruct (c =? ",")%char; [|discriminate].
    pose proof (skip_ws_length r1) as Hws1.
    destruct (JSONArray fuel (skip_ws r1)) as [[vs' r2]| |] eqn:E2; try discriminate.
    inversion H; subst. apply IHa in E2. simpl in *. lia.
  - intros s ps r H. cbn [JSONObject] in H.
    destruct s as [|c s]; [discriminate|].
    destruct (c =? dquote)%char; [|discriminate].
    destruct (py_scanstring s) as [[key r1]| |] eqn:Ek; try discriminate.
    cbn [bind] in H. apply (py_scanstring_length _ _ _ _ (le_n _)) in Ek.
    pose proof (skip_ws_length r1) as Hws1.
    destruct (skip_ws r1) as [|c2 r2]; [discriminate|].
    destruct (c2 =? ":")%char; [|discriminate].
    pose proof (skip_ws_length r2) as Hws2.
    destruct (scan_once fuel (skip_ws r2)) as [[v r3]| |] eqn:E; try discriminate.
    cbn [bind] in H. apply IHv in E. pose proof (skip_ws_length r3) as Hws3.
    destruct (skip_ws r3) as [|c4 r4]; [discriminate|].
    destruct (c4 =? "}")%char; [inversion H; subst; simpl in *; lia|].
    destruct (c4 =? ",")%char; [|discriminate].
    pose proof (skip_ws_length r4) as Hws4.
    destruct (JSONObject fuel (skip_ws r4)) as [[ps' r5]| |] eqn:E2; try discriminate.
    inversion H; subst. apply IHo in E2. simpl in *. lia.
Qed.

Lemma scanner_fuel n :
  forall s, String.length s <= n ->
    (forall f1 f2, 2 * String.length s < f1 -> 2 * String.length s < f2 ->
                   scan_once f1 s = scan_once f2 s) /\
    (forall f1 f2, 2 * String.length s + 1 < f1 -> 2 * String.length s + 1 < f2 ->
                   JSONArray f1 s = JSONArray f2 s) /\
    (forall f1 f2, 2 * String.length s + 1 < f1 -> 2 * String.length s + 1 < f2 ->
                   JSONObject f1 s = JSONObject f2 s).
Proof.
  induction n as [|n IH]; intros s Hn.
  - destruct s; [|simpl in Hn; lia]. repeat split; intros f1 f2 H1 H2;
      (destruct f1 as [|[|f1]]; [simpl in H1; lia | simpl in H1; try lia |]);
      (destruct f2 as [|[|f2]]; [simpl in H2; lia | simpl in H2; try lia |]);
      reflexivity.
  - assert (A : forall f1 f2, 2 * String.length s < f1 -> 2 * String.length s < f2 ->
                              scan_once f1 s = scan_once f2 s).
    { intros f1 f2 H1 H2.
      destruct f1 as [|f1]; [lia|]. destruct f2 as [|f2]; [lia|].
      cbn [scan_once]. destruct s as [|c s]; [reflexivity|].
      simpl in Hn, H1, H2. pose proof (skip_ws_length s) as Hws.
      destruct (c =? dquote)%char; [reflexivity|].
      destruct (c =? "{")%char.
      { destruct (skip_ws s) as [|c1 r1]; [reflexivity|].
        destruct (c1 =? "}")%char; [reflexivity|].
        destruct (IH (String c1 r1)) as (_ & _ & C); [lia|].
        now rewrite (C f1 f2) by lia. }
      destruct (c =? "[")%char; [|reflexivity].
      destruct (skip_ws s) as [|c1 r1]; [reflexivity|].
      destruct (c1 =? "]")%char; [reflexivity|].
      destruct (IH (String c1 r1)) as (_ & B & _); [lia|].
      now rewrite (B f1 f2) by lia. }
    split; [exact A|]. split.
    + intros f1 f2 H1 H2.
      destruct f1 as [|f1]; [lia|]. destruct f2 as [|f2]; [lia|].
      cbn [JSONArray]. rewrite (A f1 f2) by lia.
      destruct (scan_once f2 s) as [[v r0]| |] eqn:E; try reflexivity.
      cbn [bind]. apply (proj1 (scanner_length f2)) in E.
      pose proof (skip_ws_length r0) as Hws.
      destruct (skip_ws r0) as [|c r1]; [reflexivity|].
      destruct (c =? "]")%char; [reflexivity|].
      destruct (c =? ",")%char; [|reflexivity].
      pose proof (skip_ws_length r1) as Hws1. simpl in Hws.
      destruct (IH (skip_ws r1)) as (_ & B & _); [lia|].
      now rewrite (B f1 f2) by lia.
    + intros f1 f2 H1 H2.
      destruct f1 as [|f1]; [lia|]. destruct f2 as [|f2]; [lia|].
      cbn [JSONObject]. destruct s as [|c s]; [reflexivity|].
      simpl in Hn, H1, H2.
      destruct (c =? dquote)%char; [|reflexivity].
      destruct (py_scanstring s) as [[key r1]| |] eqn:Ek; try reflexivity.
      cbn [bind]. apply (py_scanstring_length _ _ _ _ (le_n _)) in Ek.
      pose proof (skip_ws_length r1) as Hws1.
      destruct (skip_ws r1) as [|c2 r2]; [reflexivity|].
      destruct (c2 =? ":")%char; [|reflexivity].
      pose proof (skip_ws_length r2) as Hws2. simpl in Hws1.
      destruct (IH (skip_ws r2)) as (A' & _ & _); [lia|].
      rewrite (A' f1 f2) by lia.
      destruct (scan_once f2 (skip_ws r2)) as [[v r3]| |] eqn:E; try reflexivity.
      cbn [bind]. apply (proj1 (scanner_length f2)) in E.
      pose proof (skip_ws_length r3) as Hws3.
      destruct (skip_ws r3) as [|c4 r4]; [reflexivity|].
      destruct (c4 =? "}")%char; [reflexivity|].
      destruct (c4 =? ",")%char; [|reflexivity].
      pose proof (skip_ws_length r4) as Hws4. simpl in Hws3.
      destruct (IH (skip_ws r4)) as (_ & _ & C); [lia|].
      now rewrite (C f1 f2) by lia.
Qed.

(** A larger bound gives [json_loads] the same result. *)
Theorem json_loads_fuel s fuel :
  S (2 * String.length s) <= fuel ->
  scan_once fuel (skip_ws s) = scan_once (S (2 * String.length s)) (skip_ws s).
Proof.
  intros H. pose proof (skip_ws_length s) as Hws.
  apply (proj1 (scanner_fuel _ (skip_ws s) (le_n _))); lia.
Qed.

(** ** The aggregation run *)

Lemma existsb_filter {A : Type} (p : A -> bool) l :
  (0 <? List.length (filter p l))%nat = existsb p l.
Proof.
  induction l as [|a l IH]; simpl; [reflexivity|].
  destruct (p a); simpl; [reflexivity | exact IH].
Qed.

Lemma check_existing_data_eq w url st :
  check_existing_data w url st
  = (Ok (existsb (date_is (today w st)) (fuel_prices (db st))), tick st).
Proof.
  unfold check_existing_data, bindM, datetime_now, select_where_date, get_db, ret.
  simpl. now rewrite existsb_filter.
Qed.

Lemma date_is_iff day row : date_is day row = true <-> c_date row = Some day.
Proof.
  unfold date_is. destruct (c_date row) as [d|]; [|split; discriminate].
  rewrite String.eqb_eq. split; congruence.
Qed.

Lemma fetch_and_process_data_eq w url st :
  fetch_and_process_data w url st =
  match http w url with
  | ConnectionFailed => (Ok empty_frame, st)
  | Responded r =>
      if accepted r then
        match frame_of r (today w st) with
        | Ok df => (Ok df, tick st)
        | Raise _ => (Ok empty_frame, st)
        | Unmodelled => (Unmodelled, st)
        end
      else (Ok empty_frame, st)
  end.
Proof.
  unfold fetch_and_process_data, requests_get, bindM, try_except, accepted.
  destruct (http w url) as [|r]; [reflexivity|]. unfold ret at 1.
  destruct (str_in "application/json" (headers_get_content_type r "")
            || str_in "text/plain" (headers_get_content_type r "")); [|reflexivity].
  unfold frame_of, response_json, lift.
  assert (E : (if startswith (headers_get_content_type r "") "application/json"
               then json_loads (text r) else json_loads (text r))
              = json_loads (text r)) by (now destruct (startswith _ _)).
  rewrite E. clear E.
  destruct (json_loads (text r)) as [data| |]; try reflexivity. cbn [bind].
  destruct (py_get data "stations" data) as [stations| |]; try reflexivity. cbn [bind].
  destruct (pd_DataFrame stations) as [df| |]; try reflexivity. cbn [bind].
  destruct (getitem df "location") as [location| |]; try reflexivity. cbn [bind].
  destruct (getitem (setitem df "location" (apply_json_dumps location)) "prices")
    as [prices| |]; try reflexivity.
Qed.

Lemma fetch_fails_empty w url st :
  fetch_fails (http w url) = true ->
  fetch_and_process_data w url st = (Ok empty_frame, st).
Proof.
  rewrite fetch_and_process_data_eq. unfold fetch_fails.
  destruct (http w url) as [|r]; [reflexivity|].
  destruct (accepted r); [|reflexivity]. simpl.
  unfold frame_of. destruct (json_loads (text r)); try discriminate. reflexivity.
Qed.

(** No exception leaves [fetch_and_process_data]. *)
Lemma fetch_and_process_data_never_raises w url st e :
  fst (fetch_and_process_data w url st) <> Raise e.
Proof.
  rewrite fetch_and_process_data_eq.
  destruct (http w url) as [|r]; [discriminate|].
  destruct (accepted r); [|discriminate].
  destruct (frame_of r (today w st)); discriminate.
Qed.

Lemma fetch_db w url st : db (snd (fetch_and_process_data w url st)) = db st.
Proof.
  rewrite fetch_and_process_data_eq.
  destruct (http w url) as [|r]; [reflexivity|].
  destruct (accepted r); [|reflexivity].
  now destruct (frame_of r (today w st)).
Qed.

Lemma main_loop_cons w url sources data_frames st :
  main_loop w (url :: sources) data_frames st =
  if existsb (date_is (today w st)) (fuel_prices (db st))
  then main_loop w sources data_frames (tick st)
  else
    match fetch_and_process_data w url (tick st) with
    | (Ok df, st') =>
        if negb (df_empty df)
        then main_loop w sources (data_frames ++ [df])%list st'
        else main_loop w sources data_frames st'
    | (Raise e, st') => (Raise e, st')
    | (Unmodelled, st') => (Unmodelled, st')
    end.
Proof.
  cbn [main_loop]. unfold bindM at 1. rewrite check_existing_data_eq.
  destruct (existsb _ _); [reflexivity|].
  unfold bindM. destruct (fetch_and_process_data w url (tick st)) as [[df|e|] st'];
    try reflexivity.
  now destruct (negb (df_empty df)).
Qed.

Lemma main_loop_db w sources :
  forall data_frames st, db (snd (main_loop w sources data_frames st)) = db st.
Proof.
  induction sources as [|url sources IH]; intros data_frames st; [reflexivity|].
  rewrite main_loop_cons.
  destruct (existsb _ _); [now rewrite IH|].
  pose proof (fetch_db w url (tick st)) as Hdb.
  destruct (fetch_and_process_data w url (tick st)) as [[df|e|] st']; simpl in *;
    try assumption.
  destruct (negb (df_empty df)); now rewrite IH.
Qed.

(** The loop skips every source once a row of the day is stored. *)
Lemma main_loop_all_skipped w sources :
  forall data_frames st,
    (forall n, ticks st <= n -> str_date (clock w n) = today w st) ->
    existsb (date_is (today w st)) (fuel_prices (db st)) = true ->
    main_loop w sources data_frames st
    = (Ok data_frames, {| db := db st; ticks := ticks st + List.length sources |}).
Proof.
  induction sources as [|url sources IH]; intros data_frames st Hclock Hrow.
  - simpl. rewrite Nat.add_0_r. now destruct st.
  - rewrite main_loop_cons, Hrow.
    assert (Ht : today w (tick st) = today w st).
    { unfold today at 1. simpl. apply Hclock. lia. }
    rewrite IH.
    + simpl. f_equal. f_equal. lia.
    + intros n Hn. rewrite Ht. apply Hclock. simpl in Hn. lia.
    + now rewrite Ht.
Qed.

(** C1.  The check of [check_existing_data] looks at the date only: for
    every source it answers true exactly when the table holds a row of the
    day, whichever source the row came from; so, on a day that does not
    change during the run, one stored row of the day makes [main] skip
    every source. *)
Theorem check_existing_data_by_date_only w st sources data_frames
  (Hclock : forall n, ticks st <= n -> str_date (clock w n) = today w st) :
  (forall url, exists b,
      check_existing_data w url st = (Ok b, tick st) /\
      (b = true <->
       exists row, In row (fuel_prices (db st)) /\ c_date row = Some (today w st))) /\
  (forall url url', check_existing_data w url st = check_existing_data w url' st) /\
  ((exists row, In row (fuel_prices (db st)) /\ c_date row = Some (today w st)) ->
   main_loop w sources data_frames st
   = (Ok data_frames, {| db := db st; ticks := ticks st + List.length sources |}) /\
   main_over w sources st
   = (Ok tt, {| db := db st; ticks := ticks st + List.length sources |})).
Proof.
  assert (Hiff : existsb (date_is (today w st)) (fuel_prices (db st)) = true <->
                 exists row, In row (fuel_prices (db st)) /\
                             c_date row = Some (today w st)).
  { rewrite existsb_exists. split; intros (row & Hin & H); exists row;
      (split; [assumption|]); now apply date_is_iff. }
  split; [|split].
  - intros url. eexists. split; [apply check_existing_data_eq | exact Hiff].
  - intros url url'. now rewrite !check_existing_data_eq.
  - intros Hrow. apply Hiff in Hrow. split.
    + now apply main_loop_all_skipped.
    + unfold main_over, bindM. now rewrite main_loop_all_skipped.
Qed.

Lemma main_loop_failed w url sources data_frames st :
  fetch_fails (http w url) = true ->
  main_loop w (url :: sources) data_frames st
  = main_loop w sources data_frames (tick st).
Proof.
  intros H. rewrite main_loop_cons.
  destruct (existsb _ _); [reflexivity|].
  now rewrite (fetch_fails_empty _ _ _ H).
Qed.

Lemma main_loop_app w l1 l2 :
  forall data_frames st,
    main_loop w (l1 ++ l2)%list data_frames st =
    match main_loop w l1 data_frames st with
    | (Ok frames, st1) => main_loop w l2 frames st1
    | (Raise e, st1) => (Raise e, st1)
    | (Unmodelled, st1) => (Unmodelled, st1)
    end.
Proof.
  induction l1 as [|url l1 IH]; intros data_frames st; [reflexivity|].
  change ((url :: l1) ++ l2)%list with (url :: (l1 ++ l2))%list.
  rewrite !main_loop_cons.
  destruct (existsb _ _); [apply IH|].
  destruct (fetch_and_process_data w url (tick st)) as [[df|e|] st']; try reflexivity.
  destruct (negb (df_empty df)); apply IH.
Qed.

Section same_day.
Variable w : world.
Hypothesis Hday : forall n m, str_date (clock w n) = str_date (clock w m).

Lemma today_constant st1 st2 : today w st1 = today w st2.
Proof. unfold today. apply Hday. Qed.

Lemma fetch_ticks url st1 st2 :
  fst (fetch_and_process_data w url st1) = fst (fetch_and_process_data w url st2).
Proof.
  rewrite !fetch_and_process_data_eq, (today_constant st1 st2).
  destruct (http w url) as [|r]; [reflexivity|].
  destruct (accepted r); [|reflexivity].
  now destruct (frame_of r (today w st2)).
Qed.

Lemma main_loop_ticks sources :
  forall data_frames st1 st2,
    db st1 = db st2 ->
    fst (main_loop w sources data_frames st1)
    = fst (main_loop w sources data_frames st2).
Proof.
  induction sources as [|url sources IH]; intros data_frames st1 st2 Hdb;
    [reflexivity|].
  rewrite !main_loop_cons, (today_constant st1 st2), Hdb.
  destruct (existsb _ _); [now apply IH|].
  pose proof (fetch_ticks url (tick st1) (tick st2)) as Ho.
  pose proof (fetch_db w url (tick st1)) as D1.
  pose proof (fetch_db w url (tick st2)) as D2.
  destruct (fetch_and_process_data w url (tick st1)) as [o1 s1].
  destruct (fetch_and_process_data w url (tick st2)) as [o2 s2].
  simpl in Ho, D1, D2. subst o2.
  destruct o1 as [df|e|]; try reflexivity.
  destruct (negb (df_empty df)); apply IH; congruence.
Qed.

(** The rows appended do not depend on the readings of the clock taken
    before; the metadata row carries the time of the last one. *)
Lemma store_frames_ticks data_frames st1 st2 :
  db st1 = db st2 ->
  fst (store_frames w data_frames st1) = fst (store_frames w data_frames st2) /\
  fuel_prices (db (snd (store_frames w data_frames st1)))
  = fuel_prices (db (snd (store_frames w data_frames st2))).
Proof.
  destruct st1 as [d1 t1], st2 as [d2 t2]. simpl. intros ->.
  destruct data_frames as [|df l]; [split; reflexivity|].
  unfold store_frames, to_sql, delete_metadata, insert_metadata, datetime_now,
    bindM, get_db, put_db, lift, ret. simpl.
  destruct (existsb _ _); [split; reflexivity|].
  destruct (negb _); [split; reflexivity|].
  destruct (insert_rows _ _); simpl; split; reflexivity.
Qed.

Lemma main_over_without_failed pre url post st :
  fetch_fails (http w url) = true ->
  fst (main_over w (pre ++ url :: post) st) = fst (main_over w (pre ++ post) st) /\
  fuel_prices (db (snd (main_over w (pre ++ url :: post) st)))
  = fuel_prices (db (snd (main_over w (pre ++ post) st))).
Proof.
  intros Hfail. unfold main_over, bindM. rewrite !main_loop_app.
  destruct (main_loop w pre [] st) as [[frames|e|] st1]; try (split; reflexivity).
  rewrite (main_loop_failed _ _ _ _ _ Hfail).
  pose proof (main_loop_ticks post frames (tick st1) st1 eq_refl) as Ho.
  pose proof (main_loop_db w post frames (tick st1)) as D1.
  pose proof (main_loop_db w post frames st1) as D2.
  destruct (main_loop w post frames (tick st1)) as [o1 s1].
  destruct (main_loop w post frames st1) as [o2 s2].
  simpl in *. subst o2.
  destruct o1 as [frames'|e|];
    try (split; [reflexivity | simpl; congruence]).
  apply store_frames_ticks. congruence.
Qed.
End same_day.

(** C5.  A source whose fetch fails (no answer, a content type that is not
    accepted, a body that is no JSON) contributes the empty frame and no
    exception leaves [fetch_and_process_data]; the loop goes on with the
    remaining sources and the buffer as it was; and, on a day that does not
    change during the run, the run ends as the run without that source
    does, with the same rows in the table. *)
Theorem failed_fetch_is_isolated w url
  (Hfail : fetch_fails (http w url) = true) :
  (forall st, fetch_and_process_data w url st = (Ok empty_frame, st)) /\
  df_empty empty_frame = true /\
  (forall sources data_frames st,
      main_loop w (url :: sources) data_frames st
      = main_loop w sources data_frames (tick st)) /\
  ((forall n m, str_date (clock w n) = str_date (clock w m)) ->
   forall pre post st,
     fst (main_over w (pre ++ url :: post) st) = fst (main_over w (pre ++ post) st) /\
     fuel_prices (db (snd (main_over w (pre ++ url :: post) st)))
     = fuel_prices (db (snd (main_over w (pre ++ post) st)))).
Proof.
  repeat split.
  - intros st. now apply fetch_fails_empty.
  - intros. now apply main_loop_failed.
  - now apply main_over_without_failed.
  - now apply main_over_without_failed.
Qed.

(** C8.  When the buffer is empty after the loop over the sources, [main]
    appends nothing and does not touch the metadata: it ends without an
    exception in the state the loop left, whose tables are those from
    before the run. *)
Theorem empty_buffer_changes_nothing w sources st st'
  (Hempty : main_loop w sources [] st = (Ok [], st')) :
  main_over w sources st = (Ok tt, st') /\
  fuel_prices (db st') = fuel_prices (db st) /\
  fuel_prices_metadata (db st') = fuel_prices_metadata (db st) /\
  db st' = db st.
Proof.
  assert (Hdb : db st' = db st).
  { pose proof (main_loop_db w sources [] st) as H. now rewrite Hempty in H. }
  repeat split; try (now rewrite Hdb).
  unfold main_over, bindM. now rewrite Hempty.
Qed.

(** ** Dicts and frames *)

Lemma dict_get_set_same {A : Type} k (v : A) d : dict_get k (dict_set k v d) = Some v.
Proof.
  induction d as [|[k' v'] d IH]; simpl; [now rewrite String.eqb_refl|].
  destruct (k' =? k)%string eqn:E; simpl; rewrite E; [reflexivity | exact IH].
Qed.

Lemma dict_get_set_other {A : Type} k k' (v : A) d :
  k <> k' -> dict_get k' (dict_set k v d) = dict_get k' d.
Proof.
  intros Hne. induction d as [|[k0 v0] d IH]; simpl.
  - destruct (String.eqb_spec k k'); [contradiction | reflexivity].
  - destruct (String.eqb_spec k0 k) as [->|]; simpl.
    + destruct (String.eqb_spec k k'); [contradiction | reflexivity].
    + destruct (k0 =? k')%string; [reflexivity | exact IH].
Qed.

Lemma dict_get_map_keys {A : Type} (f : string -> A) keys c :
  dict_get c (map (fun k => (k, f k)) keys)
  = if existsb (String.eqb c) keys then Some (f c) else None.
Proof.
  induction keys as [|k keys IH]; simpl; [reflexivity|].
  rewrite (String.eqb_sym c k).
  destruct (String.eqb_spec k c) as [->|]; simpl; [reflexivity | exact IH].
Qed.

Lemma dict_get_map_values {A B : Type} (f : A -> B) (d : dict A) c :
  dict_get c (map (fun col => (fst col, f (snd col))) d)
  = option_map f (dict_get c d).
Proof.
  induction d as [|[k v] d IH]; simpl; [reflexivity|].
  destruct (k =? c)%string; [reflexivity | exact IH].
Qed.

Lemma add_key_mem keys k c :
  existsb (String.eqb c) (add_key keys k)
  = existsb (String.eqb c) keys || (c =? k)%string.
Proof.
  unfold add_key. destruct (existsb (String.eqb k) keys) eqn:E.
  - destruct (String.eqb_spec c k) as [->|]; [now rewrite E | now rewrite orb_false_r].
  - rewrite existsb_app. simpl. now rewrite orb_false_r.
Qed.

Lemma fold_add_key_mem ks : forall keys c,
  existsb (String.eqb c) (fold_left add_key ks keys)
  = existsb (String.eqb c) keys || existsb (String.eqb c) ks.
Proof.
  induction ks as [|k ks IH]; intros keys c; simpl; [now rewrite orb_false_r|].
  rewrite IH, add_key_mem. now rewrite <- orb_assoc.
Qed.

Lemma union_keys_mem recs c :
  existsb (String.eqb c) (union_keys recs)
  = existsb (fun ks => existsb (String.eqb c) ks) recs.
Proof.
  unfold union_keys.
  assert (G : forall acc,
             existsb (String.eqb c)
                     (fold_left (fun keys ks => fold_left add_key ks keys) recs acc)
             = existsb (String.eqb c) acc
               || existsb (fun ks => existsb (String.eqb c) ks) recs).
  { induction recs as [|ks recs IH]; intros acc; simpl; [now rewrite orb_false_r|].
    rewrite IH, fold_add_key_mem. now rewrite <- orb_assoc. }
  now rewrite G.
Qed.

Lemma dict_get_keys {A : Type} c (d : dict A) :
  existsb (String.eqb c) (dict_keys d)
  = match dict_get c d with Some _ => true | None => false end.
Proof.
  induction d as [|[k v] d IH]; simpl; [reflexivity|].
  rewrite (String.eqb_sym c k). destruct (k =? c)%string; [reflexivity | exact IH].
Qed.

Lemma has_key_union c recs :
  has_key c recs = true ->
  existsb (String.eqb c) (union_keys (map dict_keys recs)) = true.
Proof.
  rewrite union_keys_mem. unfold has_key.
  induction recs as [|rec recs IH]; simpl; [trivial|].
  rewrite dict_get_keys. destruct (dict_get c rec); [reflexivity|].
  simpl. exact IH.
Qed.

Lemma as_records_length items recs :
  as_records items = Some recs -> List.length recs = List.length items.
Proof.
  revert recs. induction items as [|x items IH]; simpl; intros recs H.
  - now inversion H.
  - destruct x; try discriminate.
    destruct (as_records items) as [recs'|]; [|discriminate].
    inversion H; subst. simpl. now rewrite (IH _ eq_refl).
Qed.

Lemma as_records_nth items recs i rec :
  as_records items = Some recs -> nth_error recs i = Some rec ->
  In (JObj rec) items.
Proof.
  revert recs i. induction items as [|x items IH]; simpl; intros recs i H Hn.
  - inversion H; subst. now destruct i.
  - destruct x; try discriminate.
    destruct (as_records items) as [recs'|] eqn:E; [|discriminate].
    inversion H; subst. destruct i as [|i]; simpl in Hn.
    + inversion Hn; subst. now left.
    + right. eapply IH; [reflexivity | eassumption].
Qed.

Lemma nth_map_error {A B : Type} (f : A -> B) l i a d :
  nth_error l i = Some a -> nth i (map f l) d = f a.
Proof.
  revert i. induction l as [|x l IH]; intros [|i]; simpl; try discriminate.
  - now intros [= ->].
  - apply IH.
Qed.



(** The frame [pd.DataFrame] builds from records, when it is described. *)
Lemma pd_DataFrame_records items recs df0 :
  as_records items = Some recs -> pd_DataFrame (JArr items) = Ok df0 ->
  nrows df0 = List.length recs /\
  forall c, existsb (String.eqb c) (union_keys (map dict_keys recs)) = true ->
            getitem df0 c = Ok (map (fun rec => cell_of rec c) recs).
Proof.
  intros Hrec H. unfold pd_DataFrame in H. rewrite Hrec in H.
  destruct (forallb _ _); [|discriminate]. inversion H; subst. clear H.
  split; [reflexivity|]. intros c Hc. unfold getitem. simpl.
  rewrite (dict_get_map_keys (fun c => map (fun rec => cell_of rec c) recs)).
  now rewrite Hc.
Qed.

Lemma py_get_wf data key v :
  wf_json data = true -> py_get data key data = Ok v -> wf_json v = true.
Proof.
  intros Hwf H. destruct data; try discriminate. simpl in H.
  destruct (dict_get key members) as [x|] eqn:E; inversion H; subst.
  - eapply wf_json_member; eassumption.
  - assumption.
Qed.

Lemma insert_row_fields record key row :
  insert_row record key = Ok row ->
  sql_field record "location" = Ok (c_location row) /\
  sql_field record "prices" = Ok (c_prices row) /\
  sql_field record "date" = Ok (c_date row).
Proof.
  unfold insert_row. intros H.
  destruct (sql_field record "site_id"); try discriminate.
  destruct (sql_field record "brand"); try discriminate.
  destruct (sql_field record "address"); try discriminate.
  destruct (sql_field record "postcode"); try discriminate.
  destruct (sql_field record "location"); try discriminate.
  destruct (sql_field record "prices"); try discriminate.
  destruct (sql_field record "date"); try discriminate.
  cbn [bind] in H. inversion H; subst. now repeat split.
Qed.


(** ** The query endpoint *)

Lemma get_prices_eq w req st :
  get_prices w req st =
  match json_loads (args_get (arg_filters req) "{}") with
  | Ok filters =>
      (query filters (args_get (arg_postcode req) "") (todays_rows w st), tick st)
  | Raise e => (Raise e, st)
  | Unmodelled => (Unmodelled, st)
  end.
Proof.
  unfold get_prices, bindM, lift, datetime_now, select_where_date, get_db, ret,
    query, todays_rows, today, tick.
  destruct (json_loads (args_get (arg_filters req) "{}")) as [filters|e|];
    try reflexivity.
  simpl.
  destruct (mapM loads_cell (map c_location _)) as [locations|e|]; try reflexivity.
  destruct (mapM loads_cell (map c_prices _)) as [prices|e|]; try reflexivity.
  cbn [bind].
  destruct (select_postcode _ _) as [df|e|]; try reflexivity. cbn [bind].
  destruct (mapM (station_data filters) df); reflexivity.
Qed.

Lemma mapM_map {A B : Type} (f : A -> outcome B) (g : A -> B) l :
  Forall (fun a => f a = Ok (g a)) l -> mapM f l = Ok (map g l).
Proof.
  induction 1 as [|a l Ha Hl IH]; simpl; [reflexivity|].
  now rewrite Ha, IH.
Qed.

Lemma price_field_shown f p key code :
  boolean_flag f key ->
  price_field (JObj f) (JObj p) key code = Ok (shown_price f p key code).
Proof.
  unfold price_field, shown_price, shown, stored_price, py_get.
  intros [H|[b H]]; rewrite H; simpl.
  - now destruct (dict_get code p).
  - destruct b; [now destruct (dict_get code p) | reflexivity].
Qed.

Lemma station_data_entry f row :
  boolean_flags f -> has_prices_mapping row ->
  station_data (JObj f) row = Ok (station_entry f (stored row) (prices_of row)).
Proof.
  intros (H1 & H2 & H3) [p Hp]. unfold station_data, prices_of. rewrite Hp.
  now rewrite !price_field_shown by assumption.
Qed.

Lemma mapM_station_data f kept :
  boolean_flags f -> Forall has_prices_mapping kept ->
  mapM (station_data (JObj f)) kept = Ok (entries f kept).
Proof.
  intros Hf Hp. apply mapM_map.
  eapply Forall_impl; [|exact Hp]. intros row. now apply station_data_entry.
Qed.

Lemma query_ok w st f postcode df kept :
  boolean_flags f -> snapshot w st df ->
  select_postcode postcode df = Ok kept ->
  Forall has_prices_mapping kept ->
  query (JObj f) postcode (todays_rows w st) = Ok (JArr (entries f kept)).
Proof.
  intros Hf (locations & prices & Hl & Hp & ->) Hsel Hkept.
  unfold query. rewrite Hl, Hp. cbn [bind]. rewrite Hsel. cbn [bind].
  now rewrite mapM_station_data.
Qed.

Lemma api_prices_ok w req st f df kept :
  json_loads (args_get (arg_filters req) "{}") = Ok (JObj f) ->
  boolean_flags f -> snapshot w st df ->
  select_postcode (args_get (arg_postcode req) "") df = Ok kept ->
  Forall has_prices_mapping kept ->
  api_prices w req st
  = (Ok {| status := 200; body := Some (JArr (entries f kept)) |}, tick st).
Proof.
  intros Hj Hf Hs Hsel Hk. unfold api_prices, flask_dispatch.
  rewrite get_prices_eq, Hj. now rewrite (query_ok _ _ _ _ _ _ Hf Hs Hsel Hk).
Qed.

(** *** The postcode *)

Lemma boolean_index_filter {A : Type} (rows : list A) (p : A -> bool) :
  boolean_index rows (map (fun row => Some (p row)) rows) = Ok (filter p rows).
Proof.
  induction rows as [|row rows IH]; simpl; [reflexivity|].
  rewrite IH. cbn [bind]. reflexivity.
Qed.


Lemma select_postcode_pattern postcode atoms df :
  postcode <> "" -> re_compile postcode = Ok atoms ->
  Forall has_postcode df ->
  select_postcode postcode df
  = Ok (filter (fun row => re_search atoms (postcode_text row)) df).
Proof.
  intros Hne Hc Hpc. unfold select_postcode, str_contains_nocase.
  destruct (String.eqb_spec postcode ""); [contradiction|]. cbn [negb].
  rewrite Hc. cbn [bind]. rewrite map_map.
  rewrite <- boolean_index_filter. f_equal.
  induction Hpc as [|row df [t Ht] Hdf IH]; simpl; [reflexivity|].
  rewrite IH. unfold postcode_text. now rewrite Ht.
Qed.






Lemma shown_absent f key : dict_get key f = None -> shown f key = true.
Proof. unfold shown. now intros ->. Qed.

Lemma json_loads_empty_object : json_loads "{}" = Ok (JObj []).
Proof. reflexivity. Qed.


(** C6.  The response has one entry per row kept, and each price field of
    an entry is the one the specification describes: a key that is absent
    from the filters object counts as true; a field whose flag is true is
    the price stored under its grade code, a field whose flag is false is
    null; without a [filters] parameter the three fields are the stored
    prices. *)
Theorem price_fields_follow_filters w req st f df kept
  (Hfilters : json_loads (args_get (arg_filters req) "{}") = Ok (JObj f))
  (Hflags : boolean_flags f)
  (Hsnapshot : snapshot w st df)
  (Hkept : select_postcode (args_get (arg_postcode req) "") df = Ok kept)
  (Hprices : Forall has_prices_mapping kept) :
  api_prices w req st
  = (Ok {| status := 200; body := Some (JArr (entries f kept)) |}, tick st) /\
  (forall key, dict_get key f = None -> shown f key = true) /\
  (forall row, In row kept ->
     let entry := station_entry f (stored row) (prices_of row) in
     In entry (entries f kept) /\
     field entry "unleaded"
     = Some (if shown f "unleaded" then stored_price (prices_of row) "E10" else JNull) /\
     field entry "superUnleaded"
     = Some (if shown f "superUnleaded" then stored_price (prices_of row) "E5" else JNull) /\
     field entry "diesel"
     = Some (if shown f "diesel" then stored_price (prices_of row) "B7" else JNull)) /\
  (arg_filters req = None ->
   forall row, In row kept ->
     let entry := station_entry f (stored row) (prices_of row) in
     field entry "unleaded" = Some (stored_price (prices_of row) "E10") /\
     field entry "superUnleaded" = Some (stored_price (prices_of row) "E5") /\
     field entry "diesel" = Some (stored_price (prices_of row) "B7")).
Proof.
  split; [now apply (api_prices_ok w req st f df kept)|].
  split; [exact (shown_absent f)|].
  split.
  - intros row Hin. split; [|repeat split].
    unfold entries. now apply (in_map (fun r => station_entry f (stored r) (prices_of r))).
  - intros Hnone row Hin. rewrite Hnone in Hfilters. simpl in Hfilters.
    rewrite json_loads_empty_object in Hfilters. inversion Hfilters; subst.
    repeat split.
Qed.

(** X19.  A postcode parameter is a pattern, not a text: for a parameter
    that [re.compile] accepts, the rows kept are those in whose postcode
    [search] finds the pattern without regard to case, a dot standing for
    any character but a newline. *)
Lemma postcode_pattern_selects_rows w req st f df atoms :
  json_loads (args_get (arg_filters req) "{}") = Ok (JObj f) ->
  boolean_flags f -> snapshot w st df ->
  Forall has_postcode df -> Forall has_prices_mapping df ->
  args_get (arg_postcode req) "" <> "" ->
  re_compile (args_get (arg_postcode req) "") = Ok atoms ->
  api_prices w req st
  = (Ok {| status := 200;
           body := Some (JArr (entries f
                     (filter (fun row => re_search atoms (postcode_text row)) df))) |},
     tick st).
Proof.
  intros Hj Hf Hs Hpc Hpr Hne Hc.
  apply (api_prices_ok w req st f df); try assumption.
  - now apply select_postcode_pattern.
  - rewrite Forall_forall in *. intros row Hin.
    apply filter_In in Hin. now apply Hpr.
Qed.



Lemma filter_none {A : Type} (p : A -> bool) l :
  (forall a, In a l -> p a = false) -> filter p l = [].
Proof.
  induction l as [|a l IH]; intros H; simpl; [reflexivity|].
  rewrite (H a (or_introl eq_refl)). apply IH. intros b Hb. apply H. now right.
Qed.


(** C10.  A row whose prices lack a grade code is in the response all the
    same, and the field of that grade is null whatever its flag says. *)
Theorem missing_grade_is_null w req st f df kept row
  (Hfilters : json_loads (args_get (arg_filters req) "{}") = Ok (JObj f))
  (Hflags : boolean_flags f)
  (Hsnapshot : snapshot w st df)
  (Hkept : select_postcode (args_get (arg_postcode req) "") df = Ok kept)
  (Hprices : Forall has_prices_mapping kept)
  (Hrow : In row kept) :
  let entry := station_entry f (stored row) (prices_of row) in
  api_prices w req st
  = (Ok {| status := 200; body := Some (JArr (entries f kept)) |}, tick st) /\
  In entry (entries f kept) /\
  (dict_get "E10" (prices_of row) = None -> field entry "unleaded" = Some JNull) /\
  (dict_get "E5" (prices_of row) = None -> field entry "superUnleaded" = Some JNull) /\
  (dict_get "B7" (prices_of row) = None -> field entry "diesel" = Some JNull).
Proof.
  intros entry.
  split; [now apply (api_prices_ok w req st f df kept)|].
  split.
  { unfold entries. now apply (in_map (fun r => station_entry f (stored r) (prices_of r))). }
  unfold entry, station_entry, field, shown_price, stored_price. simpl.
  repeat split; intros ->; now destruct (shown f _).
Qed.

(** ** Examples *)

Lemma check_existing_data_by_date_only_witness :
  (forall n, ticks sample_state <= n ->
             str_date (clock sample_world n) = today sample_world sample_state) /\
  (exists row, In row (fuel_prices (db sample_state)) /\
               c_date row = Some (today sample_world sample_state)) /\
  main_over sample_world urls sample_state
  = (Ok tt, {| db := sample_database; ticks := 12 |}).
Proof.
  assert (Hclock : forall n, ticks sample_state <= n ->
            str_date (clock sample_world n) = today sample_world sample_state)
    by (intros; reflexivity).
  assert (Hrow : exists row, In row (fuel_prices (db sample_state)) /\
                             c_date row = Some (today sample_world sample_state))
    by (exists sample_row; split; [now left | reflexivity]).
  split; [exact Hclock|]. split; [exact Hrow|].
  destruct (check_existing_data_by_date_only sample_world sample_state urls []
              Hclock) as (_ & _ & H).
  exact (proj2 (H Hrow)).
Defined.

Lemma failed_fetch_is_isolated_witness :
  fetch_fails (http sample_world html_url) = true /\
  fetch_and_process_data sample_world html_url fresh_state
  = (Ok empty_frame, fresh_state) /\
  fuel_prices (db (snd (main_over sample_world [html_url; good_url] fresh_state)))
  = fuel_prices (db (snd (main_over sample_world [good_url] fresh_state))).
Proof.
  assert (Hfail : fetch_fails (http sample_world html_url) = true)
    by (vm_compute; reflexivity).
  split; [exact Hfail|].
  destruct (failed_fetch_is_isolated sample_world html_url Hfail)
    as (H1 & _ & _ & H4).
  split; [apply H1|].
  exact (proj2 (H4 (fun n m => eq_refl) [] [good_url] fresh_state)).
Defined.

Lemma empty_buffer_changes_nothing_witness :
  main_loop sample_world [down_url; html_url; broken_url] [] fresh_state
  = (Ok [], {| db := empty_database; ticks := 3 |}) /\
  main_over sample_world [down_url; html_url; broken_url] fresh_state
  = (Ok tt, {| db := empty_database; ticks := 3 |}).
Proof.
  assert (H : main_loop sample_world [down_url; html_url; broken_url] [] fresh_state
              = (Ok [], {| db := empty_database; ticks := 3 |}))
    by (vm_compute; reflexivity).
  split; [exact H|].
  exact (proj1 (empty_buffer_changes_nothing sample_world _ _ _ H)).
Defined.




Lemma sample_snapshot : snapshot sample_world sample_state sample_loaded.
Proof.
  unfold snapshot. eexists _, _.
  split; [vm_compute; reflexivity|]. split; [vm_compute; reflexivity|].
  vm_compute. reflexivity.
Defined.

Lemma sample_prices : Forall has_prices_mapping sample_loaded.
Proof. repeat constructor. eexists. reflexivity. Defined.

Lemma sample_postcodes : Forall has_postcode sample_loaded.
Proof. repeat constructor. eexists. reflexivity. Defined.

Lemma diesel_off_flags : boolean_flags [("diesel", JBool false)].
Proof.
  repeat split; try (left; reflexivity). right. eexists. reflexivity.
Defined.

Lemma no_flags : boolean_flags [].
Proof. repeat split; left; reflexivity. Defined.

Lemma price_fields_follow_filters_witness :
  json_loads (dq "{'diesel': false}") = Ok (JObj [("diesel", JBool false)]) /\
  select_postcode "sw1a" sample_loaded = Ok sample_loaded /\
  api_prices sample_world (request_of (Some "sw1a") (Some (dq "{'diesel': false}")))
             sample_state
  = (Ok {| status := 200;
           body := Some (JArr (entries [("diesel", JBool false)] sample_loaded)) |},
     tick sample_state).
Proof.
  split; [vm_compute; reflexivity|]. split; [vm_compute; reflexivity|].
  apply (price_fields_follow_filters sample_world
           (request_of (Some "sw1a") (Some (dq "{'diesel': false}")))
           sample_state [("diesel", JBool false)] sample_loaded sample_loaded).
  - vm_compute. reflexivity.
  - exact diesel_off_flags.
  - exact sample_snapshot.
  - vm_compute. reflexivity.
  - exact sample_prices.
Defined.





Lemma missing_grade_is_null_witness :
  exists row,
    In row sample_loaded /\
    dict_get "E5" (prices_of row) = None /\
    shown [] "superUnleaded" = true /\
    field (station_entry [] (stored row) (prices_of row)) "superUnleaded" = Some JNull.
Proof.
  destruct sample_loaded as [|row rows] eqn:E; [discriminate|].
  exists row.
  assert (Hin : In row sample_loaded) by (rewrite E; now left).
  assert (H5 : dict_get "E5" (prices_of row) = None).
  { inversion E; subst. vm_compute. reflexivity. }
  split; [rewrite <- E; exact Hin|]. split; [exact H5|]. split; [reflexivity|].
  destruct (missing_grade_is_null sample_world (request_of None None) sample_state
              [] sample_loaded sample_loaded row) as (_ & _ & _ & H & _).
  - vm_compute. reflexivity.
  - exact no_flags.
  - exact sample_snapshot.
  - reflexivity.
  - exact sample_prices.
  - exact Hin.
  - exact (H H5).
Defined.

(** ** Bare arrays *)

Lemma bare_array_is_dropped w url st r items :
  http w url = Responded r -> accepted r = true ->
  json_loads (text r) = Ok (JArr items) ->
  fetch_and_process_data w url st = (Ok empty_frame, st).
Proof.
  intros Hhttp Hct Hdata. rewrite fetch_and_process_data_eq, Hhttp, Hct.
  unfold frame_of. now rewrite Hdata.
Qed.

(** C2.  On a mapping, [data.get('stations', data)] is the value of the
    key when there is one and the mapping itself otherwise.  A bare array
    has no [get]: the call raises, the [except] clause swallows it, and
    [fetch_and_process_data] answers the empty frame for a body from whose
    array [pd.DataFrame] would have built a row. *)
Theorem stations_fallback_misses_bare_array :
  (forall d, py_get (JObj d) "stations" (JObj d)
             = Ok (match dict_get "stations" d with Some v => v | None => JObj d end)) /\
  (forall items, py_get (JArr items) "stations" (JArr items) = Raise AttributeError) /\
  (exists items df,
      json_loads sample_array_body = Ok (JArr items) /\
      pd_DataFrame (JArr items) = Ok df /\ nrows df = 1 /\
      getitem df "location" <> Raise KeyError /\
      getitem df "prices" <> Raise KeyError) /\
  fetch_and_process_data sample_world array_url fresh_state
  = (Ok empty_frame, fresh_state).
Proof.
  split; [|split; [|split]].
  - intros d. simpl. now destruct (dict_get "stations" d).
  - reflexivity.
  - eexists _, _. split; [vm_compute; reflexivity|].
    split; [vm_compute; reflexivity|]. split; [reflexivity|].
    split; vm_compute; discriminate.
  - vm_compute. reflexivity.
Qed.

(** ** A run and a query, end to end *)

Example run_then_query :
  let st := snd (main_over sample_world [down_url; good_url; array_url] fresh_state) in
  fuel_prices (db st) = [sample_row] /\
  fst (api_prices sample_world (request_of None None) st)
  = Ok {| status := 200;
          body := Some (JArr [ JObj [ ("brand", JStr "Tesco");
                                      ("address", JStr "1 High St");
                                      ("postcode", JStr "SW1A 1AA");
                                      ("unleaded", JFloat "145.9");
                                      ("superUnleaded", JNull);
                                      ("diesel", JInt 150) ] ]) |}.
Proof. split; vm_compute; reflexivity. Qed.

Example str_date_iso : str_date sample_now = "2024-01-01".
Proof. reflexivity. Qed.

(** ** Frames as the fetch leaves them *)

Lemma dict_get_set {A : Type} k c (v : A) d :
  dict_get c (dict_set k v d) = if (k =? c)%string then Some v else dict_get c d.
Proof.
  destruct (String.eqb_spec k c) as [->|Hne].
  - apply dict_get_set_same.
  - now apply dict_get_set_other.
Qed.

Lemma as_records_In items recs rec :
  as_records items = Some recs -> In rec recs -> In (JObj rec) items.
Proof.
  intros H Hin. destruct (In_nth_error _ _ Hin) as [i Hi].
  eapply as_records_nth; eassumption.
Qed.

Lemma NaN_wf : wf_json NaN = true.
Proof. reflexivity. Qed.

Lemma cell_of_wf items recs rec c :
  wf_json (JArr items) = true -> as_records items = Some recs -> In rec recs ->
  wf_json (cell_of rec c) = true.
Proof.
  intros Hwf Hrecs Hin. unfold cell_of.
  destruct (dict_get c rec) as [v|] eqn:E; [|reflexivity].
  apply (wf_json_member rec c v); [|assumption].
  apply (wf_json_item items); [assumption|].
  eapply as_records_In; eassumption.
Qed.

Lemma dumped_column items recs c :
  wf_json (JArr items) = true -> as_records items = Some recs ->
  Forall dumped (apply_json_dumps (map (fun rec => cell_of rec c) recs)).
Proof.
  intros Hwf Hrecs. unfold apply_json_dumps. rewrite map_map.
  apply Forall_forall. intros x Hx. apply in_map_iff in Hx.
  destruct Hx as (rec & <- & Hin). exists (cell_of rec c).
  split; [|reflexivity]. eapply cell_of_wf; eassumption.
Qed.

Lemma frame_of_normalized w r n df :
  frame_of r (str_date (clock w n)) = Ok df -> normalized w df.
Proof.
  unfold frame_of. intros H.
  destruct (json_loads (text r)) as [data| |] eqn:Hdata; try discriminate.
  cbn [bind] in H.
  destruct (py_get data "stations" data) as [stations| |] eqn:Hst; try discriminate.
  cbn [bind] in H.
  assert (Hwf : wf_json stations = true).
  { eapply py_get_wf; [|eassumption]. eapply json_loads_wf; eassumption. }
  destruct (pd_DataFrame stations) as [df0| |] eqn:Hdf; try discriminate.
  cbn [bind] in H.
  destruct stations as [| | | | |items|d]; try discriminate.
  { inversion Hdf; subst. discriminate. }
  2:{ simpl in Hdf. destruct (dict_get "location" d), (dict_get "prices" d);
      discriminate. }
  simpl in Hdf. destruct (as_records items) as [recs|] eqn:Hrecs; [|discriminate].
  destruct (forallb _ _); [|discriminate]. inversion Hdf; subst df0. clear Hdf.
  set (keys := union_keys (map dict_keys recs)) in *.
  set (col := fun c => map (fun rec => cell_of rec c) recs) in *.
  unfold getitem, setitem in H. cbn [columns nrows] in H.
  rewrite (dict_get_map_keys col) in H.
  destruct (existsb (String.eqb "location") keys) eqn:Kl; [|discriminate].
  cbn [bind] in H. rewrite dict_get_set in H. cbn [String.eqb Ascii.eqb Bool.eqb] in H.
  rewrite (dict_get_map_keys col) in H.
  destruct (existsb (String.eqb "prices") keys) eqn:Kp; [|discriminate].
  cbn [bind] in H. inversion H; subst df. clear H.
  unfold normalized, full_columns, column_of. cbn [columns nrows].
  split; [|split; [|split; [|split]]].
  - destruct recs as [|rec recs]; [discriminate | simpl; lia].
  - intros c cells. rewrite !dict_get_set, (dict_get_map_keys col).
    destruct ("date" =? c)%string.
    { intros [= <-]. apply repeat_length. }
    destruct ("prices" =? c)%string.
    { intros [= <-]. unfold apply_json_dumps, col. now rewrite !length_map. }
    destruct ("location" =? c)%string.
    { intros [= <-]. unfold apply_json_dumps, col. now rewrite !length_map. }
    destruct (existsb (String.eqb c) keys); [|discriminate].
    intros [= <-]. unfold col. now rewrite length_map.
  - eexists. split.
    + rewrite !dict_get_set. reflexivity.
    + eapply dumped_column; eassumption.
  - eexists. split.
    + rewrite !dict_get_set. reflexivity.
    + eapply dumped_column; eassumption.
  - eexists. split.
    + rewrite dict_get_set. reflexivity.
    + apply Forall_forall. intros x Hx. apply repeat_spec in Hx. subst. now exists n.
Qed.

Lemma fetch_outcomes w url st df st' :
  fetch_and_process_data w url st = (Ok df, st') ->
  (df = empty_frame /\ st' = st) \/ (normalized w df /\ st' = tick st).
Proof.
  rewrite fetch_and_process_data_eq.
  destruct (http w url) as [|r]; [intros [= <- <-]; now left|].
  destruct (accepted r); [|intros [= <- <-]; now left].
  destruct (frame_of r (today w st)) as [df0|e|] eqn:E.
  - intros [= <- <-]. right. split; [|reflexivity].
    eapply frame_of_normalized. exact E.
  - intros [= <- <-]. now left.
  - discriminate.
Qed.

Lemma main_loop_normalized w sources :
  forall frames st frames' st',
    Forall (normalized w) frames ->
    main_loop w sources frames st = (Ok frames', st') ->
    Forall (normalized w) frames'.
Proof.
  induction sources as [|url sources IH]; intros frames st frames' st' Hn H.
  - simpl in H. unfold ret in H. now inversion H; subst.
  - rewrite main_loop_cons in H.
    destruct (existsb _ _); [eapply IH; eassumption|].
    destruct (fetch_and_process_data w url (tick st)) as [[df|e|] st1] eqn:E;
      try discriminate.
    destruct (fetch_outcomes _ _ _ _ _ E) as [[-> ->]|[Hdf ->]].
    + simpl in H. eapply IH; eassumption.
    + destruct (negb (df_empty df)); [|eapply IH; eassumption].
      eapply IH; [|eassumption]. apply Forall_app. split; [assumption|].
      now constructor.
Qed.

Lemma main_loop_never_raises w sources :
  forall frames st e, fst (main_loop w sources frames st) <> Raise e.
Proof.
  induction sources as [|url sources IH]; intros frames st e; [discriminate|].
  rewrite main_loop_cons.
  destruct (existsb _ _); [apply IH|].
  pose proof (fetch_and_process_data_never_raises w url (tick st)) as Hf.
  destruct (fetch_and_process_data w url (tick st)) as [[df|e'|] st1]; simpl in *.
  - destruct (negb (df_empty df)); apply IH.
  - now elim (Hf e').
  - discriminate.
Qed.

Lemma concat_column (P : json -> Prop) c df frames :
  Forall (fun df => full_columns df /\ column_of P df c) (df :: frames) ->
  exists cells,
    dict_get c (columns (pd_concat (df :: frames))) = Some cells /\
    Forall P cells /\ List.length cells = nrows (pd_concat (df :: frames)).
Proof.
  intros H. unfold pd_concat. cbn [columns nrows].
  set (cat := fun c => flat_map (fun df => match dict_get c (columns df) with
                                           | Some cells => cells
                                           | None => repeat NaN (nrows df)
                                           end) (df :: frames)).
  rewrite (dict_get_map_keys cat).
  assert (K : existsb (String.eqb c)
                (union_keys (map (fun df => dict_keys (columns df)) (df :: frames)))
              = true).
  { rewrite union_keys_mem. cbn [map existsb]. rewrite dict_get_keys.
    inversion H as [|? ? [_ (cells & Hc & _)] _]; subst. now rewrite Hc. }
  rewrite K. exists (cat c). split; [reflexivity|]. unfold cat. clear K cat.
  induction H as [|x l [Hfull (cells & Hc & HP)] Hl [IH1 IH2]]; simpl.
  - split; [constructor | reflexivity].
  - rewrite Hc. split.
    + apply Forall_app. now split.
    + rewrite length_app, IH2. now rewrite (Hfull _ _ Hc).
Qed.

Lemma insert_rows_spec records :
  forall key rows,
    insert_rows records key = Ok rows ->
    List.length rows = List.length records /\
    forall row, In row rows ->
      exists record key', In record records /\ insert_row record key' = Ok row.
Proof.
  induction records as [|record records IH]; intros key rows H; simpl in H.
  - inversion H; subst. split; [reflexivity | intros row []].
  - destruct (insert_row record key) as [row0| |] eqn:E; try discriminate.
    cbn [bind] in H.
    destruct (insert_rows records (key + 1)) as [rows0| |] eqn:E2; try discriminate.
    cbn [bind] in H. inversion H; subst.
    destruct (IH _ _ E2) as [Hlen Hrows]. split; [simpl; now rewrite Hlen|].
    intros row [<-|Hin].
    + exists record, key. split; [now left | assumption].
    + destruct (Hrows row Hin) as (rec & key' & Hr & Hi).
      exists rec, key'. split; [now right | assumption].
Qed.

Lemma concat_normalized w df frames :
  Forall (normalized w) (df :: frames) ->
  let combined := pd_concat (df :: frames) in
  0 < nrows combined /\
  forall i key row, i < nrows combined ->
    insert_row (df_row combined i) key = Ok row -> written w row.
Proof.
  intros H combined.
  assert (Hcol : forall P c,
            (forall df, normalized w df -> column_of P df c) ->
            exists cells, dict_get c (columns combined) = Some cells /\
                          Forall P cells /\ List.length cells = nrows combined).
  { intros P c HP. apply concat_column. eapply Forall_impl; [|exact H].
    intros x Hx. split; [apply Hx | now apply HP]. }
  destruct (Hcol dumped "location") as (cl & Hl & Pl & Ll); [intros x Hx; apply Hx|].
  destruct (Hcol dumped "prices") as (cp & Hp & Pp & Lp); [intros x Hx; apply Hx|].
  destruct (Hcol (dated w) "date") as (cd & Hd & Pd & Ld); [intros x Hx; apply Hx|].
  split.
  - inversion H as [|? ? (Hpos & _) _]; subst. unfold combined. simpl. lia.
  - intros i key row Hi Hrow.
    destruct (insert_row_fields _ _ _ Hrow) as (Fl & Fp & Fd).
    unfold sql_field, df_row in Fl, Fp, Fd.
    rewrite (dict_get_map_values (fun cells => nth i cells NaN)) in Fl, Fp, Fd.
    rewrite Hl in Fl. rewrite Hp in Fp. rewrite Hd in Fd. cbn [option_map] in Fl, Fp, Fd.
    rewrite Forall_forall in Pl, Pp, Pd.
    destruct (Pl (nth i cl NaN)) as (l & Wl & El); [apply nth_In; congruence|].
    destruct (Pp (nth i cp NaN)) as (p & Wp & Ep); [apply nth_In; congruence|].
    destruct (Pd (nth i cd NaN)) as (n & En); [apply nth_In; congruence|].
    rewrite El in Fl. rewrite Ep in Fp. rewrite En in Fd.
    simpl in Fl, Fp, Fd. inversion Fl as [Gl]. inversion Fp as [Gp]. inversion Fd as [Gd].
    split; [exists n; congruence|]. exists l, p. rewrite <- Gl, <- Gp. simpl.
    now rewrite !json_loads_dumps.
Qed.

(** What lines 95-99 do to the state. *)
Lemma store_frames_outcomes w frames st :
  Forall (normalized w) frames ->
  snd (store_frames w frames st) = st \/
  exists new,
    new <> [] /\ Forall (written w) new /\
    store_frames w frames st =
    (Ok tt,
     {| db := {| fuel_prices := (fuel_prices (db st) ++ new)%list;
                 fuel_prices_metadata :=
                   [{| m_id := fuel_prices_metadata_id_seq (db st);
                       m_last_updated := Some (str_datetime (clock w (ticks st))) |}];
                 fuel_prices_id_seq :=
                   fuel_prices_id_seq (db st) + Z.of_nat (List.length new);
                 fuel_prices_metadata_id_seq :=
                   fuel_prices_metadata_id_seq (db st) + 1 |};
        ticks := S (ticks st) |}).
Proof.
  intros Hn. destruct frames as [|df frames]; [now left|].
  destruct (concat_normalized w df frames Hn) as [Hpos Hrows].
  unfold store_frames. set (combined := pd_concat (df :: frames)) in *.
  unfold to_sql, delete_metadata, insert_metadata, datetime_now, bindM, get_db,
    put_db, lift, ret.
  destruct (existsb (String.eqb "id") _); [now left|].
  destruct (negb _); [now left|].
  destruct (insert_rows _ _) as [new| |] eqn:E; [|now left|now left].
  right. exists new. destruct (insert_rows_spec _ _ _ E) as [Hlen Hin].
  rewrite length_map, length_seq in Hlen.
  split; [|split].
  - intros ->. cbn [List.length] in Hlen. rewrite <- Hlen in Hpos. lia.
  - apply Forall_forall. intros row Hrow.
    destruct (Hin row Hrow) as (record & key & Hrec & Hins).
    apply in_map_iff in Hrec. destruct Hrec as (i & <- & Hi).
    apply in_seq in Hi. eapply Hrows; [|eassumption]. lia.
  - simpl. now rewrite Hlen.
Qed.

(** What a run does to the state: nothing to the tables, or rows appended
    and the metadata replaced. *)
Lemma main_over_outcomes w sources st :
  db (snd (main_over w sources st)) = db st \/
  exists new n,
    new <> [] /\ Forall (written w) new /\
    main_over w sources st =
    (Ok tt,
     {| db := {| fuel_prices := (fuel_prices (db st) ++ new)%list;
                 fuel_prices_metadata :=
                   [{| m_id := fuel_prices_metadata_id_seq (db st);
                       m_last_updated := Some (str_datetime (clock w n)) |}];
                 fuel_prices_id_seq :=
                   fuel_prices_id_seq (db st) + Z.of_nat (List.length new);
                 fuel_prices_metadata_id_seq :=
                   fuel_prices_metadata_id_seq (db st) + 1 |};
        ticks := S n |}).
Proof.
  unfold main_over, bindM.
  pose proof (main_loop_db w sources [] st) as Hdb.
  pose proof (main_loop_normalized w sources [] st) as Hn.
  destruct (main_loop w sources [] st) as [[frames|e|] st1]; simpl in Hdb;
    [|now left|now left].
  destruct (store_frames_outcomes w frames st1) as [H|(new & Hne & Hw & H)].
  - eapply Hn; [constructor | reflexivity].
  - left. now rewrite H.
  - right. exists new, (ticks st1). rewrite H, Hdb. now repeat split.
Qed.

Lemma app_neq_self {A : Type} (l new : list A) : new <> [] -> (l ++ new)%list <> l.
Proof.
  intros Hne H. apply (f_equal (@List.length A)) in H. rewrite length_app in H.
  destruct new; [now elim Hne | simpl in H; lia].
Qed.

(** ** What a run does to the tables *)

(** X1.  A run only appends to [fuel_prices]: whatever the sources
    answer and however the run ends, the rows the table held before are
    still there, unchanged and in their order, followed by those of the
    run. *)
Theorem run_only_appends w sources st :
  exists new,
    fuel_prices (db (snd (main_over w sources st)))
    = (fuel_prices (db st) ++ new)%list.
Proof.
  destruct (main_over_outcomes w sources st) as [H|(new & n & _ & _ & H)].
  - exists []. now rewrite H, app_nil_r.
  - exists new. now rewrite H.
Qed.

(** X2.  The metadata table is touched only by a run that has appended
    rows: either both tables are as before, or rows were appended and the
    metadata table, whatever it held, holds exactly one row, with the time
    of the last reading of the clock of the run. *)
Theorem metadata_replaced_only_with_rows w sources st :
  let st' := snd (main_over w sources st) in
  (fuel_prices (db st') = fuel_prices (db st) /\
   fuel_prices_metadata (db st') = fuel_prices_metadata (db st)) \/
  (fuel_prices (db st') <> fuel_prices (db st) /\
   fst (main_over w sources st) = Ok tt /\
   exists n,
     ticks st' = S n /\
     fuel_prices_metadata (db st')
     = [{| m_id := fuel_prices_metadata_id_seq (db st);
           m_last_updated := Some (str_datetime (clock w n)) |}]).
Proof.
  intros st'. unfold st'.
  destruct (main_over_outcomes w sources st) as [H|(new & n & Hne & _ & H)].
  - left. now rewrite H.
  - right. rewrite H. simpl. split; [now apply app_neq_self|].
    split; [reflexivity|]. now exists n.
Qed.

(** X3.  On a day that does not change during the run, every row a run
    appends carries the date of the day. *)
Theorem appended_rows_are_dated_today w sources st
  (Hday : forall n m, str_date (clock w n) = str_date (clock w m)) :
  exists new,
    fuel_prices (db (snd (main_over w sources st)))
    = (fuel_prices (db st) ++ new)%list /\
    Forall (fun row => c_date row = Some (today w st)) new.
Proof.
  destruct (main_over_outcomes w sources st) as [H|(new & n & _ & Hw & H)].
  - exists []. rewrite H, app_nil_r. now split.
  - exists new. rewrite H. split; [reflexivity|].
    eapply Forall_impl; [|exact Hw]. intros row [[m Hm] _].
    rewrite Hm. unfold today. now rewrite (Hday m (ticks st)).
Qed.

(** X4.  On a day that does not change, a run that has appended rows
    makes every later run of the day skip all its sources: the later run
    ends without an exception and leaves both tables as they are. *)
Theorem second_run_same_day_adds_nothing w sources sources' st
  (Hday : forall n m, str_date (clock w n) = str_date (clock w m))
  (Hnew : fuel_prices (db (snd (main_over w sources st))) <> fuel_prices (db st)) :
  let st1 := snd (main_over w sources st) in
  main_over w sources' st1
  = (Ok tt, {| db := db st1; ticks := ticks st1 + List.length sources' |}).
Proof.
  intros st1. unfold st1. clear st1.
  destruct (main_over_outcomes w sources st) as [H|(new & n & Hne & Hw & H)].
  - elim Hnew. now rewrite H.
  - rewrite H. cbn [snd]. set (st1 := {| db := _; ticks := S n |}).
    unfold main_over, bindM. rewrite main_loop_all_skipped; [reflexivity| |].
    + intros m _. apply Hday.
    + apply existsb_exists. destruct new as [|row new]; [now elim Hne|].
      exists row. split; [simpl; apply in_or_app; right; now left|].
      apply date_is_iff. inversion Hw as [|? ? [[m Hm] _] _]; subst.
      rewrite Hm. unfold today. now rewrite (Hday m (ticks st1)).
Qed.




Lemma concat_keys frames :
  dict_keys (columns (pd_concat frames))
  = union_keys (map (fun df => dict_keys (columns df)) frames).
Proof.
  unfold pd_concat, dict_keys. cbn [columns]. rewrite map_map. apply map_id.
Qed.

Lemma concat_has_column frames c :
  existsb (String.eqb c) (dict_keys (columns (pd_concat frames)))
  = existsb (fun df => existsb (String.eqb c) (dict_keys (columns df))) frames.
Proof.
  rewrite concat_keys, union_keys_mem.
  induction frames as [|df frames IH]; simpl; [reflexivity | now rewrite IH].
Qed.

(** X6.  A frame in the buffer with a column that the table does not
    have makes the one INSERT of the run fail: [main] raises, no row of any
    source is stored, and the metadata is not touched. *)
Theorem unknown_column_fails_the_run w sources st frames st1 df c
  (Hloop : main_loop w sources [] st = (Ok frames, st1))
  (Hdf : In df frames)
  (Hc : existsb (String.eqb c) (dict_keys (columns df)) = true)
  (Hunknown : existsb (String.eqb c) table_columns = false)
  (Hid : forall df', In df' frames ->
           existsb (String.eqb "id") (dict_keys (columns df')) = false) :
  main_over w sources st = (Raise DatabaseError, st1) /\ db st1 = db st.
Proof.
  split.
  2:{ pose proof (main_loop_db w sources [] st) as H. now rewrite Hloop in H. }
  unfold main_over, bindM. rewrite Hloop.
  destruct frames as [|df0 frames]; [destruct Hdf|].
  unfold store_frames. set (combined := pd_concat (df0 :: frames)).
  unfold to_sql, bindM, get_db, lift.
  assert (E1 : existsb (String.eqb "id") (dict_keys (columns combined)) = false).
  { unfold combined. rewrite concat_has_column.
    destruct (existsb _ (df0 :: frames)) eqn:E; [|reflexivity].
    apply existsb_exists in E. destruct E as (df' & Hin & E).
    now rewrite (Hid df' Hin) in E. }
  assert (E2 : forallb (fun c => existsb (String.eqb c) table_columns)
                       (dict_keys (columns combined)) = false).
  { destruct (forallb _ _) eqn:E; [|reflexivity].
    rewrite forallb_forall in E.
    assert (Hin : In c (dict_keys (columns combined))).
    { assert (Hex : existsb (String.eqb c) (dict_keys (columns combined)) = true).
      { unfold combined. rewrite concat_has_column. apply existsb_exists.
        now exists df. }
      apply existsb_exists in Hex. destruct Hex as (c' & Hin & Heq).
      apply String.eqb_eq in Heq. now subst. }
    rewrite (E c Hin) in Hunknown. discriminate. }
  now rewrite E1, E2.
Qed.

(** X7.  No exception leaves [run_main_in_background]: it ends in the
    state in which [main] ends.  The loop over the sources never raises,
    so [main] can raise only once the loop is over, and when it has
    raised the tables are as they were before the run. *)
Theorem background_run_never_raises w st :
  (forall e, fst (run_main_in_background w st) <> Raise e) /\
  snd (run_main_in_background w st) = snd (main w st) /\
  (forall e, fst (main_loop w urls [] st) <> Raise e) /\
  (forall e, fst (main w st) = Raise e ->
     run_main_in_background w st = (Ok tt, snd (main w st)) /\
     db (snd (main w st)) = db st).
Proof.
  split; [|split; [|split]].
  - intros e. unfold run_main_in_background, try_except.
    destruct (main w st) as [[[]|e'|] st1]; discriminate.
  - unfold run_main_in_background, try_except.
    now destruct (main w st) as [[[]|e'|] st1].
  - intros e. apply main_loop_never_raises.
  - intros e He. unfold run_main_in_background, try_except.
    pose proof (main_over_outcomes w urls st) as Hrun. unfold main in *.
    destruct (main_over w urls st) as [[[]|e'|] st1]; try discriminate.
    split; [reflexivity|].
    destruct Hrun as [H|(new & n & _ & _ & H)]; [exact H | discriminate].
Qed.

Lemma normalized_not_empty w df : normalized w df -> df_empty df = false.
Proof.
  intros (Hpos & _ & (cells & Hc & _) & _). unfold df_empty.
  destruct (nrows df); [lia|]. simpl.
  destruct (columns df); [discriminate | reflexivity].
Qed.

Lemma store_frames_count w frames st st' :
  store_frames w frames st = (Ok tt, st') ->
  List.length (fuel_prices (db st'))
  = List.length (fuel_prices (db st)) + list_sum (map nrows frames).
Proof.
  destruct frames as [|df frames]; [intros [= <-]; simpl; lia|].
  unfold store_frames. set (combined := pd_concat (df :: frames)).
  unfold to_sql, delete_metadata, insert_metadata, datetime_now, bindM, get_db,
    put_db, lift, ret.
  destruct (existsb _ _); [discriminate|].
  destruct (negb _); [discriminate|].
  destruct (insert_rows _ _) as [new| |] eqn:E; try discriminate.
  intros [= <-]. cbn [db fuel_prices].
  destruct (insert_rows_spec _ _ _ E) as [Hlen _].
  rewrite length_map, length_seq in Hlen. now rewrite length_app, Hlen.
Qed.

Lemma main_loop_fresh_day w day sources :
  (forall n, str_date (clock w n) = day) ->
  Forall (described w day) sources ->
  forall frames st,
    existsb (date_is day) (fuel_prices (db st)) = false ->
    exists st',
      main_loop w sources frames st
      = (Ok (frames ++ flat_map (frame_from w day) sources)%list, st') /\
      db st' = db st.
Proof.
  intros Hday Hd. induction Hd as [|url sources Hurl _ IH]; intros frames st Hnone.
  - exists st. simpl. now rewrite app_nil_r.
  - rewrite main_loop_cons. unfold today. rewrite Hday, Hnone.
    rewrite fetch_and_process_data_eq. unfold today. rewrite Hday.
    cbn [flat_map]. unfold frame_from at 1. unfold described in Hurl.
    assert (Hskip : exists st',
               main_loop w sources frames (tick st)
               = (Ok (frames ++ [] ++ flat_map (frame_from w day) sources)%list, st') /\
               db st' = db st).
    { destruct (IH frames (tick st) Hnone) as (st' & H & Hdb). now exists st'. }
    destruct (http w url) as [|r]; [exact Hskip|].
    destruct (accepted r) eqn:Ha; [|exact Hskip].
    destruct (frame_of r day) as [df| |] eqn:E.
    + rewrite <- (Hday 0) in E. apply frame_of_normalized in E.
      rewrite (normalized_not_empty _ _ E). cbn [negb].
      destruct (IH (frames ++ [df])%list (tick (tick st)) Hnone) as (st' & H & Hdb).
      exists st'. split; [|exact Hdb].
      rewrite H. f_equal. f_equal. symmetry. apply app_assoc.
    + exact Hskip.
    + now elim (Hurl r eq_refl Ha).
Qed.

(** X8.  On a day of which the table holds no row, the buffer of [main]
    after the loop holds the frames of the sources that gave one, in the
    order of the list and none left out by the test of line 93; and when
    the run ends without an exception, the table has grown by one row for
    every row of these frames. *)
Theorem every_fetched_row_is_appended w day sources st
  (Hday : forall n, str_date (clock w n) = day)
  (Hnone : existsb (date_is day) (fuel_prices (db st)) = false)
  (Hdescribed : Forall (described w day) sources) :
  let frames := flat_map (frame_from w day) sources in
  (exists st1, main_loop w sources [] st = (Ok frames, st1) /\ db st1 = db st) /\
  (fst (main_over w sources st) = Ok tt ->
   List.length (fuel_prices (db (snd (main_over w sources st))))
   = List.length (fuel_prices (db st)) + list_sum (map nrows frames)).
Proof.
  intros frames.
  destruct (main_loop_fresh_day w day sources Hday Hdescribed [] st Hnone)
    as (st1 & Hloop & Hdb).
  split; [now exists st1|].
  unfold main_over, bindM. rewrite Hloop. cbn [app]. fold frames.
  destruct (store_frames w frames st1) as [[[]|e|] st'] eqn:E; try discriminate.
  intros _. cbn [snd]. rewrite (store_frames_count _ _ _ _ E). now rewrite Hdb.
Qed.

(** ** Sources without usable records *)

Lemma has_key_union_iff c recs :
  existsb (String.eqb c) (union_keys (map dict_keys recs)) = has_key c recs.
Proof.
  rewrite union_keys_mem. unfold has_key.
  induction recs as [|rec recs IH]; simpl; [reflexivity|].
  now rewrite dict_get_keys, IH.
Qed.

Lemma no_station_frame_raises stations :
  no_station_frame stations = true -> pd_DataFrame stations <> Unmodelled ->
  exists e,
    (df <- pd_DataFrame stations ;;
     location <- getitem df "location" ;;
     let df := setitem df "location" (apply_json_dumps location) in
     prices <- getitem df "prices" ;;
     Ok (setitem df "prices" (apply_json_dumps prices))) = Raise e.
Proof.
  intros Hno Hmod.
  destruct stations as [| | | | |items|d]; try (now eexists).
  - simpl in *. destruct (as_records items) as [recs|]; [|now eexists].
    destruct (forallb _ _); [|now elim Hmod]. cbn [bind].
    unfold getitem, setitem. cbn [columns nrows].
    rewrite (dict_get_map_keys (fun c => map (fun rec => cell_of rec c) recs)).
    rewrite has_key_union_iff.
    destruct (has_key "location" recs); [|now eexists]. cbn [bind].
    rewrite dict_get_set. cbn [String.eqb Ascii.eqb Bool.eqb].
    rewrite (dict_get_map_keys (fun c => map (fun rec => cell_of rec c) recs)).
    rewrite has_key_union_iff.
    destruct (has_key "prices" recs); [discriminate | now eexists].
  - simpl in *. destruct (dict_get "location" d), (dict_get "prices" d);
      try discriminate; now eexists.
Qed.

(** X9.  A source that answers with JSON from which no frame with a
    [location] and a [prices] column comes (a station list that is empty
    or holds something that is no record, records that all lack one of
    the two keys, a mapping without them, null, a string, a number)
    contributes nothing: the exception of lines 67-69 is swallowed, the
    empty frame is returned, and the clock is not read. *)
Theorem source_without_station_frame_is_dropped w url st r data stations
  (Hhttp : http w url = Responded r)
  (Hct : accepted r = true)
  (Hdata : json_loads (text r) = Ok data)
  (Hstations : py_get data "stations" data = Ok stations)
  (Hnone : no_station_frame stations = true)
  (Hframe : pd_DataFrame stations <> Unmodelled) :
  fetch_and_process_data w url st = (Ok empty_frame, st) /\
  forall sources data_frames,
    main_loop w (url :: sources) data_frames st
    = main_loop w sources data_frames (tick st).
Proof.
  assert (H : forall st, fetch_and_process_data w url st = (Ok empty_frame, st)).
  { intros st0. rewrite fetch_and_process_data_eq, Hhttp, Hct. unfold frame_of.
    rewrite Hdata. cbn [bind]. rewrite Hstations. cbn [bind].
    destruct (no_station_frame_raises stations Hnone Hframe) as [e He].
    destruct (pd_DataFrame stations) as [df| |]; [|reflexivity|now elim Hframe].
    cbn [bind] in *.
    destruct (getitem df "location") as [location| |]; try discriminate;
      [|reflexivity].
    cbn [bind] in *.
    destruct (getitem (setitem df "location" (apply_json_dumps location)) "prices");
      try discriminate; reflexivity. }
  split; [apply H|]. intros sources data_frames. rewrite main_loop_cons.
  destruct (existsb _ _); [reflexivity|]. now rewrite H.
Qed.

(** ** Records that lack a key *)

(** The cells of the rows of the frame that a batch of records gives. *)
Lemma fetched_rows w url st r data items recs df0 :
  http w url = Responded r -> accepted r = true ->
  json_loads (text r) = Ok data ->
  py_get data "stations" data = Ok (JArr items) ->
  as_records items = Some recs -> pd_DataFrame (JArr items) = Ok df0 ->
  has_key "location" recs = true -> has_key "prices" recs = true ->
  exists df,
    fetch_and_process_data w url st = (Ok df, tick st) /\
    forall i rec, nth_error recs i = Some rec ->
      dict_get "location" (df_row df i)
      = Some (JStr (json_dumps (cell_of rec "location"))) /\
      dict_get "prices" (df_row df i)
      = Some (JStr (json_dumps (cell_of rec "prices"))).
Proof.
  intros Hhttp Hct Hdata Hstations Hrecs Hframe Hloc Hprices.
  destruct (pd_DataFrame_records _ _ _ Hrecs Hframe) as [Hn Hget].
  pose proof (Hget _ (has_key_union _ _ Hloc)) as Gl.
  pose proof (Hget _ (has_key_union _ _ Hprices)) as Gp.
  assert (Gp' : forall cells, getitem (setitem df0 "location" cells) "prices"
                              = Ok (map (fun rec => cell_of rec "prices") recs)).
  { intros cells. unfold getitem, setitem in *. simpl.
    rewrite dict_get_set_other by discriminate. exact Gp. }
  eexists. split.
  - rewrite fetch_and_process_data_eq, Hhttp, Hct. unfold frame_of.
    rewrite Hdata. cbn [bind]. rewrite Hstations. cbn [bind].
    rewrite Hframe. cbn [bind]. rewrite Gl. cbn [bind]. rewrite Gp'. cbn [bind].
    reflexivity.
  - intros i rec Hi. unfold df_row, setitem. cbn [columns nrows].
    rewrite !(dict_get_map_values (fun cells => nth i cells NaN)).
    rewrite !dict_get_set. cbn [String.eqb Ascii.eqb Bool.eqb option_map].
    unfold apply_json_dumps. rewrite !map_map.
    now rewrite !(nth_map_error _ _ _ _ _ Hi).
Qed.

(** X10.  A record that lacks [prices] (or [location]) in a batch in
    which another record has the key is not dropped: its cell is the
    missing value of pandas, which [json.dumps] writes as the text [NaN];
    the row is stored with that text, and [json.loads] in [get_prices]
    reads it back as the float [nan], which is no mapping. *)
Theorem missing_key_is_stored_as_NaN w url st r data items recs df0 i rec c
  (Hhttp : http w url = Responded r)
  (Hct : accepted r = true)
  (Hdata : json_loads (text r) = Ok data)
  (Hstations : py_get data "stations" data = Ok (JArr items))
  (Hrecs : as_records items = Some recs)
  (Hframe : pd_DataFrame (JArr items) = Ok df0)
  (Hloc : has_key "location" recs = true)
  (Hprices : has_key "prices" recs = true)
  (Hrec : nth_error recs i = Some rec)
  (Hc : c = "location" \/ c = "prices")
  (Hmissing : dict_get c rec = None) :
  exists df,
    fetch_and_process_data w url st = (Ok df, tick st) /\
    dict_get c (df_row df i) = Some (JStr "NaN") /\
    forall key row, insert_row (df_row df i) key = Ok row ->
      let cell := if (c =? "location")%string then c_location row else c_prices row in
      cell = Some "NaN" /\ loads_cell cell = Ok NaN.
Proof.
  destruct (fetched_rows w url st r data items recs df0) as (df & Hfetch & Hrows);
    try assumption.
  exists df. split; [exact Hfetch|].
  destruct (Hrows i rec Hrec) as [Hl Hp].
  assert (Hcell : dict_get c (df_row df i) = Some (JStr "NaN")).
  { destruct Hc as [-> | ->]; [rewrite Hl | rewrite Hp];
      unfold cell_of; now rewrite Hmissing. }
  split; [exact Hcell|]. intros key row Hrow cell.
  assert (E : cell = Some "NaN").
  { destruct (insert_row_fields _ _ _ Hrow) as (Fl & Fp & _).
    unfold sql_field in Fl, Fp. unfold cell.
    destruct Hc as [-> | ->]; simpl.
    - rewrite Hcell in Fl. simpl in Fl. now inversion Fl.
    - rewrite Hcell in Fp. simpl in Fp. now inversion Fp. }
  split; [exact E | now rewrite E].
Qed.

(** ** Requests that fail, and flags that are no Booleans *)

Lemma api_prices_eq w req st filters :
  json_loads (args_get (arg_filters req) "{}") = Ok filters ->
  api_prices w req st =
  match query filters (args_get (arg_postcode req) "") (todays_rows w st) with
  | Ok v => (Ok {| status := 200; body := Some v |}, tick st)
  | Raise _ => (Ok {| status := 500; body := None |}, tick st)
  | Unmodelled => (Unmodelled, tick st)
  end.
Proof.
  intros H. unfold api_prices, flask_dispatch. rewrite get_prices_eq, H.
  now destruct (query _ _ _).
Qed.

Lemma mapM_raises {A B : Type} (f : A -> outcome B) e l :
  (forall a, In a l -> (exists b, f a = Ok b) \/ f a = Raise e) ->
  (exists a, In a l /\ f a = Raise e) ->
  mapM f l = Raise e.
Proof.
  induction l as [|x l IH]; intros Hall (a & Hin & Ha); [destruct Hin|].
  simpl. destruct (Hall x (or_introl eq_refl)) as [[b Hb]|Hx].
  - rewrite Hb. cbn [bind]. rewrite IH; [reflexivity| |].
    + intros y Hy. apply Hall. now right.
    + destruct Hin as [->|Hin]; [congruence|]. now exists a.
  - now rewrite Hx.
Qed.

Lemma station_data_cases f row :
  boolean_flags f ->
  station_data (JObj f) row =
  if is_mapping (loaded_prices row)
     || negb (shown f "unleaded" || shown f "superUnleaded" || shown f "diesel")
  then Ok (station_entry f (stored row) (prices_of row))
  else Raise AttributeError.
Proof.
  intros Hf. destruct (loaded_prices row) as [| | | | | |p] eqn:Hp;
    try (unfold station_data, station_entry, price_field, shown_price, prices_of,
           shown, py_get;
         rewrite Hp; destruct Hf as (H1 & H2 & H3);
         destruct H1 as [H1|[b1 H1]]; rewrite H1; try destruct b1;
         destruct H2 as [H2|[b2 H2]]; rewrite H2; try destruct b2;
         destruct H3 as [H3|[b3 H3]]; rewrite H3; try destruct b3;
         reflexivity).
  cbn [is_mapping orb]. apply station_data_entry; [assumption | now exists p].
Qed.

(** X11.  A row that is kept and whose prices text decodes to something
    that is no mapping (the text [NaN] of a record without prices, a
    number, a list) makes the request fail with status 500 as soon as one
    fuel type is shown; when the three flags are false the prices are not
    looked at and the request is answered. *)
Theorem prices_that_are_no_mapping_fail_the_request w req st f df kept row
  (Hfilters : json_loads (args_get (arg_filters req) "{}") = Ok (JObj f))
  (Hflags : boolean_flags f)
  (Hsnapshot : snapshot w st df)
  (Hkept : select_postcode (args_get (arg_postcode req) "") df = Ok kept)
  (Hrow : In row kept)
  (Hbad : is_mapping (loaded_prices row) = false) :
  api_prices w req st =
  if shown f "unleaded" || shown f "superUnleaded" || shown f "diesel"
  then (Ok {| status := 500; body := None |}, tick st)
  else (Ok {| status := 200; body := Some (JArr (entries f kept)) |}, tick st).
Proof.
  rewrite (api_prices_eq _ _ _ _ Hfilters).
  destruct Hsnapshot as (locations & prices & Hl & Hp & ->).
  unfold query. rewrite Hl, Hp. cbn [bind]. rewrite Hkept. cbn [bind].
  destruct (shown f "unleaded" || shown f "superUnleaded" || shown f "diesel") eqn:E.
  - rewrite (mapM_raises (station_data (JObj f)) AttributeError); [reflexivity| |].
    + intros a _. rewrite (station_data_cases f a Hflags), E.
      destruct (is_mapping (loaded_prices a)); [left; now eexists | now right].
    + exists row. split; [assumption|].
      now rewrite (station_data_cases f row Hflags), E, Hbad.
  - rewrite (mapM_map (station_data (JObj f))
               (fun r => station_entry f (stored r) (prices_of r))); [reflexivity|].
    apply Forall_forall. intros a _.
    rewrite (station_data_cases f a Hflags), E. now rewrite orb_true_r.
Qed.

(** X12.  Filters that are JSON but no object (a list, a number, a
    string, null) are not refused: the request is answered with an empty
    array when no row is kept, and fails with status 500 as soon as one
    row is kept, because the value has no [get]. *)
Theorem filters_that_are_no_object w req st filters df kept
  (Hfilters : json_loads (args_get (arg_filters req) "{}") = Ok filters)
  (Hshape : is_mapping filters = false)
  (Hsnapshot : snapshot w st df)
  (Hkept : select_postcode (args_get (arg_postcode req) "") df = Ok kept) :
  api_prices w req st =
  match kept with
  | [] => (Ok {| status := 200; body := Some (JArr []) |}, tick st)
  | _ :: _ => (Ok {| status := 500; body := None |}, tick st)
  end.
Proof.
  rewrite (api_prices_eq _ _ _ _ Hfilters).
  destruct Hsnapshot as (locations & prices & Hl & Hp & ->).
  unfold query. rewrite Hl, Hp. cbn [bind]. rewrite Hkept. cbn [bind].
  destruct kept as [|row kept]; [reflexivity|].
  cbn [mapM]. unfold station_data, price_field.
  destruct filters; try discriminate; reflexivity.
Qed.

Lemma price_field_by_truth f p key code :
  no_float_flag f key ->
  price_field (JObj f) (JObj p) key code = Ok (price_unless_hidden f p key code).
Proof.
  unfold no_float_flag, price_field, price_unless_hidden, hidden, stored_price, py_get.
  intros Hnf. destruct (dict_get key f) as [v|]; simpl.
  - destruct v as [|b|z|r|s|l|d]; simpl.
    + reflexivity.
    + destruct b; [now destruct (dict_get code p) | reflexivity].
    + destruct z; simpl; try reflexivity; now destruct (dict_get code p).
    + now elim (Hnf r).
    + destruct s; simpl; [reflexivity | now destruct (dict_get code p)].
    + destruct l; [reflexivity | now destruct (dict_get code p)].
    + destruct d; [reflexivity | now destruct (dict_get code p)].
  - now destruct (dict_get code p).
Qed.

(** X13.  A flag need not be a Boolean: it is judged as Python judges
    any value.  A fuel type is hidden exactly when its flag is present
    and is false, null, zero, the empty string, the empty list or the
    empty object; under every other flag, the string [false] among them,
    the stored price is shown. *)
Theorem flags_are_judged_by_truth_value w req st f df kept
  (Hfilters : json_loads (args_get (arg_filters req) "{}") = Ok (JObj f))
  (Hflags : no_float_flag f "unleaded" /\ no_float_flag f "superUnleaded" /\
            no_float_flag f "diesel")
  (Hsnapshot : snapshot w st df)
  (Hkept : select_postcode (args_get (arg_postcode req) "") df = Ok kept)
  (Hprices : Forall has_prices_mapping kept) :
  api_prices w req st
  = (Ok {| status := 200;
           body := Some (JArr (map (station_entry_by_truth f) kept)) |}, tick st) /\
  (forall key s, dict_get key f = Some (JStr s) -> s <> "" -> hidden f key = false).
Proof.
  split.
  - rewrite (api_prices_eq _ _ _ _ Hfilters).
    destruct Hsnapshot as (locations & prices & Hl & Hp & ->).
    unfold query. rewrite Hl, Hp. cbn [bind]. rewrite Hkept. cbn [bind].
    rewrite (mapM_map (station_data (JObj f)) (station_entry_by_truth f));
      [reflexivity|].
    eapply Forall_impl; [|exact Hprices]. intros row [p Hp'].
    destruct Hflags as (H1 & H2 & H3).
    unfold station_data, station_entry_by_truth, prices_of. rewrite Hp'.
    now rewrite !price_field_by_truth by assumption.
  - intros key s Hs Hne. unfold hidden. rewrite Hs. simpl.
    destruct s; [now elim Hne | reflexivity].
Qed.

Lemma mapM_modelled {A B : Type} (f : A -> outcome B) l :
  Forall (fun a => f a <> Unmodelled) l -> mapM f l <> Unmodelled.
Proof.
  induction 1 as [|a l Ha _ IH]; simpl; [discriminate|].
  destruct (f a); [|discriminate|now elim Ha]. cbn [bind].
  destruct (mapM f l); [discriminate|discriminate|now elim IH].
Qed.

Lemma mapM_Ok_In {A B : Type} (f : A -> outcome B) l :
  forall bs, mapM f l = Ok bs -> forall a, In a l -> exists b, f a = Ok b.
Proof.
  induction l as [|x l IH]; intros bs H a Hin; [destruct Hin|].
  simpl in H. destruct (f x) as [b| |] eqn:E; try discriminate. cbn [bind] in H.
  destruct (mapM f l) as [bs'| |]; try discriminate.
  destruct Hin as [<-|Hin]; [now exists b | now apply (IH bs')].
Qed.

(** X14.  The two texts of every row of the day are decoded before any
    row is selected: one row of the day whose location or prices is NULL
    or is no JSON makes every request with JSON filters fail with status
    500, whatever its postcode parameter. *)
Theorem undecodable_row_fails_every_request w req st filters row
  (Hfilters : json_loads (args_get (arg_filters req) "{}") = Ok filters)
  (Hmodelled : Forall (fun r => loads_cell (c_location r) <> Unmodelled /\
                                loads_cell (c_prices r) <> Unmodelled)
                      (todays_rows w st))
  (Hrow : In row (todays_rows w st))
  (Hbad : ~ decodes row) :
  api_prices w req st = (Ok {| status := 500; body := None |}, tick st).
Proof.
  rewrite (api_prices_eq _ _ _ _ Hfilters). unfold query.
  assert (Ml : mapM loads_cell (map c_location (todays_rows w st)) <> Unmodelled).
  { apply mapM_modelled. rewrite Forall_map.
    eapply Forall_impl; [|exact Hmodelled]. now intros r [H _]. }
  assert (Mp : mapM loads_cell (map c_prices (todays_rows w st)) <> Unmodelled).
  { apply mapM_modelled. rewrite Forall_map.
    eapply Forall_impl; [|exact Hmodelled]. now intros r [_ H]. }
  destruct (mapM loads_cell (map c_location _)) as [ls| |] eqn:El;
    [|reflexivity|now elim Ml].
  destruct (mapM loads_cell (map c_prices _)) as [ps| |] eqn:Ep;
    [|reflexivity|now elim Mp].
  elim Hbad.
  destruct (mapM_Ok_In _ _ _ El (c_location row)) as [l Hl]; [now apply in_map|].
  destruct (mapM_Ok_In _ _ _ Ep (c_prices row)) as [p Hp]; [now apply in_map|].
  now exists l, p.
Qed.

(** X15.  A postcode parameter that starts with a repetition operator
    or with a closing parenthesis is no pattern: [re.compile] refuses it
    and the request fails with status 500, even on a day without rows. *)
Theorem refused_pattern_is_status_500 w req st filters df
  (Hfilters : json_loads (args_get (arg_filters req) "{}") = Ok filters)
  (Hsnapshot : snapshot w st df)
  (Hhead : head_is (fun c => str_in (String c "") "*+?)")
                   (args_get (arg_postcode req) "") = true) :
  api_prices w req st = (Ok {| status := 500; body := None |}, tick st).
Proof.
  rewrite (api_prices_eq _ _ _ _ Hfilters).
  destruct Hsnapshot as (locations & prices & Hl & Hp & ->).
  unfold query. rewrite Hl, Hp. cbn [bind].
  unfold select_postcode, str_contains_nocase, re_compile. rewrite Hhead.
  destruct (args_get (arg_postcode req) ""); [discriminate | reflexivity].
Qed.

Lemma filter_other_days day before others after :
  Forall (fun row => c_date row <> Some day) others ->
  filter (date_is day) (before ++ others ++ after)%list
  = filter (date_is day) (before ++ after)%list.
Proof.
  intros H. rewrite !filter_app. f_equal.
  rewrite (filter_none (date_is day) others); [reflexivity|].
  rewrite Forall_forall in H. intros row Hin.
  destruct (date_is day row) eqn:E; [|reflexivity].
  apply date_is_iff in E. now elim (H row Hin).
Qed.

(** X16.  Only the rows of the day are read: rows dated otherwise,
    wherever they stand in the table, change nothing in the answer to
    any request. *)
Theorem rows_of_other_days_are_invisible w req st before others after
  (Hrows : fuel_prices (db st) = (before ++ after)%list)
  (Hothers : Forall (fun row => c_date row <> Some (today w st)) others) :
  fst (api_prices w req (with_rows st (before ++ others ++ after)%list))
  = fst (api_prices w req st).
Proof.
  unfold api_prices, flask_dispatch. rewrite !get_prices_eq.
  assert (E : todays_rows w (with_rows st (before ++ others ++ after)%list)
              = todays_rows w st).
  { unfold todays_rows, today, with_rows. cbn [db ticks fuel_prices].
    rewrite Hrows. now apply filter_other_days. }
  rewrite E.
  destruct (json_loads _); try reflexivity.
  now destruct (query _ _ _).
Qed.

(** X17.  [get_prices] only reads: whatever the request and however it
    is answered, the database is as before; the clock is read once when
    the filters are JSON and not at all otherwise. *)
Theorem get_prices_only_reads w req st :
  db (snd (api_prices w req st)) = db st /\
  ticks (snd (api_prices w req st))
  = match json_loads (args_get (arg_filters req) "{}") with
    | Ok _ => S (ticks st)
    | _ => ticks st
    end.
Proof.
  unfold api_prices, flask_dispatch. rewrite get_prices_eq.
  destruct (json_loads _); try (split; reflexivity).
  destruct (query _ _ _); split; reflexivity.
Qed.

(** ** The headers of an answer *)




(** ** The rows of the frames, appended *)

Lemma map_nth_seq {A : Type} (l : list A) d :
  map (fun i => nth i l d) (seq 0 (List.length l)) = l.
Proof.
  induction l as [|a l IH]; simpl; [reflexivity|].
  f_equal. rewrite <- seq_shift, map_map. exact IH.
Qed.

Lemma map_const_seq {A : Type} (a : A) n : map (fun _ => a) (seq 0 n) = repeat a n.
Proof.
  generalize 0. induction n as [|n IH]; intros k; simpl; [reflexivity|].
  now rewrite IH.
Qed.

Lemma concat_cells c frames :
  Forall full_columns frames ->
  flat_map (fun df => match dict_get c (columns df) with
                      | Some cells => cells
                      | None => repeat NaN (nrows df)
                      end) frames
  = map (fun p => cell_at c (fst p) (snd p)) (positions frames).
Proof.
  unfold positions. induction 1 as [|df frames Hfull _ IH]; simpl; [reflexivity|].
  rewrite map_app, IH. f_equal. rewrite map_map. unfold cell_at. cbn [fst snd].
  destruct (dict_get c (columns df)) as [cells|] eqn:E.
  - rewrite <- (Hfull _ _ E). symmetry. apply map_nth_seq.
  - symmetry. apply map_const_seq.
Qed.

Lemma positions_length frames :
  List.length (positions frames) = list_sum (map nrows frames).
Proof.
  unfold positions. induction frames as [|df frames IH]; simpl; [reflexivity|].
  now rewrite length_app, length_map, length_seq, IH.
Qed.

Lemma positions_In frames p :
  In p (positions frames) -> In (fst p) frames /\ snd p < nrows (fst p).
Proof.
  unfold positions. intros H. apply in_flat_map in H. destruct H as (df & Hdf & H).
  apply in_map_iff in H. destruct H as (i & <- & Hi). apply in_seq in Hi.
  simpl. split; [assumption | lia].
Qed.

Lemma sql_field_cell_at df i c :
  sql_field (df_row df i) c
  = match dict_get c (columns df) with
    | Some _ => sql_text (cell_at c df i)
    | None => Ok None
    end.
Proof.
  unfold sql_field, df_row, cell_at.
  rewrite (dict_get_map_values (fun cells => nth i cells NaN)).
  now destruct (dict_get c (columns df)).
Qed.

(** A row of the frame that [pd.concat] gives is stored as the row of the
    frame it comes from. *)
Lemma concat_sql_field frames j c :
  Forall full_columns frames -> j < list_sum (map nrows frames) ->
  let p := nth j (positions frames) (empty_frame, 0) in
  sql_field (df_row (pd_concat frames) j) c = sql_field (df_row (fst p) (snd p)) c.
Proof.
  intros Hfull Hj p.
  assert (Hp : In p (positions frames)).
  { apply nth_In. now rewrite positions_length. }
  destruct (positions_In _ _ Hp) as [Hdf Hi].
  rewrite (sql_field_cell_at (fst p)).
  unfold sql_field, df_row, pd_concat. cbn [columns].
  rewrite (dict_get_map_values (fun cells => nth j cells NaN)).
  rewrite (dict_get_map_keys
             (fun c => flat_map (fun df => match dict_get c (columns df) with
                                           | Some cells => cells
                                           | None => repeat NaN (nrows df)
                                           end) frames)).
  rewrite union_keys_mem, concat_cells by assumption.
  destruct (existsb _ (map _ frames)) eqn:E; cbn [option_map].
  - change NaN with ((fun p => cell_at c (fst p) (snd p)) (empty_frame, 0)) at 1.
    rewrite map_nth. fold p.
    destruct (dict_get c (columns (fst p))) eqn:G; [reflexivity|].
    unfold cell_at. now rewrite G.
  - destruct (dict_get c (columns (fst p))) eqn:G; [|reflexivity].
    exfalso. rewrite <- not_true_iff_false in E. apply E.
    apply existsb_exists. exists (dict_keys (columns (fst p))).
    split; [now apply (in_map (fun df => dict_keys (columns df)))|].
    now rewrite dict_get_keys, G.
Qed.

Lemma insert_row_ext r1 r2 key :
  (forall c, sql_field r1 c = sql_field r2 c) -> insert_row r1 key = insert_row r2 key.
Proof. intros H. unfold insert_row. now rewrite !H. Qed.

Lemma insert_rows_ext l1 l2 :
  Forall2 (fun r1 r2 => forall c, sql_field r1 c = sql_field r2 c) l1 l2 ->
  forall key, insert_rows l1 key = insert_rows l2 key.
Proof.
  induction 1 as [|r1 r2 l1 l2 Hr _ IH]; intros key; simpl; [reflexivity|].
  now rewrite (insert_row_ext r1 r2 key Hr), IH.
Qed.

Lemma Forall2_map_same {A B C : Type} (R : B -> C -> Prop) (f : A -> B) (g : A -> C) l :
  (forall a, In a l -> R (f a) (g a)) -> Forall2 R (map f l) (map g l).
Proof.
  induction l as [|a l IH]; intros H; simpl; constructor.
  - apply H. now left.
  - apply IH. intros b Hb. apply H. now right.
Qed.

Lemma concat_records frames :
  Forall full_columns frames ->
  Forall2 (fun r1 r2 => forall c, sql_field r1 c = sql_field r2 c)
          (map (df_row (pd_concat frames)) (seq 0 (nrows (pd_concat frames))))
          (records_of frames).
Proof.
  intros Hfull. unfold records_of. cbn [pd_concat nrows].
  replace (map (fun p => df_row (fst p) (snd p)) (positions frames))
    with (map (fun j => df_row (fst (nth j (positions frames) (empty_frame, 0)))
                               (snd (nth j (positions frames) (empty_frame, 0))))
              (seq 0 (list_sum (map nrows frames)))).
  2:{ rewrite <- positions_length.
      rewrite <- (map_map (fun j => nth j (positions frames) (empty_frame, 0))
                          (fun p => df_row (fst p) (snd p))).
      now rewrite map_nth_seq. }
  apply Forall2_map_same. intros j Hj c. apply in_seq in Hj.
  apply concat_sql_field; [assumption | lia].
Qed.

Lemma main_over_rows w sources st frames st1 :
  main_loop w sources [] st = (Ok frames, st1) ->
  fst (main_over w sources st) = Ok tt ->
  exists rows,
    insert_rows (records_of frames) (fuel_prices_id_seq (db st)) = Ok rows /\
    fuel_prices (db (snd (main_over w sources st)))
    = (fuel_prices (db st) ++ rows)%list.
Proof.
  intros Hloop Hrun.
  assert (Hdb : db st1 = db st).
  { pose proof (main_loop_db w sources [] st) as H. now rewrite Hloop in H. }
  assert (Hn : Forall (normalized w) frames).
  { eapply main_loop_normalized; [constructor | exact Hloop]. }
  assert (Hfull : Forall full_columns frames).
  { eapply Forall_impl; [|exact Hn]. intros df H. apply H. }
  revert Hrun. unfold main_over, bindM. rewrite Hloop.
  destruct frames as [|df frames].
  { intros _. exists []. simpl. now rewrite Hdb, app_nil_r. }
  unfold store_frames. set (combined := pd_concat (df :: frames)).
  unfold to_sql, delete_metadata, insert_metadata, datetime_now, bindM, get_db,
    put_db, lift, ret.
  destruct (existsb _ _); [discriminate|].
  destruct (negb _); [discriminate|].
  rewrite (insert_rows_ext _ _ (concat_records (df :: frames) Hfull)), Hdb.
  destruct (insert_rows _ _) as [rows| |]; try discriminate.
  intros _. exists rows. now split.
Qed.

(** X20.  The rows a run appends are the rows of the frames in its
    buffer: [pd.concat] and the INSERT of line 97 store them frame after
    frame and, within a frame, row after row, each with the cells it has
    in its own frame (a column its frame lacks is NULL) and with the next
    key of the sequence. *)
Theorem appended_rows_are_the_rows_of_the_frames w sources st frames st1
  (Hloop : main_loop w sources [] st = (Ok frames, st1))
  (Hrun : fst (main_over w sources st) = Ok tt) :
  exists rows,
    insert_rows (records_of frames) (fuel_prices_id_seq (db st)) = Ok rows /\
    fuel_prices (db (snd (main_over w sources st)))
    = (fuel_prices (db st) ++ rows)%list.
Proof. now apply (main_over_rows w sources st frames st1). Qed.

(** ** From the records of the sources to the response *)

















(** ** Examples of the properties above *)

Lemma sample_day n m : str_date (clock sample_world n) = str_date (clock sample_world m).
Proof. reflexivity. Defined.

Lemma appended_rows_are_dated_today_witness :
  exists new,
    fuel_prices (db (snd (main_over sample_world [down_url; good_url] fresh_state)))
    = ([] ++ new)%list /\
    Forall (fun row => c_date row = Some "2024-01-01") new.
Proof.
  exact (appended_rows_are_dated_today sample_world [down_url; good_url] fresh_state
           sample_day).
Defined.

Lemma second_run_same_day_adds_nothing_witness :
  fuel_prices (db (snd (main_over sample_world [good_url] fresh_state))) <> [] /\
  main_over sample_world urls (snd (main_over sample_world [good_url] fresh_state))
  = (Ok tt, {| db := db (snd (main_over sample_world [good_url] fresh_state));
               ticks := ticks (snd (main_over sample_world [good_url] fresh_state))
                        + 12 |}).
Proof.
  assert (Hnew : fuel_prices (db (snd (main_over sample_world [good_url] fresh_state)))
                 <> fuel_prices (db fresh_state))
    by (vm_compute; discriminate).
  split; [exact Hnew|].
  exact (second_run_same_day_adds_nothing sample_world [good_url] urls fresh_state
           sample_day Hnew).
Defined.



Lemma unknown_column_fails_the_run_witness :
  existsb (String.eqb "fax") table_columns = false /\
  main_over other_world [first_url] fresh_state
  = (Raise DatabaseError, {| db := empty_database; ticks := 2 |}).
Proof.
  split; [reflexivity|].
  refine (proj1 (unknown_column_fails_the_run other_world [first_url] fresh_state
                   _ _ _ "fax" _ _ _ _ _)).
  - vm_compute. reflexivity.
  - left. reflexivity.
  - vm_compute. reflexivity.
  - reflexivity.
  - intros df' [<-|[]]. vm_compute. reflexivity.
Defined.

Lemma background_run_never_raises_witness :
  fst (main other_world fresh_state) = Raise DatabaseError /\
  run_main_in_background other_world fresh_state
  = (Ok tt, snd (main other_world fresh_state)) /\
  db (snd (main other_world fresh_state)) = empty_database.
Proof.
  assert (H : fst (main other_world fresh_state) = Raise DatabaseError)
    by (vm_compute; reflexivity).
  split; [exact H|].
  destruct (background_run_never_raises other_world fresh_state) as (_ & _ & _ & G).
  exact (G DatabaseError H).
Defined.

Lemma source_without_station_frame_is_dropped_witness :
  http other_world nothing_url
  = Responded {| content_type := Some "application/json";
                 text := dq "{'stations': []}" |} /\
  no_station_frame (JArr []) = true /\
  fetch_and_process_data other_world nothing_url fresh_state
  = (Ok empty_frame, fresh_state).
Proof.
  split; [reflexivity|]. split; [reflexivity|].
  refine (proj1 (source_without_station_frame_is_dropped other_world nothing_url
                   fresh_state _ _ (JArr []) _ _ _ _ _ _)).
  - reflexivity.
  - vm_compute. reflexivity.
  - vm_compute. reflexivity.
  - vm_compute. reflexivity.
  - reflexivity.
  - vm_compute. discriminate.
Defined.

Lemma missing_key_is_stored_as_NaN_witness :
  exists df,
    fetch_and_process_data other_world gaps_url fresh_state = (Ok df, tick fresh_state) /\
    dict_get "prices" (df_row df 1) = Some (JStr "NaN").
Proof.
  edestruct (missing_key_is_stored_as_NaN other_world gaps_url fresh_state
               {| content_type := Some "application/json"; text := gaps_body |})
    with (i := 1) (c := "prices") as (df & H1 & H2 & _).
  - reflexivity.
  - vm_compute. reflexivity.
  - vm_compute. reflexivity.
  - vm_compute. reflexivity.
  - vm_compute. reflexivity.
  - vm_compute. reflexivity.
  - vm_compute. reflexivity.
  - vm_compute. reflexivity.
  - vm_compute. reflexivity.
  - right. reflexivity.
  - vm_compute. reflexivity.
  - exists df. split; assumption.
Defined.

Lemma loaded_snapshot rows :
  (exists locations, mapM loads_cell (map c_location rows) = Ok locations) ->
  (exists prices, mapM loads_cell (map c_prices rows) = Ok prices) ->
  todays_rows sample_world (state_of rows) = rows ->
  snapshot sample_world (state_of rows) (loaded_of rows).
Proof.
  intros [ls Hl] [ps Hp] Hrows. exists ls, ps. rewrite Hrows.
  unfold loaded_of. rewrite Hl, Hp. now repeat split.
Defined.

Lemma gap_snapshot :
  snapshot sample_world (state_of [sample_row; gap_row]) (loaded_of [sample_row; gap_row]).
Proof.
  apply loaded_snapshot; [eexists; vm_compute; reflexivity ..| reflexivity].
Defined.

Lemma prices_that_are_no_mapping_fail_the_request_witness :
  c_prices gap_row = Some "NaN" /\
  api_prices sample_world (request_of None None) (state_of [sample_row; gap_row])
  = (Ok {| status := 500; body := None |}, tick (state_of [sample_row; gap_row])) /\
  fst (api_prices sample_world
         (request_of None
            (Some (dq "{'unleaded': false, 'superUnleaded': false, 'diesel': false}")))
         (state_of [sample_row; gap_row]))
  = Ok {| status := 200;
          body := Some (JArr [ JObj [ ("brand", JStr "Tesco");
                                      ("address", JStr "1 High St");
                                      ("postcode", JStr "SW1A 1AA");
                                      ("unleaded", JNull);
                                      ("superUnleaded", JNull);
                                      ("diesel", JNull) ];
                               JObj [ ("brand", JStr "Esso");
                                      ("address", JStr "2 Low Rd");
                                      ("postcode", JStr "E1 6AN");
                                      ("unleaded", JNull);
                                      ("superUnleaded", JNull);
                                      ("diesel", JNull) ] ]) |}.
Proof.
  split; [reflexivity|]. split; [|vm_compute; reflexivity].
  refine (prices_that_are_no_mapping_fail_the_request sample_world
            (request_of None None) (state_of [sample_row; gap_row]) []
            (loaded_of [sample_row; gap_row]) (loaded_of [sample_row; gap_row])
            {| stored := gap_row; loaded_location := _; loaded_prices := NaN |}
            _ no_flags gap_snapshot _ _ _).
  - vm_compute. reflexivity.
  - reflexivity.
  - right. left. vm_compute. reflexivity.
  - reflexivity.
Defined.

Lemma filters_that_are_no_object_witness :
  json_loads "[]" = Ok (JArr []) /\
  api_prices sample_world (request_of None (Some "[]")) sample_state
  = (Ok {| status := 500; body := None |}, tick sample_state) /\
  api_prices sample_world (request_of (Some "E1") (Some "[]")) sample_state
  = (Ok {| status := 200; body := Some (JArr []) |}, tick sample_state).
Proof.
  split; [vm_compute; reflexivity|]. split.
  - refine (filters_that_are_no_object sample_world (request_of None (Some "[]"))
              sample_state (JArr []) sample_loaded sample_loaded _ _ sample_snapshot _).
    + vm_compute. reflexivity.
    + reflexivity.
    + reflexivity.
  - refine (filters_that_are_no_object sample_world (request_of (Some "E1") (Some "[]"))
              sample_state (JArr []) sample_loaded [] _ _ sample_snapshot _).
    + vm_compute. reflexivity.
    + reflexivity.
    + vm_compute. reflexivity.
Defined.

Lemma flags_are_judged_by_truth_value_witness :
  hidden [("diesel", JStr "false"); ("unleaded", JInt 0)] "diesel" = false /\
  hidden [("diesel", JStr "false"); ("unleaded", JInt 0)] "unleaded" = true /\
  api_prices sample_world
    (request_of None (Some (dq "{'diesel': 'false', 'unleaded': 0}"))) sample_state
  = (Ok {| status := 200;
           body := Some (JArr [ JObj [ ("brand", JStr "Tesco");
                                       ("address", JStr "1 High St");
                                       ("postcode", JStr "SW1A 1AA");
                                       ("unleaded", JNull);
                                       ("superUnleaded", JNull);
                                       ("diesel", JInt 150) ] ]) |},
     tick sample_state).
Proof.
  split; [reflexivity|]. split; [reflexivity|].
  refine (proj1 (flags_are_judged_by_truth_value sample_world
                   (request_of None (Some (dq "{'diesel': 'false', 'unleaded': 0}")))
                   sample_state [("diesel", JStr "false"); ("unleaded", JInt 0)]
                   sample_loaded sample_loaded _ _ sample_snapshot _ sample_prices)).
  - vm_compute. reflexivity.
  - repeat split; intros r; vm_compute; discriminate.
  - reflexivity.
Defined.

Lemma undecodable_row_fails_every_request_witness :
  c_location null_row = None /\
  contains_nocase "SW1A" "M1 1AE" = false /\
  api_prices sample_world (request_of (Some "SW1A") None)
             (state_of [sample_row; null_row])
  = (Ok {| status := 500; body := None |}, tick (state_of [sample_row; null_row])).
Proof.
  split; [reflexivity|]. split; [vm_compute; reflexivity|].
  refine (undecodable_row_fails_every_request sample_world
            (request_of (Some "SW1A") None) (state_of [sample_row; null_row])
            (JObj []) null_row _ _ _ _).
  - vm_compute. reflexivity.
  - apply Forall_forall. intros r Hr. vm_compute in Hr.
    destruct Hr as [<-|[<-|[]]]; split; vm_compute; discriminate.
  - right. left. reflexivity.
  - intros (l & p & Hl & _). discriminate Hl.
Defined.

Lemma fresh_snapshot : snapshot sample_world fresh_state [].
Proof. exists [], []. repeat split. Defined.

Lemma refused_pattern_is_status_500_witness :
  fuel_prices (db fresh_state) = [] /\
  api_prices sample_world (request_of (Some "+44") None) fresh_state
  = (Ok {| status := 500; body := None |}, tick fresh_state).
Proof.
  split; [reflexivity|].
  refine (refused_pattern_is_status_500 sample_world (request_of (Some "+44") None)
            fresh_state (JObj []) [] _ fresh_snapshot _).
  - vm_compute. reflexivity.
  - vm_compute. reflexivity.
Defined.

Lemma rows_of_other_days_are_invisible_witness :
  c_date old_row = Some "2023-12-31" /\
  fst (api_prices sample_world (request_of None None)
         (with_rows sample_state [old_row; sample_row]))
  = fst (api_prices sample_world (request_of None None) sample_state).
Proof.
  split; [reflexivity|].
  refine (rows_of_other_days_are_invisible sample_world (request_of None None)
            sample_state [] [old_row] [sample_row] _ _).
  - reflexivity.
  - repeat constructor. vm_compute. discriminate.
Defined.

Lemma postcode_pattern_selects_rows_witness :
  re_compile "s.1a" = Ok [Lit "s"; AnyChar; Lit "1"; Lit "a"] /\
  contains_nocase "s.1a" "SW1A 1AA" = false /\
  api_prices sample_world (request_of (Some "s.1a") None) sample_state
  = (Ok {| status := 200; body := Some (JArr (entries [] sample_loaded)) |},
     tick sample_state).
Proof.
  split; [vm_compute; reflexivity|]. split; [vm_compute; reflexivity|].
  refine (postcode_pattern_selects_rows sample_world (request_of (Some "s.1a") None)
            sample_state [] sample_loaded [Lit "s"; AnyChar; Lit "1"; Lit "a"]
            _ no_flags sample_snapshot sample_postcodes sample_prices _ _).
  - vm_compute. reflexivity.
  - discriminate.
  - vm_compute. reflexivity.
Defined.

Lemma every_fetched_row_is_appended_witness :
  existsb (date_is "2024-01-01") (fuel_prices (db fresh_state)) = false /\
  list_sum (map nrows (flat_map (frame_from sample_world "2024-01-01")
                                [down_url; good_url; html_url])) = 1 /\
  List.length (fuel_prices (db (snd (main_over sample_world
                                       [down_url; good_url; html_url] fresh_state))))
  = 0 + 1.
Proof.
  split; [reflexivity|]. split; [vm_compute; reflexivity|].
  refine (proj2 (every_fetched_row_is_appended sample_world "2024-01-01"
                   [down_url; good_url; html_url] fresh_state _ _ _) _).
  - intros n. reflexivity.
  - reflexivity.
  - repeat constructor; intros r Hhttp Hct; vm_compute in Hhttp;
      try discriminate; inversion Hhttp; subst; vm_compute; discriminate.
  - vm_compute. reflexivity.
Defined.

Lemma appended_rows_are_the_rows_of_the_frames_witness :
  exists frames rows,
    fst (main_loop sample_world [down_url; good_url; html_url] [] fresh_state)
    = Ok frames /\
    insert_rows (records_of frames) 1 = Ok rows /\
    fuel_prices (db (snd (main_over sample_world [down_url; good_url; html_url]
                                    fresh_state)))
    = ([] ++ rows)%list.
Proof.
  pose (frames := match fst (main_loop sample_world [down_url; good_url; html_url]
                                       [] fresh_state) with
                  | Ok frames => frames
                  | _ => []
                  end).
  assert (Hloop : main_loop sample_world [down_url; good_url; html_url] [] fresh_state
                  = (Ok frames, snd (main_loop sample_world
                                       [down_url; good_url; html_url] [] fresh_state)))
    by (vm_compute; reflexivity).
  destruct (appended_rows_are_the_rows_of_the_frames sample_world
              [down_url; good_url; html_url] fresh_state frames _ Hloop)
    as (rows & Hins & Htable).
  - vm_compute. reflexivity.
  - exists frames, rows. split; [now rewrite Hloop|]. now split.
Defined.

